(* ===== verification/_CoqProject ===== *)
-Q . S2P
Prelude.v
Query.v
Ip.v
Js.v
Azure.v
Token.v
World.v
Config.v
Dotenv.v
Sas.v
Storage.v
Proxy.v
Server.v
Index.v
Imports.v
Lifecycle.v
Service.v
Flight.v
