(* ===== verification/Prelude.v ===== *)
(** * source-maps-tool: a verification library for the SAS-injecting proxy

    The program ([src/src/index.ts], 84 lines of TypeScript) is an HTTPS
    reverse proxy in front of an Azure blob container.  It has two parts
    and a start-up sequence that joins them:

    - the _token provisioner_, [getReadOnlySasQueryParameter] (lines
      29-49), asks Azure for a user delegation key and signs with it one
      read-only, HTTPS-only SAS token for one container;
    - the _rewriting proxy_ (lines 53-65) is an express application with
      one middleware mounted on [/<container>], whose [pathRewrite]
      appends [?<token>] to the path of every request it forwards to
      [https://<account>.blob.core.windows.net];
    - the module's top level and its [async] main function (lines 1-27
      and 51-84) import the seven modules the rest of the file calls,
      load the file [.env] into [process.env]
      ([dotenv.config()]), read six settings from [process.env], refuse
      to start when one is missing, await the token, build the
      application, read the TLS key and certificate, and listen on
      [local.teams.office.com:443].

    ** Files, in the order they are checked

    - [Prelude] (this file): the result type [Result]; the state and
      exception monad [Eff] in which every effectful line of the program
      is written, with [try_catch], its laws, its pointwise equivalence
      [≡ₑ], triples ([hoare]), preserved relations ([stable]) and
      preserved invariants ([preserves], [returning]) with the rules that
      compose them along a program; string functions ([Str]: counting,
      breaking, splitting and joining) and their lemmas; the hint
      database [eff] and the tactics [eff_run], [eff_simpl],
      [destruct_run], [by_compute].
    - [Query]: the query-string form of the token: pairs [key=value]
      joined by [&], percent-encoded byte by byte ([escape], [unescape],
      [print], [parse]).
    - [Ip]: IPv4 addresses as four bytes, their dotted form
      ([printIpv4], [parseIpv4]) and the address range of a token
      ([parseIpRange], [inIpRange]), which gives the two strings of
      line 41 their meaning.
    - [Js]: what the source uses of JavaScript: truthiness of
      [string | undefined] (the [!x] of line 25), numbers, [Date] with the
      TimeClip range of [new Date(v)], [getTime], [valueOf], and exactness
      of the additions of lines 34 and 40.
    - [Azure]: the values the program hands to the Azure SDK
      ([BlobServiceClient], [BlobSASSignatureValues], ...),
      [ContainerSASPermissions.parse] with its inverse [toString], and the
      class [BlobSdk]: the three operations of the SDK whose bodies are
      not in the repository.  Every theorem holds for every instance of
      the class.  [BlobSdkLaws] is what the theorems on the token as a
      string ask of an instance: a token reads back ([sas_fields]) as
      the fields that were signed and the account and container it was
      signed for ([SasFields], [fieldsOf]), its times rounded down to
      the resolution they are written to ([truncateDate]).
    - [Token]: instances of the class for the examples, with a token
      that is a query string ([tokenSdk] at a given resolution:
      [sampleSdk] in milliseconds, [secondsSdk] in seconds as the
      service writes them, and [offlineSdk], whose key request is
      refused), and the proof that they keep [BlobSdkLaws].  Their
      signature is a stand-in that names the account and the container,
      which is what the real one binds.
    - [World]: the state the program runs in ([World]: environment, files,
      clock, bindable addresses, trace of events) and one primitive per
      effectful call of [index.ts]: [process_env], [Date_now],
      [console_log], [readFileSync], [listen],
      [await_getUserDelegationKey], [call_generateBlobSASQueryParameters].
      [Event_wf] says when an event makes sense to its receiver and
      [World_wf] that every event of the trace does.
    - [Config]: lines 18-27.  [readEnv] is the six constants, [missing]
      the condition of the guard, [checkConfig] the guard, [loadConfig]
      all of it.
    - [Dotenv]: line 16.  [dotenv_config] is the library's [config()]:
      read [.env], ignore a failed read, assign every parsed key that
      [process.env] lacks ([populate]).  The parser is the class
      [DotenvParser]; [lineParser] is an instance for plain
      [KEY=VALUE] lines.  [loaded] is the world line 16 leaves and
      [setting] the value a variable then has.
    - [Sas]: lines 29-49.  [getReadOnlySasQueryParameter] is the function,
      statement by statement; [provisioned] and [provisionedWorld] are its
      result and its effects in closed form
      ([run_getReadOnlySasQueryParameter]); [signedFields] is what a
      token minted for the arguments of lines 36-45 says.
    - [Storage]: the decision of the storage service on a request that
      carries the token, from the specification's output guarantee:
      the account and the container, the permission of the operation,
      the address, the transport and the window ([grants], on the
      fields of a
      token; [authorizes], on the values signed at lines 36-45), and on
      the token string as the service receives it ([accepts]).
    - [Proxy]: lines 53-65.  [pathRewrite], [proxyOptions], [mountPath]
      and [createApp] are the code; [mounted], [proxyMiddleware] and
      [handle] are what express and http-proxy-middleware do with them.
    - [Server]: lines 18-84.  [main] is the function of line 51 and
      [program] the module from line 18 on (the guard, then [main]);
      [startup] is the outcome of [main] in closed form ([run_main]).
    - [Index]: lines 16-84.  [index] is the module from its first
      statement: [dotenv_config], then [program].
    - [Imports]: lines 1-14 and the whole file.  [imports] is the table
      of the seven import declarations, [load] the evaluation of one
      (the loader of the runtime looks the specifier up and throws when
      it finds nothing), [loadImports] the seven in the order of the
      file, and [entry] the module from its first line: the imports,
      then [index].  The loader is the class [ModuleLoader];
      [nodeModules] is an instance for the examples.
    - [Lifecycle]: the running process as a labelled transition system
      ([Step], and [next] and [exec] as functions) whose start runs
      [entry] and whose requests run [handle]; the proxy of the
      specification as a second one ([AbsStep]); the simulation between
      them; and the well-formedness of processes ([Process_wf]).
    - [Service]: the storage service on one forwarded request
      ([serve]: the [Host] of the account, a token that opens the
      container the path names, then the blob looked up in a map) and
      what the client of the proxy gets from it ([reply]), from the
      specification.
    - [Flight]: the process with requests in flight ([FStep], and
      [fnext] and [fexec] as functions): an accepted request runs the
      application as [Step] does and its connection waits in a finite
      map ([pending]) until the origin's result is relayed
      ([Complete], [relay]); from the concurrency and error models of
      the specification (sections 5 and 7).

    ** Reading the model

    Definitions carry the names of the TypeScript symbols they translate.
    A computation is a function from the world before to a result ([Ok]
    or [Throw]) and the world after; the world survives a thrown
    exception, as the JavaScript heap does.  [await] is sequencing: the
    program has one thread of control until it listens, and afterwards
    each request is one transition in [Lifecycle] and two in [Flight]
    (forwarded, then answered), where the transitions of different
    connections interleave in any order.  The trace records every call that
    can be observed from outside the process, in program order, so that
    ordering properties (nothing is bound before the token is there) are
    statements about lists.

    ** What the theorems show

    - [Config]: loading succeeds exactly when all six variables are set
      and non-empty, returns their values, throws the error of line 26
      otherwise, needs each variable on its own, and changes nothing.
    - [Sas]: what is signed is read-only, HTTPS-only, for the configured
      account and container; the function succeeds and fails exactly with
      the two SDK calls; it calls the SDK at most twice and reads the
      clock four times; the token's window is 86400 ms long (not a day)
      and the key's 100000 ms; when the token outlives its key; the
      address range it signs holds every IPv4 address
      ([provision_admits_every_address]); and, for an SDK that keeps
      [BlobSdkLaws], what the returned string decodes to
      ([provision_token_decodes]).
    - [Ip]: the dotted form of an address reads back as the address
      ([parseIpv4_print]), addresses are ordered by their value
      ([ipValue_inj]), and the range from [0.0.0.0] to
      [255.255.255.255] holds them all ([inIpRange_all]).
    - [Query] and [Token]: encoding and decoding are inverse to each
      other for every string and every list of pairs
      ([unescape_escape], [parse_print_pairs]); a token of the reference
      SDK reads back as what was signed, at its resolution
      ([token_fields_toString]).
    - [Storage]: a token minted for what the program signs authorises a
      read of the configured container of the configured account over a
      secure transport inside the window and nothing else
      ([capability_iff]); the same for the
      string the provisioner returned ([accepts_provisioned]); past
      the signed expiry nothing is accepted, at any resolution
      ([accepts_expired]).
    - [Proxy]: the upstream request of a mounted request (origin, [Host]
      header, path and token byte for byte); unmounted requests are left
      alone; the answer depends on the path only ([samePath], an
      equivalence on requests that [upstreamOf], [handle] and the
      machine of the specification respect); the rewrite is
      injective and splits back into path and token; what happens to a
      query string of the client.
    - [Server]: the program serves exactly when configuration, token,
      both files and the address are there; it listens only after all of
      them; the order of its effects; it fails fast; the value of
      [SSL_HOST] is not used.
    - [Dotenv] and [Index]: [dotenv.config()] never throws and never
      replaces a variable that is set; the module serves exactly when
      the six settings, taken from the environment first and from [.env]
      second, are non-empty and the rest of start-up succeeds; a variable
      set to the empty string stops start-up whatever [.env] holds; a
      missing [.env] is not an error; start-up ends after at most eleven
      observable actions.
    - [Imports]: the whole module returns a server exactly when every
      import resolves and [index] returns that server ([entry_Ok_iff]);
      an import that does not resolve ends the module with the loader's
      error for the first such import of the file, before [.env], the
      environment or the clock is read ([entry_missing_module]); when
      all resolve the module is [index] ([entry_resolved]), so that the
      theorems of [Index] hold of the file as a whole.
    - [Lifecycle]: every run of the process is a run of the proxy of the
      specification ([refinement]); the invariant of the serving phase;
      one token for the whole run; the forwarded requests are the mounted
      ones in arrival order; each of them carries the token of the
      start-up, which the service accepts for a secure read inside the
      window signed then and refuses afterwards, however long the
      process goes on forwarding ([forwarded_token_capability]); once
      up, every request is answered; every
      reachable state is well formed ([reachable_wf], proved by composing
      [preserves] along the text of each function); [exec] computes
      [Step].
    - [Service]: end to end ([client_reads_blob]): in every run, a
      client that asks for a blob of the configured container and is
      answered gets the service's copy of it while the service's clock
      is inside the window of the token of the start-up, and the
      service's refusal at any other time; a request outside the mount
      gets nothing from the service.
    - [Flight]: a run with requests in flight, its completions erased,
      is a run of [Lifecycle.Step] ([flight_simulation]), so that the
      theorems on runs hold of it; no connection sees what happens on
      another: its events, taken out of a run, are a run of their own
      ([flight_independent], by the equivalence [agree] of the states
      a connection cannot tell apart); every reply answers the one
      request its connection was waiting for ([flight_reply_matches]);
      an upstream failure reaches one client and changes nothing else
      ([failure_isolated]); and the end-to-end statement with the
      service as the origin ([flight_client_reads_blob]).

    ** Bounds

    Nothing in the model needs fuel: the program has no loop, and the
    only recursion is structural (on strings, and on the list of inputs
    in [exec] and [fexec]).  The number of requests in flight is not
    bounded: [pending] is a finite map over all connection numbers.
    Every computation is a total function of the world, so
    that start-up ends is not in question; what [index_terminates] adds
    is the bound on what it does before it ends.  Numbers are integers
    or [NaN]: the program adds integral
    constants to clock readings, and the theorems on dates assume
    [clockInRange] (every reading within the 8.64e15 ms a [Date] can
    hold), under which the sums stay below 2^53 and the additions on
    doubles are exact ([provision_sums_exact]); where a sum can leave
    the range of [Date] the model yields an invalid date, as
    [new Date] does.  The clock is a function from the index of a
    reading to its value; [monotone] is assumed only where a theorem
    says so.  The clock of the sample world advances 5 ms per reading
    for a thousand readings and then stands still, which keeps it
    monotone and in range with a closed proof.  Strings are sequences of
    8-bit characters; the program only concatenates and compares them.
    The resolution of a token's times is a parameter of [BlobSdkLaws],
    any positive number of milliseconds: the theorems hold for the
    service's seconds as for the milliseconds of the sample.

    ** What is not modelled

    TLS, sockets, the HTTP parser and the bodies of the third-party
    libraries (express, http-proxy-middleware, the Azure SDK, dotenv) are
    not in the repository.  The SDK is the interface [BlobSdk] with the
    one law of [BlobSdkLaws]; how the real SDK spells a token (ISO 8601
    times, the signature and its key) is its business, and the
    instances of [Token] are stand-ins that keep the law, not copies of
    it.  [Storage] and [Service] say what a genuine token allows and
    what the service then answers; they leave out the check of the
    signature against a key, addresses other than IPv4, every
    operation but the read of a blob, and percent-decoding of blob
    names.  [Query]
    encodes bytes: characters of more than one
    byte are not modelled.  Of dotenv the contract of [config()] is
    modelled and the
    parser is a parameter; quoting, trimming and the options of
    [config()] are not.  Express and http-proxy-middleware are reduced
    to what the specification says of them: a request is handed to the
    middleware when its path begins with the mount path, the middleware
    rewrites the original path and, with [changeOrigin], sets [Host] to
    the host of the target.  Request methods, headers other than [Host],
    bodies and the segment and case rules of express routing are outside
    the model.  [Flight] has one request per connection at a time and
    an origin that answers or cannot be reached; time-outs, clients
    that go away before the answer, streaming and the reuse of upstream
    connections are not modelled.  Of the [import] statements of lines
    1-14 the model has the order in which the specifiers are resolved
    and the failure of one that is not found; how the runtime resolves
    a specifier is a parameter ([ModuleLoader]), the code the packages
    run when they are loaded is taken to do nothing that can be
    observed, and a package is taken to export the names imported from
    it. *)

From Stdlib Require Import ZArith Lia Ascii.
From stdpp Require Import base tactics option list strings.

Set Default Proof Using "Type".

Declare Scope eff_scope.
Delimit Scope eff_scope with eff.

(** ** Results: a value or a thrown exception *)

Inductive Result (E A : Type) : Type :=
| Ok (a : A)
| Throw (e : E).

Arguments Ok {E A} a.
Arguments Throw {E A} e.

Definition isOk {E A} (r : Result E A) : bool :=
  match r with Ok _ => true | Throw _ => false end.

Definition isThrow {E A} (r : Result E A) : bool :=
  match r with Ok _ => false | Throw _ => true end.

Definition result_map {E A B} (f : A → B) (r : Result E A) : Result E B :=
  match r with Ok a => Ok (f a) | Throw e => Throw e end.

Definition result_bind {E A B} (r : Result E A) (f : A → Result E B) : Result E B :=
  match r with Ok a => f a | Throw e => Throw e end.

Definition result_to_option {E A} (r : Result E A) : option A :=
  match r with Ok a => Some a | Throw _ => None end.

#[global] Instance Result_eq_dec {E A} `{EqDecision E, EqDecision A} :
  EqDecision (Result E A).
Proof. solve_decision. Defined.

(** ** The monad of effectful code: state passing with exceptions *)

Definition Eff (W E A : Type) : Type := W → Result E A * W.

Definition run {W E A} (m : Eff W E A) (w : W) : Result E A * W := m w.

Definition result_of {W E A} (m : Eff W E A) (w : W) : Result E A := (run m w).1.

Definition world_of {W E A} (m : Eff W E A) (w : W) : W := (run m w).2.

#[global] Instance Eff_ret {W E} : MRet (Eff W E) :=
  λ A a w, (Ok a, w).

#[global] Instance Eff_bind {W E} : MBind (Eff W E) :=
  λ A B f m w,
    match m w with
    | (Ok a, w') => f a w'
    | (Throw e, w') => (Throw e, w')
    end.

#[global] Instance Eff_fmap {W E} : FMap (Eff W E) :=
  λ A B f m w,
    match m w with
    | (Ok a, w') => (Ok (f a), w')
    | (Throw e, w') => (Throw e, w')
    end.

Definition throw {W E A} (e : E) : Eff W E A := λ w, (Throw e, w).

Definition gets {W E A} (f : W → A) : Eff W E A := λ w, (Ok (f w), w).

Definition modify {W E} (f : W → W) : Eff W E unit := λ w, (Ok tt, f w).

Definition liftResult {W E A} (r : Result E A) : Eff W E A := λ w, (r, w).

(** [try { m } catch (e) { h e }]: the handler runs in the world the body
    left when it threw. *)
Definition try_catch {W E A} (m : Eff W E A) (h : E → Eff W E A) : Eff W E A :=
  λ w,
    match m w with
    | (Ok a, w') => (Ok a, w')
    | (Throw e, w') => h e w'
    end.

(** Two computations are equivalent when they agree on every world. *)
Definition eff_equiv {W E A} (m1 m2 : Eff W E A) : Prop :=
  ∀ w, run m1 w = run m2 w.

Infix "≡ₑ" := eff_equiv (at level 70, no associativity) : eff_scope.

(** A Hoare triple: from a world satisfying [P], the result and the world
    after satisfy [Q] (exceptions are results like any other). *)
Definition hoare {W E A} (P : W → Prop) (m : Eff W E A)
    (Q : Result E A → W → Prop) : Prop :=
  ∀ w, P w → Q (result_of m w) (world_of m w).

Notation "⦃ P ⦄ m ⦅ Q ⦆" := (hoare P m Q)
  (at level 0, m at level 200, format "⦃  P  ⦄  m  ⦅  Q  ⦆") : eff_scope.

(** A relation between the world before and after that [m] respects,
    whatever the result. *)
Definition stable {W E A} (R : relation W) (m : Eff W E A) : Prop :=
  ∀ w, R w (world_of m w).

(** An invariant of the world that [m] preserves, whatever the result. *)
Definition preserves {W E A} (I : W → Prop) (m : Eff W E A) : Prop :=
  hoare I m (λ _, I).

(** [m] preserves [I] and what it returns satisfies [R]. *)
Definition returning {W E A} (I : W → Prop) (R : A → Prop) (m : Eff W E A) : Prop :=
  hoare I m (λ r w, I w ∧ ∀ a, r = Ok a → R a).

Open Scope eff_scope.

(** ** Strings *)

Module Str.

Fixpoint count (c : ascii) (s : string) : nat :=
  match s with
  | EmptyString => 0
  | String a s' => (if decide (a = c) then 1 else 0) + count c s'
  end.

Definition contains (c : ascii) (s : string) : bool :=
  bool_decide (0 < count c s).

(** [break c s]: the part of [s] before the first [c], and the part after
    it when [c] occurs. *)
Fixpoint break (c : ascii) (s : string) : string * option string :=
  match s with
  | EmptyString => (EmptyString, None)
  | String a s' =>
      if decide (a = c) then (EmptyString, Some s')
      else let '(h, t) := break c s' in (String a h, t)
  end.

Definition starts_with (p s : string) : bool := String.prefix p s.

Fixpoint drop (n : nat) (s : string) : string :=
  match n, s with
  | O, _ => s
  | S n', String _ s' => drop n' s'
  | S _, EmptyString => EmptyString
  end.

(** [strip p s]: [s] without its prefix [p], when it begins with it. *)
Definition strip (p s : string) : option string :=
  if starts_with p s then Some (drop (String.length p) s) else None.

(** [split c s]: the pieces of [s] between the occurrences of [c], as
    JavaScript's [s.split(c)] gives them. *)
Fixpoint split (c : ascii) (s : string) : list string :=
  match s with
  | EmptyString => [EmptyString]
  | String a s' =>
      if decide (a = c) then EmptyString :: split c s'
      else match split c s' with
           | h :: t => String a h :: t
           | [] => [String a EmptyString]
           end
  end.

(** [join c l]: the pieces with [c] between them, as [l.join(c)]. *)
Fixpoint join (c : ascii) (l : list string) : string :=
  match l with
  | [] => EmptyString
  | [s] => s
  | s :: l' => s +:+ String c (join c l')
  end.

End Str.

(** ** Tactics *)

(** Unfold the monad's operations in the goal and in the hypotheses. *)
Ltac eff_unfold :=
  unfold preserves, hoare, stable, eff_equiv, result_of, world_of, run,
    mbind, mret, fmap, Eff_bind, Eff_ret, Eff_fmap,
    throw, gets, modify, liftResult, try_catch in *.

(** Case analysis on the first computation whose result is matched on. *)
Ltac destruct_run :=
  match goal with
  | |- context [match ?m ?w with _ => _ end] =>
      let r := fresh "r" in let w' := fresh "w'" in let E := fresh "Hrun" in
      destruct (m w) as [[r|r] w'] eqn:E
  | H : context [match ?m ?w with _ => _ end] |- _ =>
      let r := fresh "r" in let w' := fresh "w'" in let E := fresh "Hrun" in
      destruct (m w) as [[r|r] w'] eqn:E
  end.

(** Prove a decidable closed proposition by evaluating its decision. *)
Ltac by_compute := apply (bool_decide_unpack _); vm_compute; exact I.

Create HintDb eff discriminated.
Create Rewrite HintDb eff.

(** * Lemmas *)

Section Results.
Context {E A B : Type}.
Implicit Types (r : Result E A) (f : A → B).

Lemma isOk_true r : isOk r = true ↔ ∃ a, r = Ok a.
Proof. destruct r; naive_solver. Qed.

Lemma isThrow_true r : isThrow r = true ↔ ∃ e, r = Throw e.
Proof. destruct r; naive_solver. Qed.

Lemma isOk_negb_isThrow r : isOk r = negb (isThrow r).
Proof. by destruct r. Qed.

Lemma result_map_Ok f r b : result_map f r = Ok b ↔ ∃ a, r = Ok a ∧ b = f a.
Proof. destruct r; naive_solver. Qed.

Lemma result_map_Throw f r e : result_map f r = Throw e ↔ r = Throw e.
Proof. destruct r; naive_solver. Qed.

End Results.

Section Eff.
Context {W E : Type}.
Implicit Types (w : W) (e : E).

Lemma run_ret {A} (a : A) w : run (mret a : Eff W E A) w = (Ok a, w).
Proof. done. Qed.

Lemma run_throw {A} e w : run (throw e : Eff W E A) w = (Throw e, w).
Proof. done. Qed.

Lemma run_gets {A} (f : W → A) w : run (gets f : Eff W E A) w = (Ok (f w), w).
Proof. done. Qed.

Lemma run_modify (f : W → W) w : run (modify f : Eff W E unit) w = (Ok tt, f w).
Proof. done. Qed.

Lemma run_liftResult {A} (r : Result E A) w : run (liftResult r : Eff W E A) w = (r, w).
Proof. done. Qed.

Lemma run_bind {A B} (m : Eff W E A) (f : A → Eff W E B) w :
  run (m ≫= f) w =
  match run m w with
  | (Ok a, w') => run (f a) w'
  | (Throw e, w') => (Throw e, w')
  end.
Proof. done. Qed.

Lemma run_bind_Ok {A B} (m : Eff W E A) (f : A → Eff W E B) w a w' :
  run m w = (Ok a, w') → run (m ≫= f) w = run (f a) w'.
Proof. rewrite run_bind. by intros ->. Qed.

Lemma run_bind_Throw {A B} (m : Eff W E A) (f : A → Eff W E B) w e w' :
  run m w = (Throw e, w') → run (m ≫= f) w = (Throw e, w').
Proof. rewrite run_bind. by intros ->. Qed.

(** Inversion of a successful bind: both halves succeeded. *)
Lemma run_bind_inv_Ok {A B} (m : Eff W E A) (f : A → Eff W E B) w b w2 :
  run (m ≫= f) w = (Ok b, w2) →
  ∃ a w1, run m w = (Ok a, w1) ∧ run (f a) w1 = (Ok b, w2).
Proof. rewrite run_bind. destruct (run m w) as [[a|e] w1]; naive_solver. Qed.

(** Inversion of a failed bind: the first half threw, or the second did. *)
Lemma run_bind_inv_Throw {A B} (m : Eff W E A) (f : A → Eff W E B) w e w2 :
  run (m ≫= f) w = (Throw e, w2) →
  run m w = (Throw e, w2) ∨
  ∃ a w1, run m w = (Ok a, w1) ∧ run (f a) w1 = (Throw e, w2).
Proof. rewrite run_bind. destruct (run m w) as [[a|e'] w1]; naive_solver. Qed.

Lemma run_fmap {A B} (g : A → B) (m : Eff W E A) w :
  run (g <$> m) w = ((result_map g (run m w).1), (run m w).2).
Proof. unfold run, fmap, Eff_fmap. by destruct (m w) as [[]]. Qed.

Lemma run_try_catch {A} (m : Eff W E A) (h : E → Eff W E A) w :
  run (try_catch m h) w =
  match run m w with
  | (Ok a, w') => (Ok a, w')
  | (Throw e, w') => run (h e) w'
  end.
Proof. done. Qed.

(** A handler that cannot throw makes the whole block safe. *)
Lemma try_catch_Ok {A} (m : Eff W E A) (h : E → Eff W E A) w :
  (∀ e w', isOk (result_of (h e) w') = true) →
  isOk (result_of (try_catch m h) w) = true.
Proof.
  intros Hh. unfold result_of. rewrite run_try_catch.
  destruct (run m w) as [[a|e] w']; [done | apply Hh].
Qed.

(** The monad laws, up to [≡ₑ]. *)
Lemma eff_bind_ret_l {A B} (a : A) (f : A → Eff W E B) : (mret a ≫= f) ≡ₑ f a.
Proof. done. Qed.

Lemma eff_bind_ret_r {A} (m : Eff W E A) : (m ≫= mret) ≡ₑ m.
Proof. intros w. rewrite run_bind. by destruct (run m w) as [[]]. Qed.

Lemma eff_bind_assoc {A B C} (m : Eff W E A) (f : A → Eff W E B) (g : B → Eff W E C) :
  ((m ≫= f) ≫= g) ≡ₑ (m ≫= λ a, f a ≫= g).
Proof. intros w. rewrite !run_bind. by destruct (run m w) as [[]]. Qed.

Lemma eff_throw_bind {A B} e (f : A → Eff W E B) : (throw e ≫= f) ≡ₑ throw e.
Proof. done. Qed.

#[global] Instance eff_equiv_equivalence {A} : Equivalence (@eff_equiv W E A).
Proof.
  split.
  - by intros m w.
  - by intros m1 m2 H w.
  - intros m1 m2 m3 H1 H2 w. by rewrite H1.
Qed.

#[global] Instance eff_bind_proper {A B} :
  Proper (pointwise_relation A eff_equiv ==> eff_equiv ==> eff_equiv)
    (mbind (M:=Eff W E) (A:=A) (B:=B)).
Proof.
  intros f g Hfg m1 m2 Hm w. rewrite !run_bind, Hm.
  destruct (run m2 w) as [[a|e] w']; [apply Hfg | done].
Qed.

#[global] Instance run_proper {A} :
  Proper (eff_equiv ==> eq ==> eq) (@run W E A).
Proof. by intros m1 m2 Hm w ? <-. Qed.

End Eff.

#[export] Hint Rewrite @run_ret @run_throw @run_gets @run_modify
  @run_liftResult @run_bind @run_try_catch : eff.

(** Execute the primitive effects at the head of a [run], keeping the
    program's values folded. *)
Ltac eff_run := repeat (progress (autorewrite with eff; cbv beta iota zeta)).

(** Rewrite a goal about [run] to normal form and split the cases. *)
Ltac eff_simpl :=
  unfold result_of, world_of in *;
  repeat (autorewrite with eff in *; simpl in * ).

Section Hoare.
Context {W E : Type}.
Implicit Types (P : W → Prop) (R : relation W).

Lemma hoare_ret {A} P (a : A) (Q : Result E A → W → Prop) :
  (∀ w, P w → Q (Ok a) w) → ⦃ P ⦄ mret a ⦅ Q ⦆.
Proof. intros H w. apply H. Qed.

Lemma hoare_throw {A} P (e : E) (Q : Result E A → W → Prop) :
  (∀ w, P w → Q (Throw e) w) → ⦃ P ⦄ throw e ⦅ Q ⦆.
Proof. intros H w. apply H. Qed.

Lemma hoare_gets {A} P (f : W → A) (Q : Result E A → W → Prop) :
  (∀ w, P w → Q (Ok (f w)) w) → ⦃ P ⦄ gets f ⦅ Q ⦆.
Proof. intros H w. apply H. Qed.

Lemma hoare_modify P (f : W → W) (Q : Result E unit → W → Prop) :
  (∀ w, P w → Q (Ok tt) (f w)) → ⦃ P ⦄ modify f ⦅ Q ⦆.
Proof. intros H w. apply H. Qed.

(** Sequencing: the continuation runs from the worlds the first half
    leaves on success; an exception of the first half is the result. *)
Lemma hoare_bind {A B} P (m : Eff W E A) (f : A → Eff W E B)
    (Qm : Result E A → W → Prop) (Q : Result E B → W → Prop) :
  ⦃ P ⦄ m ⦅ Qm ⦆ →
  (∀ a, ⦃ Qm (Ok a) ⦄ f a ⦅ Q ⦆) →
  (∀ e w, Qm (Throw e) w → Q (Throw e) w) →
  ⦃ P ⦄ m ≫= f ⦅ Q ⦆.
Proof.
  intros Hm Hf He w HP. specialize (Hm w HP).
  unfold result_of, world_of in *. rewrite run_bind.
  destruct (run m w) as [[a|e] w']; simpl in *; [by apply Hf | by apply He].
Qed.

Lemma hoare_conseq {A} (P P' : W → Prop) (m : Eff W E A)
    (Q Q' : Result E A → W → Prop) :
  ⦃ P' ⦄ m ⦅ Q' ⦆ → (∀ w, P w → P' w) → (∀ r w, Q' r w → Q r w) →
  ⦃ P ⦄ m ⦅ Q ⦆.
Proof. intros Hm HP HQ w Hw. apply HQ, Hm, HP, Hw. Qed.

Lemma stable_ret {A} R `{!Reflexive R} (a : A) : stable R (mret a : Eff W E A).
Proof. by intros w. Qed.

Lemma stable_throw {A} R `{!Reflexive R} (e : E) : stable R (throw e : Eff W E A).
Proof. by intros w. Qed.

Lemma stable_gets {A} R `{!Reflexive R} (f : W → A) : stable R (gets f : Eff W E A).
Proof. by intros w. Qed.

Lemma stable_liftResult {A} R `{!Reflexive R} (r : Result E A) :
  stable R (liftResult r : Eff W E A).
Proof. by intros w. Qed.

Lemma stable_modify R (f : W → W) :
  (∀ w, R w (f w)) → stable R (modify f : Eff W E unit).
Proof. intros H w. apply H. Qed.

Lemma stable_bind {A B} R `{!Transitive R} (m : Eff W E A) (f : A → Eff W E B) :
  stable R m → (∀ a, stable R (f a)) → stable R (m ≫= f).
Proof.
  intros Hm Hf w. specialize (Hm w). unfold world_of in *. rewrite run_bind.
  destruct (run m w) as [[a|e] w']; simpl in *; [|done].
  etrans; [done | apply Hf].
Qed.

Lemma stable_try_catch {A} R `{!Transitive R} (m : Eff W E A) (h : E → Eff W E A) :
  stable R m → (∀ e, stable R (h e)) → stable R (try_catch m h).
Proof.
  intros Hm Hh w. specialize (Hm w). unfold world_of in *. rewrite run_try_catch.
  destruct (run m w) as [[a|e] w']; simpl in *; [done|].
  etrans; [done | apply Hh].
Qed.

Lemma hoare_try_catch {A} P (m : Eff W E A) (h : E → Eff W E A)
    (Qm Q : Result E A → W → Prop) :
  ⦃ P ⦄ m ⦅ Qm ⦆ →
  (∀ a w, Qm (Ok a) w → Q (Ok a) w) →
  (∀ e, ⦃ Qm (Throw e) ⦄ h e ⦅ Q ⦆) →
  ⦃ P ⦄ try_catch m h ⦅ Q ⦆.
Proof.
  intros Hm Ha Hh w HP. specialize (Hm w HP).
  unfold result_of, world_of in *. rewrite run_try_catch.
  destruct (run m w) as [[a|e] w']; simpl in *; [by apply Ha | by apply Hh].
Qed.

(** Invariants compose along the structure of the program. *)
Lemma preserves_ret {A} (I : W → Prop) (a : A) : preserves I (mret a : Eff W E A).
Proof. by intros w. Qed.

Lemma preserves_throw {A} (I : W → Prop) (e : E) : preserves I (throw e : Eff W E A).
Proof. by intros w. Qed.

Lemma preserves_gets {A} (I : W → Prop) (f : W → A) : preserves I (gets f : Eff W E A).
Proof. by intros w. Qed.

Lemma preserves_liftResult {A} (I : W → Prop) (r : Result E A) :
  preserves I (liftResult r : Eff W E A).
Proof. by intros w. Qed.

Lemma preserves_modify (I : W → Prop) (f : W → W) :
  (∀ w, I w → I (f w)) → preserves I (modify f : Eff W E unit).
Proof. intros H w. apply H. Qed.

Lemma preserves_bind {A B} (I : W → Prop) (m : Eff W E A) (f : A → Eff W E B) :
  preserves I m → (∀ a, preserves I (f a)) → preserves I (m ≫= f).
Proof. intros Hm Hf. by apply (hoare_bind _ _ _ (λ _, I)). Qed.

Lemma preserves_try_catch {A} (I : W → Prop) (m : Eff W E A) (h : E → Eff W E A) :
  preserves I m → (∀ e, preserves I (h e)) → preserves I (try_catch m h).
Proof. intros Hm Hh. by apply (hoare_try_catch _ _ _ (λ _, I)). Qed.

Lemma preserves_world_of {A} (I : W → Prop) (m : Eff W E A) w :
  preserves I m → I w → I (world_of m w).
Proof. intros Hm. apply Hm. Qed.

(** Sequencing when the continuation needs to know what was returned. *)
Lemma preserves_bind_returning {A B} (I : W → Prop) (R : A → Prop)
    (m : Eff W E A) (f : A → Eff W E B) :
  returning I R m → (∀ a, R a → preserves I (f a)) → preserves I (m ≫= f).
Proof.
  intros Hm Hf w Hw. destruct (Hm w Hw) as [HI HR].
  unfold result_of, world_of in *. rewrite run_bind.
  destruct (run m w) as [[a|e] w']; simpl in *; [|done].
  by apply Hf; [apply HR|].
Qed.

Lemma returning_preserves {A} (I : W → Prop) (R : A → Prop) (m : Eff W E A) :
  returning I R m → preserves I m.
Proof. intros Hm w Hw. apply (Hm w Hw). Qed.

Lemma returning_ret {A} (I : W → Prop) (R : A → Prop) (a : A) :
  R a → returning I R (mret a : Eff W E A).
Proof. intros Ha w Hw. split; [done|]. by intros ? [= <-]. Qed.

End Hoare.

#[export] Hint Resolve stable_ret stable_throw stable_gets stable_liftResult
  stable_modify stable_bind stable_try_catch : eff.

#[export] Hint Resolve preserves_ret preserves_throw preserves_gets
  preserves_liftResult preserves_modify preserves_bind preserves_try_catch : eff.

(** ** Strings: concatenation, counting, splitting *)

Section Strings.
Implicit Types (s t u p : string) (c a : ascii).

Lemma str_app_cons a s t : String a s +:+ t = String a (s +:+ t).
Proof. done. Qed.

Lemma str_app_nil_l s : "" +:+ s = s.
Proof. done. Qed.

Lemma str_app_nil_r s : s +:+ "" = s.
Proof. induction s; [done | by rewrite str_app_cons, IHs]. Qed.

Lemma str_app_assoc s t u : s +:+ (t +:+ u) = (s +:+ t) +:+ u.
Proof. induction s; [done | by rewrite !str_app_cons, IHs]. Qed.

Lemma str_length_app s t : String.length (s +:+ t) = String.length s + String.length t.
Proof. induction s; [done | rewrite str_app_cons; simpl; by rewrite IHs]. Qed.

Lemma list_ascii_app s t :
  String.list_ascii_of_string (s +:+ t) =
  String.list_ascii_of_string s ++ String.list_ascii_of_string t.
Proof. induction s; [done | rewrite str_app_cons; simpl; by rewrite IHs]. Qed.

Lemma list_ascii_inj s t :
  String.list_ascii_of_string s = String.list_ascii_of_string t → s = t.
Proof.
  intros H. rewrite <-(String.string_of_list_ascii_of_string s),
    <-(String.string_of_list_ascii_of_string t). by rewrite H.
Qed.

(** Concatenation cancels on the right as well as on the left. *)
Lemma str_app_inj_r s t u : s +:+ u = t +:+ u → s = t.
Proof.
  intros H. apply list_ascii_inj.
  apply (f_equal String.list_ascii_of_string) in H.
  rewrite !list_ascii_app in H. by apply app_inv_tail in H.
Qed.

Lemma str_app_eq_nil s t : s +:+ t = "" → s = "" ∧ t = "".
Proof. destruct s; [done | by rewrite str_app_cons]. Qed.

Lemma count_app c s t : Str.count c (s +:+ t) = Str.count c s + Str.count c t.
Proof. induction s; [done | rewrite str_app_cons; simpl; rewrite IHs; lia]. Qed.

Lemma count_cons_eq c s : Str.count c (String c s) = S (Str.count c s).
Proof. simpl. by rewrite decide_True. Qed.

Lemma count_cons_ne c a s : a ≠ c → Str.count c (String a s) = Str.count c s.
Proof. intros. simpl. by rewrite decide_False. Qed.

Lemma count_le_length c s : Str.count c s ≤ String.length s.
Proof. induction s; simpl; [done | case_decide; lia]. Qed.

Lemma contains_app c s t :
  Str.contains c (s +:+ t) = Str.contains c s || Str.contains c t.
Proof.
  unfold Str.contains. rewrite count_app.
  repeat case_bool_decide; simpl; lia.
Qed.

Lemma starts_with_app p s : Str.starts_with p (p +:+ s) = true.
Proof.
  unfold Str.starts_with. induction p; [by destruct s | ].
  rewrite str_app_cons. simpl. by destruct (Ascii.ascii_dec a a).
Qed.

Lemma starts_with_iff p s : Str.starts_with p s = true ↔ ∃ r, s = p +:+ r.
Proof.
  split; [| intros [r ->]; apply starts_with_app].
  unfold Str.starts_with. revert s. induction p as [|a p IH]; intros s H.
  { by exists s. }
  destruct s as [|b s]; [done|]. simpl in H.
  destruct (Ascii.ascii_dec a b) as [->|]; [|done].
  destruct (IH _ H) as [r ->]. by exists r.
Qed.

Lemma drop_app p s : Str.drop (String.length p) (p +:+ s) = s.
Proof. induction p; [by destruct s | done]. Qed.

Lemma strip_app p s : Str.strip p (p +:+ s) = Some s.
Proof. unfold Str.strip. by rewrite starts_with_app, drop_app. Qed.

Lemma starts_with_refl p : Str.starts_with p p = true.
Proof. rewrite <-(str_app_nil_r p) at 2. apply starts_with_app. Qed.

Lemma starts_with_trans p q s :
  Str.starts_with p q = true → Str.starts_with q s = true →
  Str.starts_with p s = true.
Proof.
  rewrite !starts_with_iff. intros [r1 ->] [r2 ->].
  exists (r1 +:+ r2). by rewrite str_app_assoc.
Qed.

(** [break] splits at the first occurrence: the head has no [c], and the
    pieces rebuild the string. *)
Lemma break_None c s h : Str.break c s = (h, None) → h = s ∧ Str.count c s = 0.
Proof.
  revert h. induction s as [|a s IH]; intros h; simpl.
  { by intros [= <-]. }
  case_decide; [done|]. destruct (Str.break c s) as [h' t'].
  intros [= <- ->]. destruct (IH h' eq_refl) as [-> ->]. done.
Qed.

Lemma break_Some c s h t :
  Str.break c s = (h, Some t) → s = h +:+ String c t ∧ Str.count c h = 0.
Proof.
  revert h. induction s as [|a s IH]; intros h; simpl; [done|].
  case_decide as Hac.
  { intros [= <- <-]. by subst. }
  destruct (Str.break c s) as [h' t']. intros [= <- ->].
  destruct (IH h' eq_refl) as [-> Hc]. split; [done|].
  simpl. by rewrite decide_False, Hc.
Qed.

Lemma break_app_fresh c s t :
  Str.count c s = 0 → Str.break c (s +:+ String c t) = (s, Some t).
Proof.
  induction s as [|a s IH]; simpl.
  { intros _. by rewrite decide_True. }
  case_decide; [lia|]. intros Hc. by rewrite IH.
Qed.

Lemma break_fresh c s : Str.count c s = 0 → Str.break c s = (s, None).
Proof.
  induction s as [|a s IH]; simpl; [done|].
  case_decide; [lia|]. intros Hc. by rewrite IH.
Qed.

Lemma break_app_found c s t h r :
  Str.break c s = (h, Some r) → Str.break c (s +:+ t) = (h, Some (r +:+ t)).
Proof.
  intros [-> Hc]%break_Some.
  rewrite <-str_app_assoc, str_app_cons. by apply break_app_fresh.
Qed.

(** [split] and [join] are inverse to each other: always in one
    direction, and in the other when no piece holds the separator. *)
Lemma split_nonempty c s : Str.split c s ≠ [].
Proof. destruct s as [|a s]; simpl; [done|]. case_decide; [done | by case_match]. Qed.

Lemma split_single c s : Str.count c s = 0 → Str.split c s = [s].
Proof.
  induction s as [|a s IH]; simpl; [done|].
  case_decide; [lia|]. intros Hs. by rewrite IH.
Qed.

Lemma split_app c s t :
  Str.count c s = 0 → Str.split c (s +:+ String c t) = s :: Str.split c t.
Proof.
  induction s as [|a s IH]; simpl.
  { intros _. by rewrite decide_True. }
  case_decide; [lia|]. intros Hs. by rewrite IH.
Qed.

Lemma join_cons c s l : l ≠ [] → Str.join c (s :: l) = s +:+ String c (Str.join c l).
Proof. by destruct l. Qed.

Lemma split_join c l :
  l ≠ [] → Forall (λ s, Str.count c s = 0) l → Str.split c (Str.join c l) = l.
Proof.
  intros Hne Hl. induction Hl as [|s l Hs Hl IH]; [done|].
  destruct l as [|s' l]; [by apply split_single|].
  rewrite join_cons, split_app, IH by done. done.
Qed.

Lemma join_split c s : Str.join c (Str.split c s) = s.
Proof.
  induction s as [|a s IH]; [done|]. simpl. case_decide as Hac.
  - subst. by rewrite join_cons, IH by apply split_nonempty.
  - pose proof (split_nonempty c s). destruct (Str.split c s) as [|h [|h' t]]; [done|..];
      simpl in *; by rewrite <-IH.
Qed.

End Strings.

#[export] Hint Rewrite str_app_nil_l str_app_nil_r str_length_app count_app : eff.
#[export] Hint Resolve starts_with_app starts_with_refl : eff.
