(* ===== verification/Query.v ===== *)
(** * Query: query strings and their percent-encoding

    The token of line 48 is a query string: [key=value] pairs joined by
    [&], each key and value percent-encoded.  The program appends it to
    request paths as it is (line 62) and the storage service reads it
    back.  This file holds that encoding, byte by byte: [escape] is
    [encodeURIComponent] on the bytes of a string, [unescape] its
    inverse, [print] and [parse] the pairs of a query.

    It is written from the documented behaviour of the encoding, not
    from code of the repository.  Both round trips are total:
    [unescape_escape] and [parse_print_pairs]. *)

From Stdlib Require Import ZArith NArith Lia Ascii.
From stdpp Require Import base tactics option list strings.
From S2P Require Import Prelude.

Module Query.

#[local] Open Scope N_scope.

(** ** Percent-encoding *)

(** The characters that are left as they are: letters, digits and
    [- _ . ! ~ * ' ( )]. *)
Definition unreserved (c : ascii) : bool :=
  let n := N_of_ascii c in
  (48 <=? n) && (n <=? 57) || (65 <=? n) && (n <=? 90) || (97 <=? n) && (n <=? 122) ||
  existsb (N.eqb n) [33; 39; 40; 41; 42; 45; 46; 95; 126].

(** A value below sixteen as a hexadecimal digit, in upper case. *)
Definition hexDigit (n : N) : ascii :=
  ascii_of_N (if n <? 10 then 48 + n else 55 + n).

(** The value of a hexadecimal digit, in either case. *)
Definition hexValue (c : ascii) : option N :=
  let n := N_of_ascii c in
  if (48 <=? n) && (n <=? 57) then Some (n - 48)
  else if (65 <=? n) && (n <=? 70) then Some (n - 55)
  else if (97 <=? n) && (n <=? 102) then Some (n - 87)
  else None.

Definition escapeChar (c : ascii) : string :=
  if unreserved c then String c ""
  else String "%" (String (hexDigit (N_of_ascii c / 16))
                     (String (hexDigit (N_of_ascii c mod 16)) "")).

Fixpoint escape (s : string) : string :=
  match s with
  | EmptyString => EmptyString
  | String c s' => escapeChar c +:+ escape s'
  end.

(** Decoding fails on a [%] that is not followed by two hexadecimal
    digits. *)
Fixpoint unescape (s : string) : option string :=
  match s with
  | EmptyString => Some EmptyString
  | String c t =>
      if decide (c = "%"%char) then
        match t with
        | String a (String b s') =>
            x ← hexValue a; y ← hexValue b; r ← unescape s';
            Some (String (ascii_of_N (16 * x + y)) r)
        | _ => None
        end
      else String c <$> unescape t
  end.

(** ** Pairs *)

Definition param (kv : string * string) : string :=
  escape kv.1 +:+ String "=" (escape kv.2).

Definition print (ps : list (string * string)) : string :=
  Str.join "&" (param <$> ps).

Definition parseParam (s : string) : option (string * string) :=
  let '(k, v) := Str.break "=" s in
  k' ← unescape k; v' ← unescape (default EmptyString v); Some (k', v').

Definition parse (s : string) : option (list (string * string)) :=
  if decide (s = EmptyString) then Some [] else mapM parseParam (Str.split "&" s).

(** The value of the first pair with the given key. *)
Fixpoint get (key : string) (ps : list (string * string)) : option string :=
  match ps with
  | [] => None
  | kv :: ps' => if decide (kv.1 = key) then Some kv.2 else get key ps'
  end.

(** ** Lemmas *)

Section QueryLemmas.
Implicit Types (c a : ascii) (s t k v : string) (kv : string * string)
  (ps : list (string * string)).

(** The two digits printed for a byte are digits, and give it back. *)
Lemma hexDigit_spec c :
  hexValue (hexDigit (N_of_ascii c / 16)) = Some (N_of_ascii c / 16) ∧
  hexValue (hexDigit (N_of_ascii c mod 16)) = Some (N_of_ascii c mod 16) ∧
  ascii_of_N (16 * (N_of_ascii c / 16) + N_of_ascii c mod 16) = c ∧
  unreserved (hexDigit (N_of_ascii c / 16)) = true ∧
  unreserved (hexDigit (N_of_ascii c mod 16)) = true.
Proof. destruct c as [[] [] [] [] [] [] [] []]; by vm_compute. Qed.

Lemma unreserved_ne c a : unreserved a = true → unreserved c = false → a ≠ c.
Proof. by intros Ha Hc ->; rewrite Ha in Hc. Qed.

Lemma unescape_escapeChar c s r :
  unescape s = Some r → unescape (escapeChar c +:+ s) = Some (String c r).
Proof.
  intros Hs. unfold escapeChar.
  destruct (unreserved c) eqn:Hc; rewrite !str_app_cons, str_app_nil_l; simpl.
  - rewrite decide_False by (by intros ->). by rewrite Hs.
  - destruct (hexDigit_spec c) as (-> & -> & Hv & _). simpl. by rewrite Hs, Hv.
Qed.

Lemma unescape_escape s : unescape (escape s) = Some s.
Proof. induction s as [|c s IH]; [done | by apply unescape_escapeChar]. Qed.

Lemma escape_inj s t : escape s = escape t → s = t.
Proof.
  intros H. apply (f_equal unescape) in H. rewrite !unescape_escape in H. by simplify_eq.
Qed.

(** An encoded string holds no character that had to be encoded, the
    separators [&] and [=] among them. *)
Lemma count_escapeChar c a :
  unreserved c = false → c ≠ "%"%char → Str.count c (escapeChar a) = 0%nat.
Proof.
  intros Hc Hp. unfold escapeChar. destruct (unreserved a) eqn:Ha; simpl.
  - by rewrite decide_False by (by apply unreserved_ne).
  - destruct (hexDigit_spec a) as (_ & _ & _ & H1 & H2).
    by rewrite !decide_False by (done || by apply unreserved_ne).
Qed.

Lemma count_escape c s :
  unreserved c = false → c ≠ "%"%char → Str.count c (escape s) = 0%nat.
Proof.
  intros Hc Hp. induction s as [|a s IH]; [done|].
  simpl. by rewrite count_app, count_escapeChar, IH.
Qed.

Lemma count_param_amp kv : Str.count "&" (param kv) = 0%nat.
Proof.
  unfold param. rewrite count_app. simpl.
  by rewrite !(count_escape "&").
Qed.

Lemma parseParam_param kv : parseParam (param kv) = Some kv.
Proof.
  destruct kv as [k v]. unfold parseParam, param. cbn [fst snd].
  rewrite break_app_fresh by (by apply count_escape). simpl.
  by rewrite !unescape_escape.
Qed.

Lemma mapM_parseParam ps : mapM parseParam (param <$> ps) = Some ps.
Proof.
  induction ps as [|kv ps IH]; [done|].
  cbn [fmap list_fmap mapM]. rewrite parseParam_param. simpl. by rewrite IH.
Qed.

Lemma print_nonempty ps : ps ≠ [] → print ps ≠ EmptyString.
Proof.
  destruct ps as [|[k v] ps]; [done|]. intros _ H. unfold print in H.
  assert (∀ s, param (k, v) +:+ s ≠ EmptyString) as Hp.
  { intros s Hs. apply str_app_eq_nil in Hs as [Hs _].
    unfold param in Hs. by apply str_app_eq_nil in Hs as [_ ?]. }
  destruct ps; simpl in H; [by apply (Hp EmptyString); rewrite str_app_nil_r | by apply Hp in H].
Qed.

(** Parsing what [print] prints gives the pairs back. *)
Lemma parse_print_pairs ps : parse (print ps) = Some ps.
Proof.
  unfold parse. destruct (decide (ps = [])) as [->|Hne]; [done|].
  rewrite decide_False by (by apply print_nonempty).
  unfold print. rewrite split_join.
  - apply mapM_parseParam.
  - by destruct ps.
  - apply Forall_fmap, Forall_forall. intros kv _. apply count_param_amp.
Qed.

Lemma get_head key v ps : get key ((key, v) :: ps) = Some v.
Proof. simpl. by rewrite decide_True. Qed.

Lemma get_tail key k v ps : k ≠ key → get key ((k, v) :: ps) = get key ps.
Proof. intros. simpl. by rewrite decide_False. Qed.

End QueryLemmas.

End Query.
