(* ===== verification/Ip.v ===== *)
(** * Ip: IPv4 addresses and the address range of a token

    Line 41 restricts the token to the addresses from [0.0.0.0] to
    [255.255.255.255].  The SDK takes the two ends as text and the token
    carries them as [start-end]; the service compares the address a
    request comes from with them.  This file holds the addresses
    ([Ipv4], four bytes), their dotted form ([printIpv4], [parseIpv4])
    and the comparison ([inIpRange]).

    It is written from the meaning of the field in the specification
    (section 3: an address range restriction), not from code of the
    repository.  An octet is read as a decimal number below 256; leading
    zeros are accepted. *)

From Stdlib Require Import NArith Lia Ascii DecimalString.
From Stdlib Require Import Strings.Byte.
From stdpp Require Import base tactics option list strings.
From S2P Require Import Prelude.

#[local] Open Scope N_scope.

(** An address: four bytes, the first the most significant. *)
Definition Ipv4 : Type := byte * byte * byte * byte.

(** The address as a number, which is how ranges order them. *)
Definition ipValue (a : Ipv4) : N :=
  let '(a1, a2, a3, a4) := a in
  ((Byte.to_N a1 * 256 + Byte.to_N a2) * 256 + Byte.to_N a3) * 256 + Byte.to_N a4.

Definition printOctet (b : byte) : string :=
  NilZero.string_of_uint (N.to_uint (Byte.to_N b)).

Definition parseOctet (s : string) : option byte :=
  d ← NilZero.uint_of_string s; Byte.of_N (N.of_uint d).

Definition printIpv4 (a : Ipv4) : string :=
  let '(a1, a2, a3, a4) := a in
  Str.join "." [printOctet a1; printOctet a2; printOctet a3; printOctet a4].

Definition parseIpv4 (s : string) : option Ipv4 :=
  match Str.split "." s with
  | [s1; s2; s3; s4] =>
      a1 ← parseOctet s1; a2 ← parseOctet s2; a3 ← parseOctet s3; a4 ← parseOctet s4;
      Some (a1, a2, a3, a4)
  | _ => None
  end.

(** A range as a token spells it: [start-end], or one address. *)
Definition parseIpRange (s : string) : option (Ipv4 * Ipv4) :=
  match Str.break "-" s with
  | (lo, Some hi) => lo ← parseIpv4 lo; hi ← parseIpv4 hi; Some (lo, hi)
  | (a, None) => a ← parseIpv4 a; Some (a, a)
  end.

(** An address is in a range when it lies between its ends, both
    included; text that is not a range holds no address. *)
Definition inIpRange (range : string) (a : Ipv4) : bool :=
  match parseIpRange range with
  | Some (lo, hi) => bool_decide (ipValue lo ≤ ipValue a ≤ ipValue hi)
  | None => false
  end.

(** * Lemmas *)

Section IpLemmas.
Implicit Types (a lo hi : Ipv4) (b : byte) (s range : string).

(** A printed octet is made of digits and reads back as the byte. *)
Lemma printOctet_spec b :
  parseOctet (printOctet b) = Some b ∧ Str.count "." (printOctet b) = 0%nat ∧
  Str.count "-" (printOctet b) = 0%nat.
Proof. by destruct b. Qed.

Lemma to_N_inj b1 b2 : Byte.to_N b1 = Byte.to_N b2 → b1 = b2.
Proof.
  intros H. apply (f_equal Byte.of_N) in H. rewrite !Byte.of_to_N in H. by simplify_eq.
Qed.

Lemma ipValue_bound a : ipValue a ≤ 4294967295.
Proof.
  destruct a as [[[a1 a2] a3] a4]. unfold ipValue.
  pose proof (Byte.to_N_bounded a1). pose proof (Byte.to_N_bounded a2).
  pose proof (Byte.to_N_bounded a3). pose proof (Byte.to_N_bounded a4). lia.
Qed.

(** Distinct addresses have distinct values. *)
Lemma ipValue_inj a a' : ipValue a = ipValue a' → a = a'.
Proof.
  destruct a as [[[a1 a2] a3] a4], a' as [[[b1 b2] b3] b4]. unfold ipValue. intros H.
  pose proof (Byte.to_N_bounded a1). pose proof (Byte.to_N_bounded a2).
  pose proof (Byte.to_N_bounded a3). pose proof (Byte.to_N_bounded a4).
  pose proof (Byte.to_N_bounded b1). pose proof (Byte.to_N_bounded b2).
  pose proof (Byte.to_N_bounded b3). pose proof (Byte.to_N_bounded b4).
  repeat f_equal; apply to_N_inj; lia.
Qed.

(** The dotted form reads back as the address. *)
Lemma parseIpv4_print a : parseIpv4 (printIpv4 a) = Some a.
Proof.
  destruct a as [[[a1 a2] a3] a4]. unfold parseIpv4, printIpv4.
  rewrite split_join; [|done|].
  - by rewrite !(proj1 (printOctet_spec _)).
  - repeat constructor; apply printOctet_spec.
Qed.

Lemma count_printIpv4_dash a : Str.count "-" (printIpv4 a) = 0%nat.
Proof.
  destruct a as [[[a1 a2] a3] a4]. unfold printIpv4. cbn [Str.join].
  repeat (rewrite count_app || rewrite count_cons_ne by done).
  by rewrite !(proj2 (proj2 (printOctet_spec _))).
Qed.

(** A range printed from its two ends reads back as them. *)
Lemma parseIpRange_print lo hi :
  parseIpRange (printIpv4 lo +:+ "-" +:+ printIpv4 hi) = Some (lo, hi).
Proof.
  unfold parseIpRange. change ("-" +:+ printIpv4 hi) with (String "-" (printIpv4 hi)).
  rewrite break_app_fresh by apply count_printIpv4_dash.
  by rewrite !parseIpv4_print.
Qed.

Lemma inIpRange_iff range lo hi a :
  parseIpRange range = Some (lo, hi) →
  inIpRange range a = true ↔ ipValue lo ≤ ipValue a ≤ ipValue hi.
Proof. intros H. unfold inIpRange. rewrite H. apply bool_decide_eq_true. Qed.

Lemma inIpRange_print lo hi a :
  inIpRange (printIpv4 lo +:+ "-" +:+ printIpv4 hi) a = true ↔
  ipValue lo ≤ ipValue a ≤ ipValue hi.
Proof. apply inIpRange_iff, parseIpRange_print. Qed.

(** The range from [0.0.0.0] to [255.255.255.255] holds every
    address. *)
Lemma inIpRange_all a : inIpRange "0.0.0.0-255.255.255.255" a = true.
Proof.
  apply (inIpRange_iff _ (x00, x00, x00, x00) (xff, xff, xff, xff)); [done|].
  pose proof (ipValue_bound a). change (ipValue (xff, xff, xff, xff)) with 4294967295.
  change (ipValue (x00, x00, x00, x00)) with 0. lia.
Qed.

End IpLemmas.

(** ** Examples *)

Example parseIpv4_sample :
  parseIpv4 "10.0.0.7" = Some (x0a, x00, x00, x07) ∧
  parseIpv4 "256.0.0.1" = None ∧ parseIpv4 "10.0.7" = None ∧ parseIpv4 "10.0.0.x" = None ∧
  parseIpv4 "" = None.
Proof. by vm_compute. Qed.

Example inIpRange_sample :
  inIpRange "10.0.0.0-10.0.0.255" (x0a, x00, x00, x07) = true ∧
  inIpRange "10.0.0.0-10.0.0.255" (x0a, x00, x01, x07) = false ∧
  inIpRange "10.0.0.7" (x0a, x00, x00, x07) = true ∧
  inIpRange "everywhere" (x0a, x00, x00, x07) = false.
Proof. by vm_compute. Qed.
