(* ===== verification/Js.v ===== *)
(** * Js: the JavaScript primitives the program uses

    [index.ts] relies on three pieces of the language: the truthiness of a
    value of type [string | undefined] (the [!x] tests of line 25), string
    concatenation and template literals (lines 31, 56, 58, 61, 62), and
    [Date] arithmetic (lines 34, 39, 40).  Numbers are IEEE doubles; the
    only numbers the program computes are time values in milliseconds and
    their sums with two constants, so a number is modelled as an integer
    or [NaN], and [add_exact] shows that every sum the program forms stays
    in the range where double addition is exact.  [Exn] lists the values
    that are thrown: [Error] (line 26), the SDK's [RangeError] and
    [RestError], and Node's system errors ([fs], [net]). *)

From Stdlib Require Import ZArith Lia.
From stdpp Require Import base tactics option strings.
From S2P Require Import Prelude.

#[local] Open Scope Z_scope.

(** ** Truthiness of [string | undefined] *)

(** [ToBoolean]: [undefined] and the empty string are falsy. *)
Definition truthy (v : option string) : bool :=
  match v with
  | None => false
  | Some s => negb (bool_decide (s = ""))
  end.

(** The prefix operator [!]. *)
Definition js_not (v : option string) : bool := negb (truthy v).

(** ** Exceptions *)

(** The values the program and its libraries throw. *)
Inductive Exn : Type :=
| Error (message : string)
| RangeError (message : string)
| RestError (message : string)
| SystemError (code syscall path : string).

#[global] Instance Exn_eq_dec : EqDecision Exn.
Proof. solve_decision. Defined.

(** ** Numbers *)

Inductive Number : Type :=
| NaN
| Int (z : Z).

#[global] Instance Number_eq_dec : EqDecision Number.
Proof. solve_decision. Defined.

(** [Number.MAX_SAFE_INTEGER], 2^53 - 1. *)
Definition MAX_SAFE_INTEGER : Z := 9007199254740991.

Definition isSafeInteger (n : Number) : bool :=
  match n with
  | NaN => false
  | Int z => bool_decide (Z.abs z ≤ MAX_SAFE_INTEGER)
  end.

(** The binary [+] on numbers. *)
Definition add (a b : Number) : Number :=
  match a, b with
  | Int x, Int y => Int (x + y)
  | _, _ => NaN
  end.

(** ** Dates *)

(** The largest time value of a [Date], 8.64e15 ms (100 million days). *)
Definition maxTime : Z := 8640000000000000.

(** The abstract operation TimeClip of ECMA-262, 21.4.1.31. *)
Definition TimeClip (v : Number) : Number :=
  match v with
  | NaN => NaN
  | Int z => if bool_decide (Z.abs z ≤ maxTime) then Int z else NaN
  end.

(** A [Date] object: its [[DateValue]] slot. *)
Record Date : Type := mkDate { timeValue : Number }.

#[global] Instance Date_eq_dec : EqDecision Date.
Proof. solve_decision. Defined.

(** [new Date(value)] with a numeric argument. *)
Definition Date_new (value : Number) : Date := mkDate (TimeClip value).

(** [Date.prototype.getTime] and [Date.prototype.valueOf]. *)
Definition getTime (d : Date) : Number := timeValue d.
Definition valueOf (d : Date) : Number := timeValue d.

Definition isValidDate (d : Date) : bool :=
  match timeValue d with NaN => false | Int _ => true end.

(** The time value is [NaN] or within the TimeClip range. *)
Definition Date_wf (d : Date) : Prop :=
  match timeValue d with
  | NaN => True
  | Int z => Z.abs z ≤ maxTime
  end.

(** The milliseconds between two dates, when both are valid. *)
Definition Date_diff (later earlier : Date) : option Z :=
  match timeValue later, timeValue earlier with
  | Int a, Int b => Some (a - b)
  | _, _ => None
  end.

(** * Lemmas *)

Section Truthy.
Implicit Types (v : option string) (s : string).

Lemma truthy_Some v : truthy v = true ↔ ∃ s, v = Some s ∧ s ≠ "".
Proof.
  destruct v as [s|]; simpl; [|naive_solver].
  case_bool_decide; naive_solver.
Qed.

Lemma truthy_false v : truthy v = false ↔ v = None ∨ v = Some "".
Proof.
  destruct v as [s|]; simpl; [|naive_solver].
  case_bool_decide; naive_solver.
Qed.

Lemma js_not_true v : js_not v = true ↔ v = None ∨ v = Some "".
Proof. unfold js_not. rewrite negb_true_iff. apply truthy_false. Qed.

Lemma js_not_false v : js_not v = false ↔ ∃ s, v = Some s ∧ s ≠ "".
Proof. unfold js_not. rewrite negb_false_iff. apply truthy_Some. Qed.

End Truthy.

Section Dates.
Implicit Types (v : Number) (d : Date) (z t k : Z).

Lemma TimeClip_Int z : Z.abs z ≤ maxTime → TimeClip (Int z) = Int z.
Proof. intros H. simpl. by rewrite bool_decide_true. Qed.

Lemma TimeClip_out z : maxTime < Z.abs z → TimeClip (Int z) = NaN.
Proof. intros H. simpl. rewrite bool_decide_false; [done | lia]. Qed.

Lemma TimeClip_inv v z : TimeClip v = Int z → v = Int z ∧ Z.abs z ≤ maxTime.
Proof. destruct v as [|y]; simpl; [done|]. case_bool_decide; naive_solver. Qed.

Lemma TimeClip_idemp v : TimeClip (TimeClip v) = TimeClip v.
Proof.
  destruct v as [|z]; [done|]. simpl. case_bool_decide; [|done].
  simpl. by rewrite bool_decide_true.
Qed.

Lemma Date_new_wf v : Date_wf (Date_new v).
Proof.
  unfold Date_wf, Date_new; simpl.
  destruct (TimeClip v) eqn:H; [done|]. by apply TimeClip_inv in H as [_ ?].
Qed.

Lemma Date_new_getTime d : Date_wf d → Date_new (getTime d) = d.
Proof.
  destruct d as [[|z]]; unfold Date_wf, Date_new, getTime; simpl; [done|].
  intros H. by rewrite bool_decide_true.
Qed.

Lemma isValidDate_new v :
  isValidDate (Date_new v) = true ↔ ∃ z, v = Int z ∧ Z.abs z ≤ maxTime.
Proof.
  unfold isValidDate, Date_new; simpl. destruct (TimeClip v) eqn:H.
  - split; [done|]. intros (z & -> & Hz). by rewrite TimeClip_Int in H.
  - apply TimeClip_inv in H as [-> ?]. naive_solver.
Qed.

(** Adding an offset below 3.6e14 to the time value of a date stays within
    the safe integers: the double addition of lines 34 and 40 is exact. *)
Lemma add_exact d k :
  Date_wf d → isValidDate d = true → 0 ≤ k ≤ MAX_SAFE_INTEGER - maxTime →
  isSafeInteger (add (getTime d) (Int k)) = true.
Proof.
  destruct d as [[|z]]; unfold Date_wf, isValidDate, getTime; simpl; [done|].
  intros Hz _ Hk. apply bool_decide_eq_true. unfold MAX_SAFE_INTEGER, maxTime in *. lia.
Qed.

(** A date shifted by a non-negative offset is valid unless it leaves the
    TimeClip range at the top. *)
Lemma Date_new_add d z k :
  Date_wf d → getTime d = Int z → 0 ≤ k →
  Date_new (add (getTime d) (Int k)) =
  if bool_decide (z + k ≤ maxTime) then mkDate (Int (z + k)) else mkDate NaN.
Proof.
  destruct d as [[|y]]; unfold Date_wf, getTime; simpl; [done|].
  intros Hy [= ->] Hk. unfold Date_new; simpl.
  repeat case_bool_decide; try done; lia.
Qed.

Lemma Date_diff_new_add d z k :
  Date_wf d → getTime d = Int z → 0 ≤ k → z + k ≤ maxTime →
  Date_diff (Date_new (add (getTime d) (Int k))) d = Some k.
Proof.
  intros Hwf Hz Hk Hle. rewrite (Date_new_add d z k) by done.
  rewrite bool_decide_true by done. unfold Date_diff, getTime in *; simpl.
  rewrite Hz. f_equal. lia.
Qed.

End Dates.

#[export] Hint Resolve Date_new_wf : eff.
