(* ===== verification/Azure.v ===== *)
(** * Azure: the data the program hands to the Azure SDK, and the SDK as
    an interface

    [index.ts] imports [DefaultAzureCredential], [BlobServiceClient],
    [ContainerSASPermissions], [generateBlobSASQueryParameters] and
    [SASProtocol] (lines 5-11).  The values it builds for them (the service
    client of lines 30-32 and the signature values of lines 36-43) are
    records here.  The SDK's own code is not part of the repository: its
    two calls that matter are the fields of the class [BlobSdk], and
    [ContainerSASPermissions.parse] is written out from the documented
    permission letters. *)

From Stdlib Require Import ZArith Lia Ascii.
From stdpp Require Import base tactics option strings.
From S2P Require Import Prelude.
From S2P Require Import Js.

(** ** Credentials and the service client (lines 30-32) *)

Inductive TokenCredential : Type :=
| DefaultAzureCredential.

#[global] Instance TokenCredential_eq_dec : EqDecision TokenCredential.
Proof. solve_decision. Defined.

Record BlobServiceClient : Type := mkBlobServiceClient {
  client_url : string;
  client_credential : TokenCredential;
}.

#[global] Instance BlobServiceClient_eq_dec : EqDecision BlobServiceClient.
Proof. solve_decision. Defined.

(** ** Permissions of a container SAS *)

Module ContainerSASPermissions.

Record t : Type := mk {
  perm_read : bool;
  perm_add : bool;
  perm_create : bool;
  perm_write : bool;
  perm_delete : bool;
  perm_deleteVersion : bool;
  perm_list : bool;
  perm_tag : bool;
  perm_move : bool;
  perm_execute : bool;
  perm_setImmutabilityPolicy : bool;
  perm_permanentDelete : bool;
  perm_filterByTags : bool;
}.

#[global] Instance eq_dec : EqDecision t.
Proof. solve_decision. Defined.

(** [new ContainerSASPermissions()]: nothing granted. *)
Definition empty : t :=
  mk false false false false false false false false false false false false false.

(** The permission set that grants reading and nothing else. *)
Definition readOnly : t :=
  mk true false false false false false false false false false false false false.

(** One letter of the permission string. *)
Definition grant (p : t) (c : ascii) : Result Exn t :=
  let '(mk r a cr w d x l tg m e i y f) := p in
  if decide (c = "r"%char) then Ok (mk true a cr w d x l tg m e i y f)
  else if decide (c = "a"%char) then Ok (mk r true cr w d x l tg m e i y f)
  else if decide (c = "c"%char) then Ok (mk r a true w d x l tg m e i y f)
  else if decide (c = "w"%char) then Ok (mk r a cr true d x l tg m e i y f)
  else if decide (c = "d"%char) then Ok (mk r a cr w true x l tg m e i y f)
  else if decide (c = "x"%char) then Ok (mk r a cr w d true l tg m e i y f)
  else if decide (c = "l"%char) then Ok (mk r a cr w d x true tg m e i y f)
  else if decide (c = "t"%char) then Ok (mk r a cr w d x l true m e i y f)
  else if decide (c = "m"%char) then Ok (mk r a cr w d x l tg true e i y f)
  else if decide (c = "e"%char) then Ok (mk r a cr w d x l tg m true i y f)
  else if decide (c = "i"%char) then Ok (mk r a cr w d x l tg m e true y f)
  else if decide (c = "y"%char) then Ok (mk r a cr w d x l tg m e i true f)
  else if decide (c = "f"%char) then Ok (mk r a cr w d x l tg m e i y true)
  else Throw (RangeError ("Invalid permission " +:+ String c "")).

Fixpoint parse_from (p : t) (permissions : string) : Result Exn t :=
  match permissions with
  | EmptyString => Ok p
  | String c rest =>
      match grant p c with
      | Ok p' => parse_from p' rest
      | Throw e => Throw e
      end
  end.

(** [ContainerSASPermissions.parse(permissions)]. *)
Definition parse (permissions : string) : Result Exn t :=
  parse_from empty permissions.

Definition letter (b : bool) (c : string) : string := if b then c else "".

(** [toString()]: the granted letters in the order the service expects. *)
Definition toString (p : t) : string :=
  letter (perm_read p) "r" +:+ letter (perm_add p) "a" +:+
  letter (perm_create p) "c" +:+ letter (perm_write p) "w" +:+
  letter (perm_delete p) "d" +:+ letter (perm_deleteVersion p) "x" +:+
  letter (perm_list p) "l" +:+ letter (perm_tag p) "t" +:+
  letter (perm_move p) "m" +:+ letter (perm_execute p) "e" +:+
  letter (perm_setImmutabilityPolicy p) "i" +:+
  letter (perm_permanentDelete p) "y" +:+ letter (perm_filterByTags p) "f".

(** What a holder of the permission set may do besides reading. *)
Definition grantsMoreThanRead (p : t) : bool :=
  perm_add p || perm_create p || perm_write p || perm_delete p ||
  perm_deleteVersion p || perm_list p || perm_tag p || perm_move p ||
  perm_execute p || perm_setImmutabilityPolicy p || perm_permanentDelete p ||
  perm_filterByTags p.

End ContainerSASPermissions.

(** ** The other parts of the signature values *)

(** [SASProtocol]: the enum's two members. *)
Inductive SASProtocol : Type :=
| Https
| HttpsAndHttp.

#[global] Instance SASProtocol_eq_dec : EqDecision SASProtocol.
Proof. solve_decision. Defined.

Definition SASProtocol_value (p : SASProtocol) : string :=
  match p with
  | Https => "https"
  | HttpsAndHttp => "https,http"
  end.

Record SasIPRange : Type := mkSasIPRange {
  ip_start : string;
  ip_end : string;
}.

#[global] Instance SasIPRange_eq_dec : EqDecision SasIPRange.
Proof. solve_decision. Defined.

(** The object literal of lines 36-43: the six properties the program
    sets of the SDK's [BlobSASSignatureValues]. *)
Record BlobSASSignatureValues : Type := mkBlobSASSignatureValues {
  containerName : string;
  permissions : ContainerSASPermissions.t;
  startsOn : Date;
  expiresOn : Date;
  ipRange : SasIPRange;
  protocol : SASProtocol;
}.

#[global] Instance BlobSASSignatureValues_eq_dec : EqDecision BlobSASSignatureValues.
Proof. solve_decision. Defined.

(** ** The SDK as the program sees it

    The two calls of lines 34 and 35-46 and the [toString] of line 48.
    Both calls may throw: the first is a network request made with the
    ambient credential, the second validates its arguments. *)
Class BlobSdk : Type := {
  UserDelegationKey : Type;
  SASQueryParameters : Type;
  getUserDelegationKey :
    BlobServiceClient → Date → Date → Result Exn UserDelegationKey;
  generateBlobSASQueryParameters :
    BlobSASSignatureValues → UserDelegationKey → string →
    Result Exn SASQueryParameters;
  SASQueryParameters_toString : SASQueryParameters → string;
}.

(** ** What a token carries

    The token is a query string that encodes the signed fields: the
    permissions, the validity window, the address range and the
    transport restriction.  The account and the container are not
    spelt in it: the signature binds them, and who checks the
    signature learns what it was made for. *)
Record SasFields : Type := mkSasFields {
  sf_account : string;
  sf_container : string;
  sf_permissions : ContainerSASPermissions.t;
  sf_startsOn : Date;
  sf_expiresOn : Date;
  sf_ipRange : string;
  sf_protocol : SASProtocol;
}.

#[global] Instance SasFields_eq_dec : EqDecision SasFields.
Proof. solve_decision. Defined.

(** The range as the token spells it. *)
Definition ipRangeToString (r : SasIPRange) : string :=
  ip_start r +:+ "-" +:+ ip_end r.

(** A token spells its times to some resolution, a number of
    milliseconds (the service's tokens are written to the second): the
    time that is read back is the signed one rounded down to it. *)
Definition truncateDate (resolution : Z) (d : Date) : Date :=
  match timeValue d with
  | Int z => mkDate (Int (resolution * (z / resolution)))
  | NaN => d
  end.

(** The fields of a token minted for the given values and account. *)
Definition fieldsOf (resolution : Z) (values : BlobSASSignatureValues) (account : string) :
    SasFields :=
  mkSasFields account (containerName values) (permissions values)
    (truncateDate resolution (startsOn values)) (truncateDate resolution (expiresOn values))
    (ipRangeToString (ipRange values)) (protocol values).

Definition SASProtocol_parse (s : string) : option SASProtocol :=
  if decide (s = "https") then Some Https
  else if decide (s = "https,http") then Some HttpsAndHttp
  else None.

(** ** What the SDK promises

    A token can be read back: whoever parses the string that [toString]
    gives for a successful signing, and checks its signature, finds the
    fields that were signed and the account and container they were
    signed for, with the times at the resolution of the encoding.  The
    program relies on nothing else of the encoding. *)
Class BlobSdkLaws (sdk : BlobSdk) : Type := {
  sas_resolution : Z;
  sas_resolution_pos : (0 < sas_resolution)%Z;
  sas_fields : string → option SasFields;
  sas_fields_signed values key account q :
    generateBlobSASQueryParameters values key account = Ok q →
    sas_fields (SASQueryParameters_toString q) =
    Some (fieldsOf sas_resolution values account);
}.

Arguments sas_resolution {sdk _}.
Arguments sas_resolution_pos {sdk _}.
Arguments sas_fields {sdk _} token.
Arguments sas_fields_signed {sdk _} values key account q _.

(** * Lemmas *)

Section Permissions.
Import ContainerSASPermissions.
Implicit Types (p : t) (s : string) (c : ascii).

Lemma parse_from_app p s1 s2 :
  parse_from p (s1 +:+ s2) =
  match parse_from p s1 with
  | Ok p' => parse_from p' s2
  | Throw e => Throw e
  end.
Proof.
  revert p. induction s1 as [|c s1 IH]; intros p; simpl; [done|].
  destruct (grant p c); [apply IH | done].
Qed.

Lemma parse_from_letter p b s c p' :
  grant p c = Ok p' →
  parse_from p (letter b (String c "") +:+ s) = parse_from (if b then p' else p) s.
Proof. intros H. destruct b; simpl; [by rewrite H | done]. Qed.

(** Parsing what [toString] prints gives the permission set back. *)
Lemma parse_toString p : parse (toString p) = Ok p.
Proof.
  destruct p as [r a cr w d x l tg m e i y f]. unfold parse, toString; simpl.
  destruct r, a, cr, w, d, x, l; destruct tg, m, e, i, y, f; reflexivity.
Qed.

Lemma parse_r : parse "r" = Ok readOnly.
Proof. reflexivity. Qed.

Lemma readOnly_grants_only_read :
  perm_read readOnly = true ∧ grantsMoreThanRead readOnly = false.
Proof. done. Qed.

(** A permission set grants reading and nothing else exactly when it is
    [readOnly], and then it prints as the single letter [r]. *)
Lemma readOnly_iff p :
  perm_read p = true ∧ grantsMoreThanRead p = false ↔ p = readOnly.
Proof.
  split; [|by intros ->].
  destruct p as [r a cr w d x l tg m e i y f]; unfold grantsMoreThanRead; simpl.
  intros [-> H]. repeat (apply orb_false_elim in H as [H ?]). by subst.
Qed.

Lemma toString_readOnly_iff p : toString p = "r" ↔ p = readOnly.
Proof.
  split; [|by intros ->]. intros H.
  apply (f_equal parse) in H. rewrite parse_toString in H. by injection H.
Qed.

End Permissions.

#[export] Hint Rewrite parse_r : eff.

Lemma SASProtocol_parse_value p : SASProtocol_parse (SASProtocol_value p) = Some p.
Proof. by destruct p. Qed.

(** ** Times at the resolution of a token *)

Section Truncate.
#[local] Open Scope Z_scope.
Implicit Types (d : Date) (z res : Z).

Lemma truncateDate_Int res z :
  truncateDate res (mkDate (Int z)) = mkDate (Int (res * (z / res))).
Proof. done. Qed.

Lemma truncateDate_1 d : truncateDate 1 d = d.
Proof. destruct d as [[|z]]; [done|]. by rewrite truncateDate_Int, Z.div_1_r, Z.mul_1_l. Qed.

(** Rounding down loses less than one unit of the resolution. *)
Lemma truncate_bounds res z : 0 < res → z - res < res * (z / res) ≤ z.
Proof.
  intros Hres. pose proof (Z.mul_div_le z res Hres).
  pose proof (Z.mul_succ_div_gt z res Hres). lia.
Qed.

Lemma truncate_mono res z1 z2 : 0 < res → z1 ≤ z2 → res * (z1 / res) ≤ res * (z2 / res).
Proof. intros Hres Hle. apply Z.mul_le_mono_nonneg_l; [lia|]. by apply Z.div_le_mono. Qed.

Lemma fieldsOf_1 values account :
  fieldsOf 1 values account =
  mkSasFields account (containerName values) (permissions values) (startsOn values)
    (expiresOn values) (ipRangeToString (ipRange values)) (protocol values).
Proof. unfold fieldsOf. by rewrite !truncateDate_1. Qed.

End Truncate.
