(* ===== verification/Token.v ===== *)
(** * Token: reference instances of the SDK, with tokens that can be
    read back

    [tokenSdk resolution] stands in for the Azure SDK where the program
    is run on concrete inputs: the key request succeeds when both dates
    are valid, signing succeeds when the validity window is made of
    valid dates, and [toString] prints the signed fields as a query
    string, the way the service's tokens do ([sv], [spr], [st], [se],
    [sip], [sr], [sp], [sig]), with times as a count of units of
    [resolution] milliseconds.  The signature is not a MAC: it names
    the resource it was made for, [/blob/<account>/<container>], which
    is what a MAC would bind.  [sampleSdk] counts milliseconds,
    [secondsSdk] seconds, as the service does; [offlineSdk] is an SDK
    whose key request is refused.

    [token_fields] reads a token back, and [token_fields_toString]
    proves that it finds what was signed, for every value of every
    field: the instances satisfy [BlobSdkLaws]. *)

From Stdlib Require Import ZArith Lia Ascii DecimalString DecimalZ.
From stdpp Require Import base tactics option list strings.
From S2P Require Import Prelude.
From S2P Require Import Query.
From S2P Require Import Js.
From S2P Require Import Azure.

#[local] Open Scope Z_scope.

(** ** Printing *)

Definition token_time (resolution : Z) (d : Date) : string :=
  match timeValue d with
  | NaN => "NaN"
  | Int z => NilZero.string_of_int (Z.to_int (z / resolution))
  end.

(** The stand-in for the signature: the resource that was signed for. *)
Definition token_signature (account container : string) : string :=
  "signed-/blob/" +:+ Query.escape account +:+ String "/" (Query.escape container).

(** The pairs of the query string, in the order the service prints
    them. *)
Definition token_params (resolution : Z) (q : BlobSASSignatureValues * string) :
    list (string * string) :=
  [("sv", "2021-08-06");
   ("spr", SASProtocol_value (protocol q.1));
   ("st", token_time resolution (startsOn q.1));
   ("se", token_time resolution (expiresOn q.1));
   ("sip", ipRangeToString (ipRange q.1));
   ("sr", "c");
   ("sp", ContainerSASPermissions.toString (permissions q.1));
   ("sig", q.2)].

Definition token_toString (resolution : Z) (q : BlobSASSignatureValues * string) : string :=
  Query.print (token_params resolution q).

(** ** Reading back *)

Definition token_parseTime (resolution : Z) (s : string) : option Date :=
  if decide (s = "NaN") then Some (mkDate NaN)
  else n ← NilZero.int_of_string s; Some (mkDate (Int (resolution * Z.of_int n))).

(** The account and the container a signature was made for. *)
Definition token_scope (sig : string) : option (string * string) :=
  rest ← Str.strip "signed-/blob/" sig;
  match Str.break "/" rest with
  | (a, Some c) =>
      account ← Query.unescape a; container ← Query.unescape c; Some (account, container)
  | (_, None) => None
  end.

(** A token names its version and its resource, carries a signature
    and the five fields; a string that lacks one of them is not a
    token. *)
Definition token_fields (resolution : Z) (token : string) : option SasFields :=
  ps ← Query.parse token;
  _ ← Query.get "sv" ps;
  _ ← Query.get "sr" ps;
  sig ← Query.get "sig" ps;
  spr ← Query.get "spr" ps;
  st ← Query.get "st" ps;
  se ← Query.get "se" ps;
  sip ← Query.get "sip" ps;
  sp ← Query.get "sp" ps;
  scope ← token_scope sig;
  protocol ← SASProtocol_parse spr;
  startsOn ← token_parseTime resolution st;
  expiresOn ← token_parseTime resolution se;
  permissions ← result_to_option (ContainerSASPermissions.parse sp);
  Some (mkSasFields scope.1 scope.2 permissions startsOn expiresOn sip protocol).

(** ** The instances *)

Definition tokenSdk (resolution : Z) : BlobSdk := {|
  UserDelegationKey := string;
  SASQueryParameters := BlobSASSignatureValues * string;
  getUserDelegationKey client s e :=
    if isValidDate s && isValidDate e then Ok ("key-for-" +:+ client_url client)
    else Throw (RangeError "Invalid time value");
  generateBlobSASQueryParameters values key account :=
    if isValidDate (startsOn values) && isValidDate (expiresOn values)
    then Ok (values, token_signature account (containerName values))
    else Throw (RangeError "Invalid time value");
  SASQueryParameters_toString := token_toString resolution;
|}.

Definition sampleSdk : BlobSdk := tokenSdk 1.

Definition secondsSdk : BlobSdk := tokenSdk 1000.

Definition offlineSdk : BlobSdk := {|
  UserDelegationKey := string;
  SASQueryParameters := BlobSASSignatureValues * string;
  getUserDelegationKey client s e := Throw (RestError "AuthorizationFailure");
  generateBlobSASQueryParameters values key account :=
    Ok (values, token_signature account (containerName values));
  SASQueryParameters_toString := token_toString 1;
|}.

(** * Lemmas *)

Section TokenLemmas.
Implicit Types (d : Date) (z res : Z) (values : BlobSASSignatureValues)
  (account container : string).

(** A printed integer reads back as the same integer, whatever its
    sign, and is never the text of an invalid date. *)
Lemma int_of_string_of_int z :
  Z.of_int <$> NilZero.int_of_string (NilZero.string_of_int (Z.to_int z)) = Some z.
Proof.
  rewrite <-(DecimalZ.of_to z) at 2.
  destruct (Z.to_int z) as [[]|[]];
    first [ by rewrite NilZero.isi_posnil | by rewrite NilZero.isi_negnil
          | by rewrite NilZero.isi ].
Qed.

Lemma string_of_int_not_NaN z : NilZero.string_of_int (Z.to_int z) ≠ "NaN".
Proof. by destruct (Z.to_int z) as [[]|[]]. Qed.

(** A printed time reads back as the time rounded down to the
    resolution. *)
Lemma token_parseTime_time res d :
  token_parseTime res (token_time res d) = Some (truncateDate res d).
Proof.
  destruct d as [[|z]]; [done|]. unfold token_parseTime, token_time. simpl.
  rewrite decide_False by apply string_of_int_not_NaN.
  pose proof (int_of_string_of_int (z / res)) as H.
  destruct (NilZero.int_of_string _); simpl in *; [|done]. by injection H as ->.
Qed.

(** A signature names the account and the container it was made for. *)
Lemma token_scope_signature account container :
  token_scope (token_signature account container) = Some (account, container).
Proof.
  unfold token_scope, token_signature. rewrite strip_app. simpl.
  rewrite break_app_fresh by (by apply Query.count_escape).
  by rewrite !Query.unescape_escape.
Qed.

(** Reading a printed token back gives the fields that were printed and
    the resource of its signature. *)
Lemma token_fields_toString res values account :
  token_fields res (token_toString res (values, token_signature account (containerName values))) =
  Some (fieldsOf res values account).
Proof.
  unfold token_fields, token_toString. rewrite Query.parse_print_pairs.
  unfold token_params. cbn [mbind option_bind fst snd].
  repeat (rewrite ?Query.get_head, ?Query.get_tail by done; cbn [mbind option_bind]).
  rewrite token_scope_signature, SASProtocol_parse_value, !token_parseTime_time,
    parse_toString. done.
Qed.

End TokenLemmas.

(** The instances keep the promise of [BlobSdkLaws]. *)
Lemma tokenSdk_signed res values key account q :
  generateBlobSASQueryParameters (BlobSdk := tokenSdk res) values key account = Ok q →
  token_fields res (token_toString res q) = Some (fieldsOf res values account).
Proof. simpl. case_match; [|done]. intros [= <-]. apply token_fields_toString. Qed.

#[global] Instance sampleSdk_laws : BlobSdkLaws sampleSdk :=
  {| sas_resolution := 1; sas_resolution_pos := eq_refl;
     sas_fields := token_fields 1; sas_fields_signed := tokenSdk_signed 1 |}.

#[global] Instance secondsSdk_laws : BlobSdkLaws secondsSdk :=
  {| sas_resolution := 1000; sas_resolution_pos := eq_refl;
     sas_fields := token_fields 1000; sas_fields_signed := tokenSdk_signed 1000 |}.

Lemma offlineSdk_signed values key account q :
  generateBlobSASQueryParameters (BlobSdk := offlineSdk) values key account = Ok q →
  token_fields 1 (token_toString 1 q) = Some (fieldsOf 1 values account).
Proof. simpl. intros [= <-]. apply token_fields_toString. Qed.

#[global] Instance offlineSdk_laws : BlobSdkLaws offlineSdk :=
  {| sas_resolution := 1; sas_resolution_pos := eq_refl;
     sas_fields := token_fields 1; sas_fields_signed := offlineSdk_signed |}.
