(* ===== verification/World.v ===== *)
(** * World: what the process can observe and change

    The state every effectful line of [index.ts] runs against: the
    environment variables ([process.env], lines 18-23), the files
    [readFileSync] can read (lines 69-70), the system clock behind
    [new Date()] (lines 34, 39, 40), which addresses the operating system
    lets the server bind (line 75), and the trace of everything the
    process did that is visible from outside (SDK calls, file reads,
    console lines, the listen call, forwarded requests), in order.

    The primitive effects ([process_env], [Date_now], [console_log],
    [readFileSync], [listen], the two SDK calls) are the only definitions
    that touch the world; the components are written with them. *)

From Stdlib Require Import ZArith Lia.
From stdpp Require Import base tactics option list strings gmap.
From S2P Require Import Prelude.
From S2P Require Import Js.
From S2P Require Import Azure.

(** ** HTTP messages at the two sides of the proxy *)

(** An inbound request as express hands it to a middleware: the virtual
    host the client asked for and the request target (path and query). *)
Record Request : Type := mkRequest {
  req_host : string;
  req_url : string;
}.

#[global] Instance Request_eq_dec : EqDecision Request.
Proof. solve_decision. Defined.

(** The request the proxy sends upstream. *)
Record UpstreamRequest : Type := mkUpstreamRequest {
  up_origin : string;
  up_host : string;
  up_path : string;
}.

#[global] Instance UpstreamRequest_eq_dec : EqDecision UpstreamRequest.
Proof. solve_decision. Defined.

(** ** Events *)

Inductive Event : Type :=
| EvNow (t : Z)
| EvGetUserDelegationKey (client : BlobServiceClient) (startsOn expiresOn : Date)
| EvGenerateSas (values : BlobSASSignatureValues) (accountName : string)
| EvReadFile (path : string)
| EvLog (line : string)
| EvListen (host : string) (port : Z)
| EvForward (up : UpstreamRequest).

#[global] Instance Event_eq_dec : EqDecision Event.
Proof. solve_decision. Defined.

Definition isLog (e : Event) : option string :=
  match e with EvLog s => Some s | _ => None end.

Definition isSdkCall (e : Event) : bool :=
  match e with
  | EvGetUserDelegationKey _ _ _ | EvGenerateSas _ _ => true
  | _ => false
  end.

Definition isListen (e : Event) : bool :=
  match e with EvListen _ _ => true | _ => false end.

Definition isForward (e : Event) : option UpstreamRequest :=
  match e with EvForward up => Some up | _ => None end.

(** ** The world *)

Record World : Type := mkWorld {
  env : gmap string string;
  files : gmap string string;
  clock : nat → Z;
  ticks : nat;
  bindable : string → Z → bool;
  trace : list Event;
}.

Definition emit (e : Event) (w : World) : World :=
  mkWorld (env w) (files w) (clock w) (ticks w) (bindable w) (trace w ++ [e]).

Definition tick (w : World) : World :=
  mkWorld (env w) (files w) (clock w) (S (ticks w)) (bindable w) (trace w).

(** The world after [n] more readings of the clock and the events [es]:
    the normal form of a sequence of [emit]s and [tick]s. *)
Definition advance (n : nat) (es : list Event) (w : World) : World :=
  mkWorld (env w) (files w) (clock w) (n + ticks w) (bindable w) (trace w ++ es).

(** The [i]-th reading of the clock counted from now. *)
Definition reading (w : World) (i : nat) : Z := clock w (i + ticks w).

(** The lines written to the console so far. *)
Definition console (w : World) : list string := omap isLog (trace w).

(** The requests sent upstream so far. *)
Definition forwarded (w : World) : list UpstreamRequest := omap isForward (trace w).

(** What a computation never changes: the environment, the files, the
    clock's readings and the bindable addresses; and the trace only grows. *)
Definition extends (w w' : World) : Prop :=
  env w' = env w ∧ files w' = files w ∧ clock w' = clock w ∧
  bindable w' = bindable w ∧ ticks w ≤ ticks w' ∧ trace w `prefix_of` trace w'.

(** The same, but the environment may gain variables: those it had keep
    their values. *)
Definition grows (w w' : World) : Prop :=
  env w ⊆ env w' ∧ files w' = files w ∧ clock w' = clock w ∧
  bindable w' = bindable w ∧ ticks w ≤ ticks w' ∧ trace w `prefix_of` trace w'.

(** The clock never runs backwards. *)
Definition monotone (w : World) : Prop :=
  ∀ n m, n ≤ m → (clock w n ≤ clock w m)%Z.

(** The clock's readings are time values a [Date] can hold. *)
Definition clockInRange (w : World) : Prop :=
  ∀ n, (Z.abs (clock w n) ≤ maxTime)%Z.

(** ** Well-formed events

    What every observable action of the process must satisfy to make
    sense to whoever receives it: the dates handed to the SDK are values
    a [Date] can hold, the port is a TCP port, and a forwarded request
    goes to an [https] origin under the name of that origin. *)
Definition Event_wf (e : Event) : Prop :=
  match e with
  | EvGetUserDelegationKey _ startsOn expiresOn => Date_wf startsOn ∧ Date_wf expiresOn
  | EvGenerateSas values _ => Date_wf (startsOn values) ∧ Date_wf (expiresOn values)
  | EvListen _ port => (0 < port < 65536)%Z
  | EvForward up => up_origin up = "https://" +:+ up_host up
  | EvNow _ | EvReadFile _ | EvLog _ => True
  end.

Definition World_wf (w : World) : Prop := Forall Event_wf (trace w).

(** ** Primitive effects *)

Abbreviation M := (Eff World Exn).

Section Effects.
Context {sdk : BlobSdk}.

(** [process.env.NAME]. *)
Definition process_env (name : string) : M (option string) :=
  gets (λ w, env w !! name).

(** [new Date()]: the next reading of the clock. *)
Definition Date_now : M Date :=
  t ← gets (λ w, clock w (ticks w));
  modify (λ w, emit (EvNow t) (tick w));;
  mret (Date_new (Int t)).

(** [console.log(line)]. *)
Definition console_log (line : string) : M unit :=
  modify (emit (EvLog line)).

(** [readFileSync(path, "utf-8")]: the content, or ENOENT. *)
Definition readFileSync (path : string) : M string :=
  modify (emit (EvReadFile path));;
  content ← gets (λ w, files w !! path);
  match content with
  | Some s => mret s
  | None => throw (SystemError "ENOENT" "open" path)
  end.

(** [server.listen({host, port}, callback)]: binds and runs the callback,
    or fails with the error the [net] module raises. *)
Definition listen (host : string) (port : Z) (callback : M unit) : M unit :=
  modify (emit (EvListen host port));;
  free ← gets (λ w, bindable w host port);
  if (free : bool) then callback
  else throw (SystemError "EADDRINUSE" "listen" host).

(** [await blobStorage.getUserDelegationKey(startsOn, expiresOn)]. *)
Definition await_getUserDelegationKey (client : BlobServiceClient)
    (startsOn expiresOn : Date) : M UserDelegationKey :=
  modify (emit (EvGetUserDelegationKey client startsOn expiresOn));;
  liftResult (getUserDelegationKey client startsOn expiresOn).

(** [generateBlobSASQueryParameters(values, key, accountName)]. *)
Definition call_generateBlobSASQueryParameters (values : BlobSASSignatureValues)
    (key : UserDelegationKey) (accountName : string) : M SASQueryParameters :=
  modify (emit (EvGenerateSas values accountName));;
  liftResult (generateBlobSASQueryParameters values key accountName).

End Effects.

(** * Lemmas *)

Section WorldLemmas.
Implicit Types (w : World) (e : Event).

#[global] Instance extends_preorder : PreOrder extends.
Proof.
  split.
  - intros w. by repeat split.
  - intros w1 w2 w3 (?&?&?&?&?&?) (?&?&?&?&?&?).
    repeat split; try congruence; try lia. by etrans.
Qed.

#[global] Instance grows_preorder : PreOrder grows.
Proof.
  split.
  - intros w. by repeat split.
  - intros w1 w2 w3 (?&?&?&?&?&?) (?&?&?&?&?&?).
    repeat split; try congruence; try lia; by etrans.
Qed.

Lemma extends_grows w w' : extends w w' → grows w w'.
Proof. intros (He&?&?&?&?&?). repeat split; try done. by rewrite He. Qed.

(** A variable that is set keeps its value. *)
Lemma grows_env w w' k v : grows w w' → env w !! k = Some v → env w' !! k = Some v.
Proof. intros (Henv&_) Hk. by eapply lookup_weaken. Qed.

Lemma extends_emit e w : extends w (emit e w).
Proof. repeat split; simpl; try done. by apply prefix_app_r. Qed.

Lemma extends_tick w : extends w (tick w).
Proof. repeat split; simpl; try done. lia. Qed.

Lemma extends_emit_tick e w : extends w (emit e (tick w)).
Proof. etrans; [apply extends_tick | apply extends_emit]. Qed.

Lemma extends_monotone w w' : extends w w' → monotone w → monotone w'.
Proof. intros (_&_&Hc&_) Hm n m. unfold monotone in *. rewrite Hc. apply Hm. Qed.

Lemma extends_clockInRange w w' : extends w w' → clockInRange w → clockInRange w'.
Proof. intros (_&_&Hc&_) Hr n. rewrite Hc. apply Hr. Qed.

Lemma extends_env w w' k : extends w w' → env w' !! k = env w !! k.
Proof. by intros (->&?). Qed.

Lemma extends_files w w' k : extends w w' → files w' !! k = files w !! k.
Proof. by intros (?&->&?). Qed.

Lemma extends_trace w w' : extends w w' → ∃ l, trace w' = trace w ++ l.
Proof. by intros (?&?&?&?&?&?). Qed.

Lemma advance_0_nil w : advance 0 [] w = w.
Proof. destruct w. unfold advance; simpl. by rewrite app_nil_r. Qed.

Lemma emit_advance e n es w : emit e (advance n es w) = advance n (es ++ [e]) w.
Proof. unfold emit, advance; simpl. by rewrite app_assoc. Qed.

Lemma tick_advance n es w : tick (advance n es w) = advance (S n) es w.
Proof. done. Qed.

Lemma emit_as_advance e w : emit e w = advance 0 [e] w.
Proof. done. Qed.

Lemma tick_as_advance w : tick w = advance 1 [] w.
Proof. unfold tick, advance; simpl. by rewrite app_nil_r. Qed.

Lemma advance_advance n m es fs w :
  advance n es (advance m fs w) = advance (n + m) (fs ++ es) w.
Proof.
  unfold advance; simpl. by rewrite app_assoc, Nat.add_assoc.
Qed.

Lemma extends_advance n es w : extends w (advance n es w).
Proof. repeat split; simpl; try done; [lia | by apply prefix_app_r]. Qed.

Lemma reading_advance n es w i : reading (advance n es w) i = reading w (i + n).
Proof. unfold reading; simpl. by rewrite Nat.add_assoc. Qed.

Lemma World_wf_emit e w : Event_wf e → World_wf w → World_wf (emit e w).
Proof. intros He Hw. apply Forall_app. by split; [|apply Forall_singleton]. Qed.

Lemma World_wf_tick w : World_wf w → World_wf (tick w).
Proof. done. Qed.

Lemma World_wf_advance n es w :
  Forall Event_wf es → World_wf w → World_wf (advance n es w).
Proof. intros Hes Hw. by apply Forall_app. Qed.

Lemma World_wf_trace w w' : trace w' = trace w → World_wf w → World_wf w'.
Proof. unfold World_wf. by intros ->. Qed.

Lemma console_emit_log w s : console (emit (EvLog s) w) = console w ++ [s].
Proof. unfold console; simpl. by rewrite omap_app. Qed.

Lemma console_emit_other w e : isLog e = None → console (emit e w) = console w.
Proof.
  intros H. unfold console; simpl. rewrite omap_app; simpl.
  by rewrite H, app_nil_r.
Qed.

Lemma forwarded_emit_forward w up :
  forwarded (emit (EvForward up) w) = forwarded w ++ [up].
Proof. unfold forwarded; simpl. by rewrite omap_app. Qed.

Lemma forwarded_emit_other w e : isForward e = None → forwarded (emit e w) = forwarded w.
Proof.
  intros H. unfold forwarded; simpl. rewrite omap_app; simpl.
  by rewrite H, app_nil_r.
Qed.

End WorldLemmas.

#[export] Hint Resolve extends_emit extends_tick extends_emit_tick : eff.

Section EffectLemmas.
Context {sdk : BlobSdk}.
Implicit Types (w : World).

Lemma run_process_env name w : run (process_env name) w = (Ok (env w !! name), w).
Proof. done. Qed.

Lemma run_Date_now w :
  run Date_now w =
  (Ok (Date_new (Int (clock w (ticks w)))), emit (EvNow (clock w (ticks w))) (tick w)).
Proof. done. Qed.

Lemma run_console_log line w : run (console_log line) w = (Ok tt, emit (EvLog line) w).
Proof. done. Qed.

Lemma run_readFileSync path w :
  run (readFileSync path) w =
  (match files w !! path with
   | Some s => Ok s
   | None => Throw (SystemError "ENOENT" "open" path)
   end, emit (EvReadFile path) w).
Proof.
  unfold readFileSync. eff_simpl. by destruct (files w !! path).
Qed.

Lemma run_listen host port callback w :
  run (listen host port callback) w =
  if bindable w host port then run callback (emit (EvListen host port) w)
  else (Throw (SystemError "EADDRINUSE" "listen" host), emit (EvListen host port) w).
Proof.
  unfold listen. eff_simpl. by destruct (bindable w host port).
Qed.

Lemma run_await_getUserDelegationKey client s e w :
  run (await_getUserDelegationKey client s e) w =
  (getUserDelegationKey client s e, emit (EvGetUserDelegationKey client s e) w).
Proof. done. Qed.

Lemma run_call_generateBlobSASQueryParameters values key account w :
  run (call_generateBlobSASQueryParameters values key account) w =
  (generateBlobSASQueryParameters values key account, emit (EvGenerateSas values account) w).
Proof. done. Qed.

(** Every primitive effect leaves the environment, the files and the
    clock alone and only appends to the trace. *)
Lemma stable_process_env name : stable extends (process_env name).
Proof. intros w. done. Qed.

Lemma stable_Date_now : stable extends Date_now.
Proof. intros w. unfold world_of. rewrite run_Date_now. apply extends_emit_tick. Qed.

Lemma stable_console_log line : stable extends (console_log line).
Proof. intros w. apply extends_emit. Qed.

Lemma stable_readFileSync path : stable extends (readFileSync path).
Proof. intros w. unfold world_of. rewrite run_readFileSync. apply extends_emit. Qed.

Lemma stable_listen host port callback :
  stable extends callback → stable extends (listen host port callback).
Proof.
  intros H w. unfold world_of. rewrite run_listen.
  destruct (bindable w host port); [|apply extends_emit].
  etrans; [apply extends_emit | apply H].
Qed.

Lemma stable_await_getUserDelegationKey client s e :
  stable extends (await_getUserDelegationKey client s e).
Proof. intros w. apply extends_emit. Qed.

Lemma stable_call_generateBlobSASQueryParameters values key account :
  stable extends (call_generateBlobSASQueryParameters values key account).
Proof. intros w. apply extends_emit. Qed.

(** Every primitive effect keeps the trace well formed, provided what it
    is called with is. *)
Lemma preserves_process_env name : preserves World_wf (process_env name).
Proof. by intros w. Qed.

Lemma preserves_Date_now : preserves World_wf Date_now.
Proof. intros w Hw. unfold world_of. rewrite run_Date_now. by apply World_wf_emit. Qed.

(** The date [new Date()] returns is one a [Date] can hold, whatever the
    clock reads. *)
Lemma returning_Date_now : returning World_wf Date_wf Date_now.
Proof.
  intros w Hw. unfold result_of, world_of. rewrite run_Date_now. simpl. split.
  - by apply World_wf_emit.
  - intros d [= <-]. apply Date_new_wf.
Qed.

Lemma preserves_console_log line : preserves World_wf (console_log line).
Proof. intros w Hw. by apply World_wf_emit. Qed.

Lemma preserves_readFileSync path : preserves World_wf (readFileSync path).
Proof.
  intros w Hw. unfold world_of. rewrite run_readFileSync. by apply World_wf_emit.
Qed.

Lemma preserves_listen host port callback :
  (0 < port < 65536)%Z → preserves World_wf callback →
  preserves World_wf (listen host port callback).
Proof.
  intros Hp Hc w Hw. unfold world_of. rewrite run_listen.
  destruct (bindable w host port); [apply Hc|]; by apply World_wf_emit.
Qed.

Lemma preserves_await_getUserDelegationKey client s e :
  Date_wf s → Date_wf e → preserves World_wf (await_getUserDelegationKey client s e).
Proof. intros Hs He w Hw. by apply World_wf_emit. Qed.

Lemma preserves_call_generateBlobSASQueryParameters values key account :
  Date_wf (startsOn values) → Date_wf (expiresOn values) →
  preserves World_wf (call_generateBlobSASQueryParameters values key account).
Proof. intros Hs He w Hw. by apply World_wf_emit. Qed.

End EffectLemmas.

#[export] Hint Rewrite @run_process_env @run_Date_now @run_console_log
  @run_readFileSync @run_listen @run_await_getUserDelegationKey
  @run_call_generateBlobSASQueryParameters : eff.

#[export] Hint Resolve stable_process_env stable_Date_now stable_console_log
  stable_readFileSync stable_listen stable_await_getUserDelegationKey
  stable_call_generateBlobSASQueryParameters : eff.

#[export] Hint Resolve preserves_process_env preserves_Date_now preserves_console_log
  preserves_readFileSync preserves_listen preserves_await_getUserDelegationKey
  preserves_call_generateBlobSASQueryParameters Date_new_wf : eff.
