(* ===== verification/Config.v ===== *)
(** * Config: the settings read from the environment (lines 18-27)

    The six [const]s of lines 18-23 are [readEnv]; the guard of line 25 is
    [missing]; the [throw] of line 26 and the narrowing of the six values
    from [string | undefined] to [string] that TypeScript performs after
    the guard are [checkConfig].  [loadConfig] is the three together.

    The theorems characterise when loading succeeds (all six variables
    set and non-empty), what it returns, that each variable is needed on
    its own, and that loading touches nothing. *)

From Stdlib Require Import ZArith Lia.
From stdpp Require Import base tactics option list strings gmap.
From S2P Require Import Prelude.
From S2P Require Import Js.
From S2P Require Import Azure.
From S2P Require Import World.

(** The six constants before the guard. *)
Record RawConfig : Type := mkRawConfig {
  raw_StorageAccount : option string;
  raw_StorageContainer : option string;
  raw_SslKey : option string;
  raw_SslCert : option string;
  raw_SslPassphrase : option string;
  raw_SslHost : option string;
}.

(** The six constants after the guard, as the rest of the program sees them. *)
Record Config : Type := mkConfig {
  StorageAccount : string;
  StorageContainer : string;
  SslKey : string;
  SslCert : string;
  SslPassphrase : string;
  SslHost : string;
}.

#[global] Instance Config_eq_dec : EqDecision Config.
Proof. solve_decision. Defined.

(** The names of the variables, in the order of lines 18-23. *)
Definition requiredKeys : list string :=
  ["STORAGE_ACCOUNT"; "BLOB_CONTAINER"; "SSL_KEY"; "SSL_CERT";
   "SSL_PASSPHRASE"; "SSL_HOST"].

Definition envError : Exn := Error "make sure to set up your .env file".

(** The condition of the [if] on line 25. *)
Definition missing (raw : RawConfig) : bool :=
  js_not (raw_StorageAccount raw) || js_not (raw_StorageContainer raw) ||
  js_not (raw_SslKey raw) || js_not (raw_SslCert raw) ||
  js_not (raw_SslPassphrase raw) || js_not (raw_SslHost raw).

(** The six constants at the type [string] they have after the guard. *)
Definition narrow (raw : RawConfig) : Config :=
  mkConfig
    (default "" (raw_StorageAccount raw)) (default "" (raw_StorageContainer raw))
    (default "" (raw_SslKey raw)) (default "" (raw_SslCert raw))
    (default "" (raw_SslPassphrase raw)) (default "" (raw_SslHost raw)).

(** Lines 25-27. *)
Definition checkConfig (raw : RawConfig) : Result Exn Config :=
  if missing raw then Throw envError else Ok (narrow raw).

(** The configuration the program runs with in a world where the guard
    passes. *)
Definition configOf (w : World) : Config :=
  mkConfig
    (default "" (env w !! "STORAGE_ACCOUNT")) (default "" (env w !! "BLOB_CONTAINER"))
    (default "" (env w !! "SSL_KEY")) (default "" (env w !! "SSL_CERT"))
    (default "" (env w !! "SSL_PASSPHRASE")) (default "" (env w !! "SSL_HOST")).

(** What [checkConfig] returns is a configuration none of whose values is
    empty. *)
Definition Config_wf (cfg : Config) : Prop :=
  StorageAccount cfg ≠ "" ∧ StorageContainer cfg ≠ "" ∧ SslKey cfg ≠ "" ∧
  SslCert cfg ≠ "" ∧ SslPassphrase cfg ≠ "" ∧ SslHost cfg ≠ "".

(** The environment that yields a given configuration. *)
Definition envOf (cfg : Config) : gmap string string :=
  <["STORAGE_ACCOUNT" := StorageAccount cfg]> $
  <["BLOB_CONTAINER" := StorageContainer cfg]> $
  <["SSL_KEY" := SslKey cfg]> $ <["SSL_CERT" := SslCert cfg]> $
  <["SSL_PASSPHRASE" := SslPassphrase cfg]> $ <["SSL_HOST" := SslHost cfg]> ∅.

(** Whether every required variable is set and non-empty. *)
Definition configured (w : World) : bool :=
  forallb (λ k, truthy (env w !! k)) requiredKeys.

(** The six lookups of lines 18-23 in a given world. *)
Definition rawOf (w : World) : RawConfig :=
  mkRawConfig (env w !! "STORAGE_ACCOUNT") (env w !! "BLOB_CONTAINER")
    (env w !! "SSL_KEY") (env w !! "SSL_CERT")
    (env w !! "SSL_PASSPHRASE") (env w !! "SSL_HOST").

Definition withEnv (e : gmap string string) (w : World) : World :=
  mkWorld e (files w) (clock w) (ticks w) (bindable w) (trace w).

Section Config.
Context {sdk : BlobSdk}.

(** Lines 18-23. *)
Definition readEnv : M RawConfig :=
  account ← process_env "STORAGE_ACCOUNT";
  container ← process_env "BLOB_CONTAINER";
  key ← process_env "SSL_KEY";
  cert ← process_env "SSL_CERT";
  passphrase ← process_env "SSL_PASSPHRASE";
  host ← process_env "SSL_HOST";
  mret (mkRawConfig account container key cert passphrase host).

(** Lines 18-27. *)
Definition loadConfig : M Config :=
  raw ← readEnv;
  liftResult (checkConfig raw).

(** * Lemmas *)

Implicit Types (w : World) (raw : RawConfig) (cfg : Config) (k : string).

Lemma run_readEnv w : run readEnv w = (Ok (rawOf w), w).
Proof. done. Qed.

Lemma run_loadConfig w : run loadConfig w = (checkConfig (rawOf w), w).
Proof. done. Qed.

Lemma preserves_loadConfig (I : World → Prop) : preserves I loadConfig.
Proof. intros w Hw. unfold world_of. by rewrite run_loadConfig. Qed.

Lemma missing_rawOf w : missing (rawOf w) = negb (configured w).
Proof.
  unfold missing, configured, js_not; simpl.
  rewrite andb_true_r, !negb_andb. by rewrite <-!orb_assoc.
Qed.

Lemma configured_iff w :
  configured w = true ↔ ∀ k, k ∈ requiredKeys → ∃ s, env w !! k = Some s ∧ s ≠ "".
Proof.
  unfold configured. rewrite forallb_forall.
  setoid_rewrite <-list_elem_of_In. by setoid_rewrite truthy_Some.
Qed.

Lemma not_configured_iff w :
  configured w = false ↔
  ∃ k, k ∈ requiredKeys ∧ (env w !! k = None ∨ env w !! k = Some "").
Proof.
  split.
  - unfold configured; simpl. rewrite !andb_false_iff, !truthy_false.
    intros [H|[H|[H|[H|[H|[H|H]]]]]]; [..|done];
      eexists; (split; [|exact H]); set_solver.
  - intros (k & Hk & Hv%truthy_false). apply not_true_iff_false. intros Hc.
    unfold configured in Hc. rewrite forallb_forall in Hc.
    apply list_elem_of_In, Hc in Hk. congruence.
Qed.

Lemma checkConfig_Ok raw cfg :
  checkConfig raw = Ok cfg ↔
  raw = mkRawConfig (Some (StorageAccount cfg)) (Some (StorageContainer cfg))
          (Some (SslKey cfg)) (Some (SslCert cfg))
          (Some (SslPassphrase cfg)) (Some (SslHost cfg)) ∧ Config_wf cfg.
Proof.
  unfold checkConfig, Config_wf. destruct (missing raw) eqn:Hm.
  - split; [done|]. intros [-> Hwf]. unfold missing in Hm; simpl in Hm.
    rewrite !orb_true_iff, !js_not_true in Hm. naive_solver.
  - unfold missing in Hm. rewrite !orb_false_iff, !js_not_false in Hm.
    unfold narrow. destruct raw, cfg; simpl in *. naive_solver.
Qed.

(** The configuration the guard lets through has no empty value. *)
Lemma configOf_wf w : configured w = true → Config_wf (configOf w).
Proof.
  intros Hc. assert (checkConfig (rawOf w) = Ok (configOf w)) as H.
  { unfold checkConfig. by rewrite missing_rawOf, Hc. }
  by apply checkConfig_Ok in H as [_ ?].
Qed.

Lemma run_loadConfig_configured w :
  run loadConfig w =
  (if configured w then Ok (configOf w) else Throw envError, w).
Proof.
  rewrite run_loadConfig. unfold checkConfig. rewrite missing_rawOf.
  by destruct (configured w).
Qed.

Lemma checkConfig_Throw raw e :
  checkConfig raw = Throw e ↔ missing raw = true ∧ e = envError.
Proof. unfold checkConfig. destruct (missing raw); naive_solver. Qed.

Lemma rawOf_withEnv e w :
  rawOf (withEnv e w) =
  mkRawConfig (e !! "STORAGE_ACCOUNT") (e !! "BLOB_CONTAINER") (e !! "SSL_KEY")
    (e !! "SSL_CERT") (e !! "SSL_PASSPHRASE") (e !! "SSL_HOST").
Proof. done. Qed.

Lemma rawOf_envOf cfg w :
  rawOf (withEnv (envOf cfg) w) =
  mkRawConfig (Some (StorageAccount cfg)) (Some (StorageContainer cfg))
    (Some (SslKey cfg)) (Some (SslCert cfg))
    (Some (SslPassphrase cfg)) (Some (SslHost cfg)).
Proof. done. Qed.

End Config.

(** A world for the examples: every variable set, both TLS files present,
    the five packages installed, a clock that starts at 1.7e12 ms and
    advances 5 ms per reading (for the first thousand readings). *)
Definition sampleConfig : Config :=
  mkConfig "acct" "maps" "/etc/tls/key.pem" "/etc/tls/cert.pem" "secret"
    "local.teams.office.com".

Definition samplePackages : gmap string string :=
  list_to_map ((λ name, ("node_modules/" +:+ name +:+ "/package.json", "{}")) <$>
    ["express"; "http-proxy-middleware"; "@azure/identity"; "@azure/storage-blob";
     "dotenv"]).

Definition sampleWorld : World :=
  mkWorld (envOf sampleConfig)
    (<["/etc/tls/key.pem" := "KEY"]> (<["/etc/tls/cert.pem" := "CERT"]> samplePackages))
    (λ n, 1700000000000 + 5 * Z.of_nat (n `min` 1000))%Z 0 (λ _ _, true) [].

Lemma sampleWorld_monotone : monotone sampleWorld.
Proof. intros n m H. simpl. lia. Qed.

Lemma sampleWorld_clockInRange : clockInRange sampleWorld.
Proof. intros n. unfold maxTime. simpl. lia. Qed.

Section ConfigTheorems.
Implicit Types (w : World) (cfg : Config) (k : string).

(** C9: loading the configuration succeeds with [cfg] exactly when each
    of the six environment variables is set to the corresponding field of
    [cfg] and none of them is the empty string. *)
Theorem loadConfig_Ok_iff w cfg :
  result_of loadConfig w = Ok cfg ↔
  env w !! "STORAGE_ACCOUNT" = Some (StorageAccount cfg) ∧
  env w !! "BLOB_CONTAINER" = Some (StorageContainer cfg) ∧
  env w !! "SSL_KEY" = Some (SslKey cfg) ∧
  env w !! "SSL_CERT" = Some (SslCert cfg) ∧
  env w !! "SSL_PASSPHRASE" = Some (SslPassphrase cfg) ∧
  env w !! "SSL_HOST" = Some (SslHost cfg) ∧ Config_wf cfg.
Proof.
  unfold result_of. rewrite run_loadConfig; simpl. rewrite checkConfig_Ok.
  unfold rawOf. split.
  - by intros [[= ??????] ?].
  - intros (?&?&?&?&?&?&?). split; [congruence | done].
Qed.

(** C33: loading the configuration throws exactly when some required
    variable is unset or empty, and what it throws is the [Error] of
    line 26. *)
Theorem loadConfig_Throw_iff w e :
  result_of loadConfig w = Throw e ↔
  e = envError ∧
  ∃ k, k ∈ requiredKeys ∧ (env w !! k = None ∨ env w !! k = Some "").
Proof.
  unfold result_of. rewrite run_loadConfig; simpl.
  rewrite checkConfig_Throw, missing_rawOf, negb_true_iff, not_configured_iff.
  naive_solver.
Qed.

(** Each of the six variables is required on its own: whatever the
    rest of the environment holds, removing one required variable makes
    loading throw. *)
Theorem loadConfig_requires_each w k :
  k ∈ requiredKeys →
  result_of loadConfig (withEnv (delete k (env w)) w) = Throw envError.
Proof.
  intros Hk. unfold result_of. rewrite run_loadConfig_configured.
  rewrite (proj2 (not_configured_iff _)); [done|].
  exists k. split; [done|]. left. simpl. apply lookup_delete_eq.
Qed.

Lemma loadConfig_requires_each_witness :
  "SSL_PASSPHRASE" ∈ requiredKeys ∧
  result_of loadConfig
    (withEnv (delete "SSL_PASSPHRASE" (env sampleWorld)) sampleWorld) =
  Throw envError.
Proof.
  split; [set_solver|].
  apply (loadConfig_requires_each sampleWorld "SSL_PASSPHRASE"). set_solver.
Defined.

(** An environment that holds a well-formed configuration loads back
    to that configuration. *)
Theorem loadConfig_envOf w cfg :
  Config_wf cfg → result_of loadConfig (withEnv (envOf cfg) w) = Ok cfg.
Proof.
  intros Hwf. unfold result_of. rewrite run_loadConfig; simpl.
  rewrite rawOf_envOf. by apply checkConfig_Ok.
Qed.

Lemma loadConfig_envOf_witness :
  Config_wf sampleConfig ∧
  result_of loadConfig (withEnv (envOf sampleConfig) sampleWorld) = Ok sampleConfig.
Proof.
  assert (Config_wf sampleConfig) as H by (by repeat split).
  split; [exact H | exact (loadConfig_envOf sampleWorld sampleConfig H)].
Defined.

(** Loading the configuration changes nothing: the world after is the
    world before, whether loading succeeded or threw. *)
Theorem loadConfig_pure w : world_of loadConfig w = w.
Proof. unfold world_of. by rewrite run_loadConfig. Qed.

End ConfigTheorems.
