(* ===== verification/Dotenv.v ===== *)
(** * Dotenv: [dotenv.config()] (line 16)

    The first statement of [index.ts] calls the [dotenv] library, which
    reads the file [.env] of the working directory and copies its
    assignments into [process.env].  The library is not part of the
    repository; what is written here is its documented contract:

    - the file is read with [readFileSync]; when that throws (no such
      file) the error is caught and returned, and the program, which
      ignores the returned value, goes on ([dotenv_config] is the
      [try]/[catch] of the library's [config]);
    - the text is parsed into an object of assignments ([dotenv_parse],
      a parameter: the class [DotenvParser]);
    - every key of that object is assigned to [process.env] unless
      [process.env] already has it ([populate]).

    [loaded] is the world the call leaves, in closed form, and [setting]
    the value a variable has afterwards: the one of the environment when
    there is one, else the one of the file.

    [lineParser] is a parser for the plain form of the format (one
    [KEY=VALUE] per line, other lines skipped, values taken as written),
    with its printer and their round trip.  It serves the examples; no
    theorem about the program depends on it. *)

From Stdlib Require Import ZArith Lia Ascii.
From stdpp Require Import base tactics option list strings gmap.
From S2P Require Import Prelude.
From S2P Require Import Js.
From S2P Require Import Azure.
From S2P Require Import World.
From S2P Require Import Config.

(** ** The library as the program sees it *)

(** [dotenv.parse]: from the text of the file to the object of its
    assignments. *)
Class DotenvParser : Type := {
  dotenv_parse : string → gmap string string;
}.

(** The file [config()] reads when it is given no options. *)
Definition dotenvPath : string := ".env".

(** The loop of [config()] over the keys of the parsed object: a key is
    assigned only when [process.env] does not have it. *)
Definition populate (parsed env : gmap string string) : gmap string string :=
  map_fold (λ k v e, if decide (is_Some (e !! k)) then e else <[k := v]> e) env parsed.

Section Dotenv.
Context {parser : DotenvParser}.

(** Line 16. *)
Definition dotenv_config : M unit :=
  try_catch
    (src ← readFileSync dotenvPath;
     modify (λ w, withEnv (populate (dotenv_parse src) (env w)) w))
    (λ _, mret tt).

(** The value of a variable after line 16. *)
Definition setting (w : World) (name : string) : option string :=
  match env w !! name with
  | Some v => Some v
  | None => src ← files w !! dotenvPath; dotenv_parse src !! name
  end.

(** The environment after line 16. *)
Definition loadedEnv (w : World) : gmap string string :=
  match files w !! dotenvPath with
  | Some src => env w ∪ dotenv_parse src
  | None => env w
  end.

(** The world after line 16. *)
Definition loaded (w : World) : World :=
  withEnv (loadedEnv w) (emit (EvReadFile dotenvPath) w).

(** The six constants of lines 18-23 as line 16 leaves them. *)
Definition settings (w : World) : Config :=
  mkConfig
    (default "" (setting w "STORAGE_ACCOUNT")) (default "" (setting w "BLOB_CONTAINER"))
    (default "" (setting w "SSL_KEY")) (default "" (setting w "SSL_CERT"))
    (default "" (setting w "SSL_PASSPHRASE")) (default "" (setting w "SSL_HOST")).

End Dotenv.

(** ** A parser for the plain form of the format *)

Definition newline : ascii := "010"%char.

(** [src.split("\n")]. *)
Definition lines (s : string) : list string := Str.split newline s.

(** The characters of a key: letters, digits, [_], [.] and [-]. *)
Definition isKeyChar (c : ascii) : bool :=
  let n := nat_of_ascii c in
  (65 <=? n) && (n <=? 90) || (97 <=? n) && (n <=? 122) ||
  (48 <=? n) && (n <=? 57) || (n =? 95) || (n =? 46) || (n =? 45).

Definition isKey (k : string) : bool :=
  negb (String.eqb k "") && forallb isKeyChar (String.list_ascii_of_string k).

(** One line: an assignment when it has the form [KEY=VALUE]. *)
Definition parseLine (line : string) : option (string * string) :=
  match Str.break "="%char line with
  | (k, Some v) => if isKey k then Some (k, v) else None
  | (_, None) => None
  end.

(** The assignments in the order of the file; a later one replaces an
    earlier one for the same key. *)
Definition assign (entries : list (string * string)) : gmap string string :=
  foldl (λ obj kv, <[kv.1 := kv.2]> obj) ∅ entries.

Definition parseLines (src : string) : gmap string string :=
  assign (omap parseLine (lines src)).

Definition lineParser : DotenvParser := {| dotenv_parse := parseLines |}.

(** The printer: one line per assignment. *)
Definition printLine (kv : string * string) : string := kv.1 +:+ "=" +:+ kv.2.

Fixpoint print (entries : list (string * string)) : string :=
  match entries with
  | [] => ""
  | [kv] => printLine kv
  | kv :: rest => printLine kv +:+ String newline (print rest)
  end.

(** An assignment the plain form can carry: a proper key and a value of
    one line. *)
Definition plainEntry (kv : string * string) : Prop :=
  isKey kv.1 = true ∧ Str.count newline kv.2 = 0.

(** * Lemmas *)

Section PopulateLemmas.
Implicit Types (parsed env : gmap string string) (k : string).

(** The loop computes the union that prefers the environment. *)
Lemma populate_union parsed env : populate parsed env = env ∪ parsed.
Proof.
  unfold populate.
  apply (map_fold_weak_ind (λ r m, r = env ∪ m)); [by rewrite (right_id_L ∅ (∪))|].
  intros k v m r Hk ->. case_decide as Hin.
  - apply map_eq. intros j. rewrite !lookup_union.
    destruct (decide (j = k)) as [->|]; [|by rewrite lookup_insert_ne].
    rewrite lookup_insert_eq, Hk. rewrite lookup_union, Hk in Hin.
    by destruct Hin as [x Hx], (env !! k).
  - apply insert_union_r. rewrite <-not_eq_None_Some in Hin.
    apply dec_stable in Hin. by apply lookup_union_None_1 in Hin as [? _].
Qed.

Lemma lookup_populate parsed env k :
  populate parsed env !! k =
  match env !! k with Some v => Some v | None => parsed !! k end.
Proof.
  rewrite populate_union, lookup_union.
  by destruct (env !! k), (parsed !! k).
Qed.

Lemma populate_subseteq parsed env : env ⊆ populate parsed env.
Proof. rewrite populate_union. apply map_union_subseteq_l. Qed.

End PopulateLemmas.

Section DotenvLemmas.
Context {parser : DotenvParser}.
Implicit Types (w : World) (k : string).

Lemma withEnv_env w : withEnv (env w) w = w.
Proof. by destruct w. Qed.

Lemma run_dotenv_config w : run dotenv_config w = (Ok tt, loaded w).
Proof.
  unfold dotenv_config, loaded, loadedEnv. eff_run. cbn [files emit].
  destruct (files w !! dotenvPath) as [src|]; eff_run.
  - by rewrite populate_union.
  - by rewrite <-(withEnv_env (emit _ w)) at 1.
Qed.

Lemma env_loaded w k : env (loaded w) !! k = setting w k.
Proof.
  unfold loaded, loadedEnv, setting; simpl.
  destruct (files w !! dotenvPath) as [src|]; simpl.
  - rewrite lookup_union. by destruct (env w !! k), (dotenv_parse src !! k).
  - by destruct (env w !! k).
Qed.

Lemma configOf_loaded w : configOf (loaded w) = settings w.
Proof. unfold configOf, settings. by rewrite !env_loaded. Qed.

Lemma configured_loaded w :
  configured (loaded w) = true ↔
  ∀ k, k ∈ requiredKeys → ∃ s, setting w k = Some s ∧ s ≠ "".
Proof. rewrite configured_iff. by setoid_rewrite env_loaded. Qed.

(** Without the file, line 16 is one failed read and nothing else. *)
Lemma loaded_no_file w :
  files w !! dotenvPath = None → loaded w = emit (EvReadFile dotenvPath) w.
Proof.
  unfold loaded, loadedEnv. intros ->.
  apply (withEnv_env (emit (EvReadFile dotenvPath) w)).
Qed.

Lemma trace_loaded w : trace (loaded w) = trace w ++ [EvReadFile dotenvPath].
Proof. done. Qed.

Lemma grows_loaded w : grows w (loaded w).
Proof.
  repeat split; simpl; try done; [|by apply prefix_app_r].
  unfold loadedEnv. destruct (files w !! dotenvPath); [|done].
  apply map_union_subseteq_l.
Qed.

Lemma stable_dotenv_config : stable grows dotenv_config.
Proof. intros w. unfold world_of. rewrite run_dotenv_config. apply grows_loaded. Qed.

Lemma preserves_dotenv_config : preserves World_wf dotenv_config.
Proof.
  unfold dotenv_config. apply preserves_try_catch; [|intros; apply preserves_ret].
  apply preserves_bind; [apply preserves_readFileSync|]. intros src.
  by apply preserves_modify.
Qed.

(** A variable that is set, even to the empty string, hides the file's. *)
Lemma setting_env w k v : env w !! k = Some v → setting w k = Some v.
Proof. unfold setting. by intros ->. Qed.

Lemma setting_file w k src :
  env w !! k = None → files w !! dotenvPath = Some src →
  setting w k = dotenv_parse src !! k.
Proof. unfold setting. by intros -> ->. Qed.

End DotenvLemmas.

(** ** The plain parser and its printer *)

Section LineParser.
Implicit Types (s t k v : string) (kv : string * string) (c : ascii).
Implicit Types (entries : list (string * string)).

Lemma lines_single s : Str.count newline s = 0 → lines s = [s].
Proof. apply split_single. Qed.

Lemma lines_app s t :
  Str.count newline s = 0 → lines (s +:+ String newline t) = s :: lines t.
Proof. apply split_app. Qed.

(** A key has neither [=] nor a newline in it. *)
Lemma isKey_count k c : isKey k = true → isKeyChar c = false → Str.count c k = 0.
Proof.
  unfold isKey. intros [_ Hk]%andb_prop Hc.
  induction k as [|a k IH]; simpl in *; [done|].
  apply andb_prop in Hk as [Ha Hk].
  case_decide; [congruence | by apply IH].
Qed.

Lemma parseLine_printLine kv : isKey kv.1 = true → parseLine (printLine kv) = Some kv.
Proof.
  destruct kv as [k v]. cbn [fst snd]. intros Hk. unfold parseLine, printLine.
  change ((k, v).1 +:+ "=" +:+ (k, v).2) with (k +:+ String "="%char v).
  rewrite (break_app_fresh "="%char k v) by (by apply isKey_count).
  by rewrite Hk.
Qed.

Lemma count_printLine kv : plainEntry kv → Str.count newline (printLine kv) = 0.
Proof.
  intros [Hk Hv]. unfold printLine. rewrite !count_app, Hv.
  by rewrite (isKey_count _ newline Hk).
Qed.

(** Parsing what was printed gives the assignments back, in order. *)
Lemma parse_print entries :
  Forall plainEntry entries → entries ≠ [] →
  omap parseLine (lines (print entries)) = entries.
Proof.
  induction 1 as [|kv rest Hkv Hrest IH]; [done|]. intros _.
  destruct rest as [|kv' rest].
  - simpl. rewrite lines_single by (by apply count_printLine).
    simpl. by rewrite parseLine_printLine by apply Hkv.
  - change (print (kv :: kv' :: rest))
      with (printLine kv +:+ String newline (print (kv' :: rest))).
    rewrite lines_app by (by apply count_printLine).
    cbn [omap list_omap]. rewrite parseLine_printLine by apply Hkv.
    by rewrite IH.
Qed.

Lemma assign_snoc entries kv :
  assign (entries ++ [kv]) = <[kv.1 := kv.2]> (assign entries).
Proof. unfold assign. by rewrite foldl_app. Qed.

(** With one assignment per key the order does not matter. *)
Lemma assign_NoDup entries :
  NoDup entries.*1 → assign entries = list_to_map entries.
Proof.
  induction entries as [|[k v] entries IH] using rev_ind; [done|].
  rewrite fmap_app, NoDup_app. intros (Hnd & Hk & _).
  rewrite assign_snoc, IH by done. simpl.
  symmetry. apply list_to_map_snoc. intros Hin. apply (Hk k Hin). set_solver.
Qed.

Lemma parseLines_print entries :
  Forall plainEntry entries → entries ≠ [] → NoDup entries.*1 →
  parseLines (print entries) = list_to_map entries.
Proof.
  intros Hp Hne Hnd. unfold parseLines. rewrite parse_print by done.
  by apply assign_NoDup.
Qed.

End LineParser.

(** ** A world with a [.env] file

    The environment sets the account and the container; the file sets the
    four TLS settings, and an account that the environment hides. *)

Definition sampleEnvFile : string :=
  print [("STORAGE_ACCOUNT", "other"); ("SSL_KEY", "/etc/tls/key.pem");
         ("SSL_CERT", "/etc/tls/cert.pem"); ("SSL_PASSPHRASE", "secret");
         ("SSL_HOST", "local.teams.office.com")].

Definition dotenvWorld : World :=
  mkWorld (<["STORAGE_ACCOUNT" := "acct"]> (<["BLOB_CONTAINER" := "maps"]> ∅))
    (<[".env" := sampleEnvFile]> (files sampleWorld))
    (clock sampleWorld) 0 (λ _ _, true) [].

(** * Theorems *)

Section DotenvTheorems.
Context {parser : DotenvParser}.
Implicit Types (w : World) (k : string).

(** C25: [dotenv.config()] never throws, and afterwards a variable has the
    value it had in the environment when it had one (the empty string
    included), else the value the file gives it, else none. *)
Theorem dotenv_config_env w k :
  result_of dotenv_config w = Ok tt ∧
  env (world_of dotenv_config w) !! k =
  match env w !! k with
  | Some v => Some v
  | None => src ← files w !! ".env"; dotenv_parse src !! k
  end.
Proof.
  unfold result_of, world_of. rewrite run_dotenv_config. split; [done|].
  apply env_loaded.
Qed.

End DotenvTheorems.

Section DotenvExamples.
#[local] Existing Instance lineParser.

Example sampleEnvFile_parsed :
  parseLines sampleEnvFile !! "SSL_KEY" = Some "/etc/tls/key.pem" ∧
  parseLines (String "#"%char " comment" +:+ String newline "A=1" +:+
              String newline "" +:+ String newline "A=2") !! "A" = Some "2".
Proof. by vm_compute. Qed.

Example dotenvWorld_settings : settings dotenvWorld = sampleConfig.
Proof. by vm_compute. Qed.

End DotenvExamples.
