(* ===== verification/Sas.v ===== *)
(** * Sas: the token provisioner (lines 29-49)

    [getReadOnlySasQueryParameter] is the function of lines 29-49, line by
    line: the service client of lines 30-32, the two clock readings and
    the key request of line 34, the signature values of lines 36-43 with
    their two further clock readings, the signing call of lines 35-46 and
    the [toString] of line 48.

    [keyStartsOn], [keyExpiresOn], [sasStartsOn], [sasExpiresOn] and
    [sasValues] are the values those expressions take in a given world;
    [run_getReadOnlySasQueryParameter] proves that the program computes
    exactly them, and the theorems on what is requested, on the validity
    windows and on errors follow from it. *)

From Stdlib Require Import ZArith Lia.
From stdpp Require Import base tactics option list strings gmap.
From S2P Require Import Prelude.
From S2P Require Import Ip.
From S2P Require Import Js.
From S2P Require Import Azure.
From S2P Require Import Token.
From S2P Require Import World.
From S2P Require Import Config.

(** The template literal of line 31. *)
Definition blobStorageUrl (account : string) : string :=
  "https://" +:+ account +:+ ".blob.core.windows.net/".

(** The [ipRange] of line 41. *)
Definition allAddresses : SasIPRange := mkSasIPRange "0.0.0.0" "255.255.255.255".

(** The two offsets in milliseconds, lines 34 and 40. *)
Definition keyLifetime : Z := 100000.
Definition sasLifetime : Z := 86400.

(** One day in milliseconds. *)
Definition msPerDay : Z := 86400000.

(** The client of lines 30-32. *)
Definition blobStorageClient (account : string) : BlobServiceClient :=
  mkBlobServiceClient (blobStorageUrl account) DefaultAzureCredential.

(** The dates of line 34 in a world: the next reading of the clock, and
    the one after it plus 100000. *)
Definition keyStartsOn (w : World) : Date := Date_new (Int (reading w 0)).

Definition keyExpiresOn (w : World) : Date :=
  Date_new (add (getTime (Date_new (Int (reading w 1)))) (Int keyLifetime)).

(** The dates of lines 39 and 40: the third reading, and the fourth plus
    86400. *)
Definition sasStartsOn (w : World) : Date := Date_new (Int (reading w 2)).

Definition sasExpiresOn (w : World) : Date :=
  Date_new (add (valueOf (Date_new (Int (reading w 3)))) (Int sasLifetime)).

(** The object of lines 36-43. *)
Definition sasValues (container : string) (w : World) : BlobSASSignatureValues :=
  mkBlobSASSignatureValues container ContainerSASPermissions.readOnly
    (sasStartsOn w) (sasExpiresOn w) allAddresses Https.

(** What a token minted for the object of lines 36-43 and the account of
    line 45 says when its times are spelt to [resolution] milliseconds
    and the clock stays in the range of a [Date]: that account and
    container, reading only, from the third reading of the clock to
    86400 ms after the fourth, every IPv4 address, HTTPS only. *)
Definition signedFields (resolution : Z) (account container : string) (w : World) : SasFields :=
  mkSasFields account container ContainerSASPermissions.readOnly
    (mkDate (Int (resolution * (reading w 2 / resolution))))
    (mkDate (Int (resolution * ((reading w 3 + sasLifetime) / resolution))))
    "0.0.0.0-255.255.255.255" Https.

(** The events of a run up to the key request, and after it. *)
Definition keyEvents (account : string) (w : World) : list Event :=
  [EvNow (reading w 0); EvNow (reading w 1);
   EvGetUserDelegationKey (blobStorageClient account) (keyStartsOn w) (keyExpiresOn w)].

Definition sasEvents (account container : string) (w : World) : list Event :=
  [EvNow (reading w 2); EvNow (reading w 3);
   EvGenerateSas (sasValues container w) account].

Section Sas.
Context {sdk : BlobSdk}.

(** Lines 29-49. *)
Definition getReadOnlySasQueryParameter (account container : string) : M string :=
  let creds := DefaultAzureCredential in
  let blobStorageUrl := "https://" +:+ account +:+ ".blob.core.windows.net/" in
  let blobStorage := mkBlobServiceClient blobStorageUrl creds in
  keyStart ← Date_now;
  now1 ← Date_now;
  userDelegationKey ←
    await_getUserDelegationKey blobStorage keyStart
      (Date_new (add (getTime now1) (Int 100000)));
  permissions ← liftResult (ContainerSASPermissions.parse "r");
  startsOn ← Date_now;
  now2 ← Date_now;
  sasQueryParams ←
    call_generateBlobSASQueryParameters
      {| containerName := container;
         permissions := permissions;
         startsOn := startsOn;
         expiresOn := Date_new (add (valueOf now2) (Int 86400));
         ipRange := {| ip_start := "0.0.0.0"; ip_end := "255.255.255.255" |};
         protocol := Https |}
      userDelegationKey account;
  mret (SASQueryParameters_toString sasQueryParams).

(** What the function returns, given what the SDK answers. *)
Definition provisioned (account container : string) (w : World) : Result Exn string :=
  match getUserDelegationKey (blobStorageClient account) (keyStartsOn w) (keyExpiresOn w) with
  | Throw e => Throw e
  | Ok key =>
      match generateBlobSASQueryParameters (sasValues container w) key account with
      | Throw e => Throw e
      | Ok q => Ok (SASQueryParameters_toString q)
      end
  end.

(** The world it leaves: two readings and the key request, and when the
    key arrived two more readings and the signing call. *)
Definition provisionedWorld (account container : string) (w : World) : World :=
  match getUserDelegationKey (blobStorageClient account) (keyStartsOn w) (keyExpiresOn w) with
  | Throw _ => advance 2 (keyEvents account w) w
  | Ok _ => advance 4 (keyEvents account w ++ sasEvents account container w) w
  end.

(** * Lemmas *)

Implicit Types (w : World) (account container : string) (e : Exn).

(** The program computes [provisioned] and leaves [provisionedWorld]. *)
Lemma run_getReadOnlySasQueryParameter account container w :
  run (getReadOnlySasQueryParameter account container) w =
  (provisioned account container w, provisionedWorld account container w).
Proof.
  unfold getReadOnlySasQueryParameter. eff_run.
  unfold provisioned, provisionedWorld, keyEvents, sasEvents, sasValues,
    keyStartsOn, keyExpiresOn, sasStartsOn, sasExpiresOn, blobStorageClient,
    blobStorageUrl, allAddresses, keyLifetime, sasLifetime, reading, advance, emit, tick.
  cbn [clock ticks trace env files bindable Nat.add app].
  destruct (getUserDelegationKey _ _ _) as [key|e]; [|by rewrite <-!app_assoc].
  eff_run. unfold emit, tick.
  cbn [clock ticks trace env files bindable Nat.add app].
  destruct (generateBlobSASQueryParameters _ _ _); by rewrite <-!app_assoc.
Qed.

Lemma extends_provisionedWorld account container w :
  extends w (provisionedWorld account container w).
Proof. unfold provisionedWorld. destruct (getUserDelegationKey _ _ _); apply extends_advance. Qed.

Lemma stable_getReadOnlySasQueryParameter account container :
  stable extends (getReadOnlySasQueryParameter account container).
Proof.
  intros w. unfold world_of. rewrite run_getReadOnlySasQueryParameter.
  apply extends_provisionedWorld.
Qed.

Lemma provisioned_Ok account container w token :
  provisioned account container w = Ok token ↔
  ∃ key q,
    getUserDelegationKey (blobStorageClient account) (keyStartsOn w) (keyExpiresOn w) = Ok key ∧
    generateBlobSASQueryParameters (sasValues container w) key account = Ok q ∧
    token = SASQueryParameters_toString q.
Proof.
  unfold provisioned. destruct (getUserDelegationKey _ _ _) as [key|e'].
  - destruct (generateBlobSASQueryParameters _ _ _) as [q|e'] eqn:Hq.
    + split; [intros [= <-]; by exists key, q |].
      intros (k & q' & [= <-] & Hg & ->). congruence.
    + split; [done|]. intros (k & q' & [= <-] & Hg & _). congruence.
  - split; [done | by intros (k & q' & [=] & _)].
Qed.

Lemma provisioned_Throw account container w e :
  provisioned account container w = Throw e ↔
  getUserDelegationKey (blobStorageClient account) (keyStartsOn w) (keyExpiresOn w) = Throw e ∨
  ∃ key,
    getUserDelegationKey (blobStorageClient account) (keyStartsOn w) (keyExpiresOn w) = Ok key ∧
    generateBlobSASQueryParameters (sasValues container w) key account = Throw e.
Proof.
  unfold provisioned. destruct (getUserDelegationKey _ _ _) as [key|e'].
  - destruct (generateBlobSASQueryParameters _ _ _) as [q|e''] eqn:Hq.
    + split; [done|]. intros [[=] | (k & [= <-] & Hg)]. congruence.
    + split; [intros [= <-]; right; by exists key |].
      intros [[=] | (k & [= <-] & Hg)]. congruence.
  - split; [intros [= <-]; by left |]. by intros [[= <-] | (k & [=] & _)].
Qed.

(** The trace a run adds. *)
Lemma trace_provisionedWorld account container w :
  trace (provisionedWorld account container w) =
  trace w ++ keyEvents account w ++
    (if isOk (getUserDelegationKey (blobStorageClient account) (keyStartsOn w) (keyExpiresOn w))
     then sasEvents account container w else []).
Proof.
  unfold provisionedWorld. by destruct (getUserDelegationKey _ _ _).
Qed.

(** Every date the function hands to the SDK is one a [Date] can hold,
    whatever the clock reads: proved on the text of the function,
    statement by statement. *)
Lemma preserves_getReadOnlySasQueryParameter account container :
  preserves World_wf (getReadOnlySasQueryParameter account container).
Proof.
  unfold getReadOnlySasQueryParameter. cbv zeta.
  apply (preserves_bind_returning _ Date_wf); [apply returning_Date_now|].
  intros keyStart HkeyStart.
  apply preserves_bind; [apply preserves_Date_now|]. intros now1.
  apply preserves_bind; [auto with eff|]. intros key.
  apply preserves_bind; [apply preserves_liftResult|]. intros perms.
  apply (preserves_bind_returning _ Date_wf); [apply returning_Date_now|].
  intros startsOn HstartsOn.
  apply preserves_bind; [apply preserves_Date_now|]. intros now2.
  apply preserves_bind; [|intros q; apply preserves_ret].
  apply preserves_call_generateBlobSASQueryParameters; [done | apply Date_new_wf].
Qed.

(** The outcome depends on the world through the clock only. *)
Lemma sasValues_clock container w w' :
  clock w' = clock w → ticks w' = ticks w → sasValues container w' = sasValues container w.
Proof.
  intros Hc Ht. unfold sasValues, sasStartsOn, sasExpiresOn, reading. by rewrite Hc, Ht.
Qed.

Lemma provisioned_clock account container w w' :
  clock w' = clock w → ticks w' = ticks w →
  provisioned account container w' = provisioned account container w.
Proof.
  intros Hc Ht. unfold provisioned. rewrite (sasValues_clock _ w w') by done.
  unfold keyStartsOn, keyExpiresOn, reading. by rewrite Hc, Ht.
Qed.

Lemma keyEvents_clock account w w' :
  clock w' = clock w → ticks w' = ticks w → keyEvents account w' = keyEvents account w.
Proof.
  intros Hc Ht. unfold keyEvents, keyStartsOn, keyExpiresOn, reading. by rewrite Hc, Ht.
Qed.

Lemma sasEvents_clock account container w w' :
  clock w' = clock w → ticks w' = ticks w →
  sasEvents account container w' = sasEvents account container w.
Proof.
  intros Hc Ht. unfold sasEvents. rewrite (sasValues_clock _ w w') by done.
  unfold reading. by rewrite Hc, Ht.
Qed.

End Sas.

(** ** Dates under a well-behaved clock *)

Section Windows.
Implicit Types (w : World).
#[local] Open Scope Z_scope.

Lemma Date_new_reading w i :
  clockInRange w → Date_new (Int (reading w i)) = mkDate (Int (reading w i)).
Proof. intros Hr. unfold Date_new. by rewrite TimeClip_Int by apply Hr. Qed.

Lemma reading_mono w i j : monotone w → (i ≤ j)%nat → reading w i ≤ reading w j.
Proof. intros Hm Hij. apply Hm. lia. Qed.

Lemma reading_bound w i : clockInRange w → Z.abs (reading w i) ≤ maxTime.
Proof. intros Hr. apply Hr. Qed.

(** The expiry dates in closed form: the reading plus the offset, or an
    invalid date when that leaves the range of [Date]. *)
Lemma keyExpiresOn_eq w :
  clockInRange w →
  keyExpiresOn w =
  if bool_decide (reading w 1 + keyLifetime ≤ maxTime)
  then mkDate (Int (reading w 1 + keyLifetime)) else mkDate NaN.
Proof.
  intros Hr. unfold keyExpiresOn. rewrite Date_new_reading by done.
  by apply Date_new_add; [apply reading_bound | |].
Qed.

Lemma sasExpiresOn_eq w :
  clockInRange w →
  sasExpiresOn w =
  if bool_decide (reading w 3 + sasLifetime ≤ maxTime)
  then mkDate (Int (reading w 3 + sasLifetime)) else mkDate NaN.
Proof.
  intros Hr. unfold sasExpiresOn. rewrite Date_new_reading by done.
  by apply (Date_new_add (mkDate _)); [apply reading_bound | |].
Qed.

Lemma sasStartsOn_eq w : clockInRange w → sasStartsOn w = mkDate (Int (reading w 2)).
Proof. apply Date_new_reading. Qed.

Lemma keyStartsOn_eq w : clockInRange w → keyStartsOn w = mkDate (Int (reading w 0)).
Proof. apply Date_new_reading. Qed.

End Windows.

(** * Theorems *)

Section SasTheorems.
Context {sdk : BlobSdk}.
Implicit Types (w : World) (account container token : string) (e : Exn).
#[local] Open Scope Z_scope.

(** The one signing request provisioning can make is for [sasValues] and
    the account. *)
Lemma signing_request account container w values acct :
  EvGenerateSas values acct ∈ trace (world_of (getReadOnlySasQueryParameter account container) w) →
  EvGenerateSas values acct ∉ trace w →
  values = sasValues container w ∧ acct = account.
Proof.
  unfold world_of. rewrite run_getReadOnlySasQueryParameter; simpl.
  rewrite trace_provisionedWorld, !elem_of_app. intros [?|[Hk|Hs]] Hnew; [done|..].
  - unfold keyEvents in Hk. set_solver.
  - destruct (isOk _); [|set_solver]. unfold sasEvents in Hs. set_solver.
Qed.

(** C2: whatever the SDK answers, a signing request that appears in the
    trace during provisioning is for the configured account and container,
    grants reading and nothing else, is restricted to HTTPS and carries
    the address range 0.0.0.0-255.255.255.255. *)
Theorem provision_signs_read_only account container w values acct :
  EvGenerateSas values acct ∈ trace (world_of (getReadOnlySasQueryParameter account container) w) →
  EvGenerateSas values acct ∉ trace w →
  acct = account ∧ containerName values = container ∧
  ContainerSASPermissions.perm_read (permissions values) = true ∧
  ContainerSASPermissions.grantsMoreThanRead (permissions values) = false ∧
  protocol values = Https ∧ ipRange values = allAddresses.
Proof. intros H1 H2. by destruct (signing_request _ _ _ _ _ H1 H2) as [-> ->]. Qed.

(** C23: the address range of a signing request restricts nothing:
    every IPv4 address lies between the two ends the program writes on
    line 41, read as the service reads them. *)
Theorem provision_admits_every_address account container w values acct a :
  EvGenerateSas values acct ∈ trace (world_of (getReadOnlySasQueryParameter account container) w) →
  EvGenerateSas values acct ∉ trace w →
  inIpRange (ipRangeToString (ipRange values)) a = true.
Proof.
  intros H1 H2. destruct (signing_request _ _ _ _ _ H1 H2) as [-> ->].
  apply inIpRange_all.
Qed.

(** C10: the function returns a token exactly when the key request and the
    signing call both succeed, and the token is the query string of what
    was signed with the key that was returned. *)
Theorem provision_Ok_iff account container w token :
  result_of (getReadOnlySasQueryParameter account container) w = Ok token ↔
  ∃ key q,
    getUserDelegationKey (blobStorageClient account) (keyStartsOn w) (keyExpiresOn w) = Ok key ∧
    generateBlobSASQueryParameters (sasValues container w) key account = Ok q ∧
    token = SASQueryParameters_toString q.
Proof.
  unfold result_of. rewrite run_getReadOnlySasQueryParameter. apply provisioned_Ok.
Qed.

(** C30: the function throws exactly what the key request throws, or, when
    the key arrived, what the signing call throws; nothing is caught and
    nothing is retried. *)
Theorem provision_Throw_iff account container w e :
  result_of (getReadOnlySasQueryParameter account container) w = Throw e ↔
  getUserDelegationKey (blobStorageClient account) (keyStartsOn w) (keyExpiresOn w) = Throw e ∨
  ∃ key,
    getUserDelegationKey (blobStorageClient account) (keyStartsOn w) (keyExpiresOn w) = Ok key ∧
    generateBlobSASQueryParameters (sasValues container w) key account = Throw e.
Proof.
  unfold result_of. rewrite run_getReadOnlySasQueryParameter. apply provisioned_Throw.
Qed.

(** C31: the SDK is called at most twice, the key request first, and the
    signing call only when the key request succeeded. *)
Theorem provision_sdk_calls account container w :
  filter isSdkCall (trace (world_of (getReadOnlySasQueryParameter account container) w)) =
  filter isSdkCall (trace w) ++
  EvGetUserDelegationKey (blobStorageClient account) (keyStartsOn w) (keyExpiresOn w) ::
  (if isOk (getUserDelegationKey (blobStorageClient account) (keyStartsOn w) (keyExpiresOn w))
   then [EvGenerateSas (sasValues container w) account] else []).
Proof.
  unfold world_of. rewrite run_getReadOnlySasQueryParameter; simpl.
  rewrite trace_provisionedWorld, !filter_app. by destruct (isOk _).
Qed.

(** The clock is read twice before the key request and twice more
    after it. *)
Theorem provision_clock_reads account container w :
  ticks (world_of (getReadOnlySasQueryParameter account container) w) =
  ((if isOk (getUserDelegationKey (blobStorageClient account) (keyStartsOn w) (keyExpiresOn w))
    then 4 else 2) + ticks w)%nat.
Proof.
  unfold world_of. rewrite run_getReadOnlySasQueryParameter; simpl.
  unfold provisionedWorld. by destruct (getUserDelegationKey _ _ _).
Qed.

(** C7: with a clock that stays in the range of [Date] and does not run
    backwards, the token's validity window is 86400 ms plus the time
    between the two clock readings of lines 39 and 40, hence at least
    86400 ms. *)
Theorem sas_window container w :
  clockInRange w → monotone w → reading w 3 + sasLifetime ≤ maxTime →
  ∃ d, Date_diff (expiresOn (sasValues container w)) (startsOn (sasValues container w)) = Some d ∧
       d = sasLifetime + (reading w 3 - reading w 2) ∧ sasLifetime ≤ d.
Proof.
  intros Hr Hm Hle. simpl. rewrite sasExpiresOn_eq, sasStartsOn_eq by done.
  rewrite bool_decide_true by done. eexists. split; [done|].
  pose proof (reading_mono w 2 3 Hm). lia.
Qed.

(** C24: the window is 86400 milliseconds, not seconds: unless almost a
    day passes between two consecutive statements, the token expires in
    less than a day after it starts (in about 86 seconds). *)
Theorem sas_window_under_a_day container w d :
  clockInRange w → reading w 3 - reading w 2 < msPerDay - sasLifetime →
  Date_diff (expiresOn (sasValues container w)) (startsOn (sasValues container w)) = Some d →
  d < msPerDay ∧ (reading w 3 = reading w 2 → d * 1000 = msPerDay).
Proof.
  intros Hr Hgap. simpl. rewrite sasExpiresOn_eq, sasStartsOn_eq by done.
  case_bool_decide; [|done]. intros [= <-]. unfold msPerDay, sasLifetime in *. lia.
Qed.

(** The delegation key is requested for 100000 ms plus the time
    between the two clock readings of line 34. *)
Theorem key_window w :
  clockInRange w → monotone w → reading w 1 + keyLifetime ≤ maxTime →
  ∃ d, Date_diff (keyExpiresOn w) (keyStartsOn w) = Some d ∧
       d = keyLifetime + (reading w 1 - reading w 0) ∧ keyLifetime ≤ d.
Proof.
  intros Hr Hm Hle. rewrite keyExpiresOn_eq, keyStartsOn_eq by done.
  rewrite bool_decide_true by done. eexists. split; [done|].
  pose proof (reading_mono w 0 1 Hm). lia.
Qed.

(** C29: the token outlives the key it is signed with exactly when more
    than 13600 ms pass between requesting the key and signing. *)
Theorem sas_outlives_key_iff w d :
  clockInRange w → reading w 1 + keyLifetime ≤ maxTime →
  reading w 3 + sasLifetime ≤ maxTime →
  Date_diff (sasExpiresOn w) (keyExpiresOn w) = Some d →
  (0 < d ↔ keyLifetime - sasLifetime < reading w 3 - reading w 1).
Proof.
  intros Hr H1 H3. rewrite sasExpiresOn_eq, keyExpiresOn_eq by done.
  rewrite !bool_decide_true by done. intros [= <-]. lia.
Qed.

(** Both sums the function computes stay within the safe integers,
    so the double additions of lines 34 and 40 are exact. *)
Theorem provision_sums_exact w :
  clockInRange w →
  isSafeInteger (add (getTime (Date_new (Int (reading w 1)))) (Int keyLifetime)) = true ∧
  isSafeInteger (add (valueOf (Date_new (Int (reading w 3)))) (Int sasLifetime)) = true.
Proof.
  intros Hr. rewrite !Date_new_reading by done.
  split; apply (add_exact (mkDate _)); try done; try apply Hr;
    unfold keyLifetime, sasLifetime, MAX_SAFE_INTEGER, maxTime; lia.
Qed.

(** Provisioning leaves the environment, the files and the clock as
    they were and only appends to the trace. *)
Theorem provision_extends account container w :
  extends w (world_of (getReadOnlySasQueryParameter account container) w).
Proof. apply stable_getReadOnlySasQueryParameter. Qed.

End SasTheorems.

(** ** The token as a string

    What follows holds for every SDK that keeps the promise of
    [BlobSdkLaws]: a token can be read back. *)

Section SasToken.
Context {sdk : BlobSdk} {laws : BlobSdkLaws sdk}.
Implicit Types (w : World) (account container token : string).
#[local] Open Scope Z_scope.

Lemma provisioned_fields account container w token :
  provisioned account container w = Ok token →
  sas_fields token = Some (fieldsOf sas_resolution (sasValues container w) account).
Proof. intros (key & q & _ & Hq & ->)%provisioned_Ok. by eapply sas_fields_signed. Qed.

Lemma fieldsOf_sasValues res account container w :
  clockInRange w → reading w 3 + sasLifetime ≤ maxTime →
  fieldsOf res (sasValues container w) account = signedFields res account container w.
Proof.
  intros Hr Hle. unfold fieldsOf, sasValues, signedFields. simpl.
  by rewrite sasStartsOn_eq, sasExpiresOn_eq, bool_decide_true by done.
Qed.

Lemma provisioned_token_fields account container w token :
  clockInRange w → reading w 3 + sasLifetime ≤ maxTime →
  provisioned account container w = Ok token →
  sas_fields token = Some (signedFields sas_resolution account container w).
Proof.
  intros Hr Hle Hp. by rewrite (provisioned_fields _ _ _ _ Hp), fieldsOf_sasValues.
Qed.

(** The window a token carries ends after it starts as long as the
    resolution is finer than the lifetime, and is as long as what was
    signed to within one unit of the resolution. *)
Lemma signedFields_window res account container w :
  0 < res → monotone w →
  ∃ d, Date_diff (sf_expiresOn (signedFields res account container w))
         (sf_startsOn (signedFields res account container w)) = Some d ∧
       sasLifetime - res < d < sasLifetime + (reading w 3 - reading w 2) + res.
Proof.
  intros Hres Hm. eexists. split; [done|].
  pose proof (truncate_bounds res (reading w 2) Hres).
  pose proof (truncate_bounds res (reading w 3 + sasLifetime) Hres).
  pose proof (reading_mono w 2 3 Hm). lia.
Qed.

(** C5: the string the function returns, read back, says: the account
    and the container it was asked for, reading and nothing else, from
    the third reading of the clock until 86400 ms after the fourth, both
    rounded down to the resolution of the encoding, every IPv4 address,
    HTTPS only. *)
Theorem provision_token_decodes account container w token :
  clockInRange w → reading w 3 + sasLifetime ≤ maxTime →
  result_of (getReadOnlySasQueryParameter account container) w = Ok token →
  sas_fields token = Some (signedFields sas_resolution account container w).
Proof.
  unfold result_of. rewrite run_getReadOnlySasQueryParameter. apply provisioned_token_fields.
Qed.

End SasToken.

(** ** The theorems on the sample world *)

Section SasExamples.
#[local] Open Scope Z_scope.
#[local] Existing Instance sampleSdk.

Example provision_sample :
  result_of (getReadOnlySasQueryParameter "acct" "maps") sampleWorld =
  Ok ("sv=2021-08-06&spr=https&st=1700000000010&se=1700000086415" +:+
      "&sip=0.0.0.0-255.255.255.255&sr=c&sp=r&sig=signed-%2Fblob%2Facct%2Fmaps").
Proof. by vm_compute. Qed.

Example provision_sample_offline :
  result_of (getReadOnlySasQueryParameter (sdk:=offlineSdk) "acct" "maps") sampleWorld =
  Throw (RestError "AuthorizationFailure").
Proof. by vm_compute. Qed.

Lemma sample_readings_in_range :
  reading sampleWorld 1 + keyLifetime ≤ maxTime ∧
  reading sampleWorld 3 + sasLifetime ≤ maxTime.
Proof. by vm_compute. Qed.

Lemma provision_signs_read_only_witness :
  let values := sasValues "maps" sampleWorld in
  (EvGenerateSas values "acct" ∈
    trace (world_of (getReadOnlySasQueryParameter "acct" "maps") sampleWorld)) ∧
  (EvGenerateSas values "acct" ∉ trace sampleWorld) ∧
  ("acct" = "acct" ∧ containerName values = "maps" ∧
   ContainerSASPermissions.perm_read (permissions values) = true ∧
   ContainerSASPermissions.grantsMoreThanRead (permissions values) = false ∧
   protocol values = Https ∧ ipRange values = allAddresses).
Proof.
  intros values.
  assert (EvGenerateSas values "acct" ∈
    trace (world_of (getReadOnlySasQueryParameter "acct" "maps") sampleWorld)) as H1
    by by_compute.
  assert (EvGenerateSas values "acct" ∉ trace sampleWorld) as H2 by by_compute.
  split; [exact H1 | split; [exact H2 |]].
  exact (provision_signs_read_only "acct" "maps" sampleWorld values "acct" H1 H2).
Defined.

Lemma provision_admits_every_address_witness :
  let values := sasValues "maps" sampleWorld in
  (EvGenerateSas values "acct" ∈
    trace (world_of (getReadOnlySasQueryParameter "acct" "maps") sampleWorld)) ∧
  (EvGenerateSas values "acct" ∉ trace sampleWorld) ∧
  inIpRange (ipRangeToString (ipRange values)) (Byte.x0a, Byte.x00, Byte.x00, Byte.x07) = true.
Proof.
  intros values.
  assert (EvGenerateSas values "acct" ∈
    trace (world_of (getReadOnlySasQueryParameter "acct" "maps") sampleWorld)) as H1
    by by_compute.
  assert (EvGenerateSas values "acct" ∉ trace sampleWorld) as H2 by by_compute.
  split; [exact H1 | split; [exact H2 |]].
  exact (provision_admits_every_address "acct" "maps" sampleWorld values "acct" _ H1 H2).
Defined.

(** A range one address short of line 41's leaves that address out. *)
Example narrower_range_refuses :
  inIpRange (ipRangeToString (mkSasIPRange "0.0.0.0" "255.255.255.254"))
    (Byte.xff, Byte.xff, Byte.xff, Byte.xff) = false.
Proof. by vm_compute. Qed.

Lemma sas_window_witness :
  clockInRange sampleWorld ∧ monotone sampleWorld ∧
  reading sampleWorld 3 + sasLifetime ≤ maxTime ∧
  ∃ d, Date_diff (expiresOn (sasValues "maps" sampleWorld))
         (startsOn (sasValues "maps" sampleWorld)) = Some d ∧
       d = sasLifetime + (reading sampleWorld 3 - reading sampleWorld 2) ∧
       sasLifetime ≤ d.
Proof.
  split; [apply sampleWorld_clockInRange | split; [apply sampleWorld_monotone |]].
  split; [apply sample_readings_in_range |].
  apply (sas_window "maps" sampleWorld sampleWorld_clockInRange sampleWorld_monotone).
  apply sample_readings_in_range.
Defined.

Lemma sas_window_under_a_day_witness :
  clockInRange sampleWorld ∧
  reading sampleWorld 3 - reading sampleWorld 2 < msPerDay - sasLifetime ∧
  Date_diff (expiresOn (sasValues "maps" sampleWorld))
    (startsOn (sasValues "maps" sampleWorld)) = Some 86405 ∧
  (86405 < msPerDay ∧ (reading sampleWorld 3 = reading sampleWorld 2 → 86405 * 1000 = msPerDay)).
Proof.
  assert (reading sampleWorld 3 - reading sampleWorld 2 < msPerDay - sasLifetime) as Hgap
    by (by vm_compute).
  split; [apply sampleWorld_clockInRange | split; [exact Hgap | split; [done |]]].
  apply (sas_window_under_a_day "maps" sampleWorld 86405 sampleWorld_clockInRange Hgap).
  by vm_compute.
Defined.

Lemma key_window_witness :
  clockInRange sampleWorld ∧ monotone sampleWorld ∧
  reading sampleWorld 1 + keyLifetime ≤ maxTime ∧
  ∃ d, Date_diff (keyExpiresOn sampleWorld) (keyStartsOn sampleWorld) = Some d ∧
       d = keyLifetime + (reading sampleWorld 1 - reading sampleWorld 0) ∧
       keyLifetime ≤ d.
Proof.
  split; [apply sampleWorld_clockInRange | split; [apply sampleWorld_monotone |]].
  split; [apply sample_readings_in_range |].
  apply (key_window sampleWorld sampleWorld_clockInRange sampleWorld_monotone).
  apply sample_readings_in_range.
Defined.

Lemma sas_outlives_key_iff_witness :
  clockInRange sampleWorld ∧ reading sampleWorld 1 + keyLifetime ≤ maxTime ∧
  reading sampleWorld 3 + sasLifetime ≤ maxTime ∧
  Date_diff (sasExpiresOn sampleWorld) (keyExpiresOn sampleWorld) = Some (-13590) ∧
  (0 < -13590 ↔ keyLifetime - sasLifetime < reading sampleWorld 3 - reading sampleWorld 1).
Proof.
  split; [apply sampleWorld_clockInRange |].
  split; [apply sample_readings_in_range | split; [apply sample_readings_in_range |]].
  split; [by vm_compute |].
  apply (sas_outlives_key_iff sampleWorld (-13590) sampleWorld_clockInRange);
    [apply sample_readings_in_range | apply sample_readings_in_range | by vm_compute].
Defined.

Lemma provision_sums_exact_witness :
  clockInRange sampleWorld ∧
  isSafeInteger (add (getTime (Date_new (Int (reading sampleWorld 1)))) (Int keyLifetime)) = true ∧
  isSafeInteger (add (valueOf (Date_new (Int (reading sampleWorld 3)))) (Int sasLifetime)) = true.
Proof.
  split; [apply sampleWorld_clockInRange |].
  apply (provision_sums_exact sampleWorld sampleWorld_clockInRange).
Defined.

Lemma provision_token_decodes_witness :
  clockInRange sampleWorld ∧ reading sampleWorld 3 + sasLifetime ≤ maxTime ∧
  result_of (getReadOnlySasQueryParameter "acct" "maps") sampleWorld =
    Ok ("sv=2021-08-06&spr=https&st=1700000000010&se=1700000086415" +:+
        "&sip=0.0.0.0-255.255.255.255&sr=c&sp=r&sig=signed-%2Fblob%2Facct%2Fmaps") ∧
  sas_fields ("sv=2021-08-06&spr=https&st=1700000000010&se=1700000086415" +:+
              "&sip=0.0.0.0-255.255.255.255&sr=c&sp=r&sig=signed-%2Fblob%2Facct%2Fmaps") =
  Some (signedFields sas_resolution "acct" "maps" sampleWorld).
Proof.
  split; [apply sampleWorld_clockInRange | split; [apply sample_readings_in_range |]].
  split; [apply provision_sample |].
  apply (provision_token_decodes "acct" "maps" sampleWorld _ sampleWorld_clockInRange);
    [apply sample_readings_in_range | apply provision_sample].
Defined.

(** The decoder of the reference SDK, run on the sample token and on a
    token that grants more. *)
Example sample_token_fields :
  sas_fields ("sv=2021-08-06&spr=https&st=1700000000010&se=1700000086415" +:+
              "&sip=0.0.0.0-255.255.255.255&sr=c&sp=r&sig=signed-%2Fblob%2Facct%2Fmaps") =
  Some (mkSasFields "acct" "maps" ContainerSASPermissions.readOnly (mkDate (Int 1700000000010))
          (mkDate (Int 1700000086415)) "0.0.0.0-255.255.255.255" Https).
Proof. by vm_compute. Qed.

Example other_token_fields :
  sf_protocol <$>
    sas_fields ("sv=2021-08-06&spr=https%2Chttp&st=5&se=NaN&sip=a-b&sr=c&sp=rw" +:+
                "&sig=signed-%2Fblob%2Fa%252Fb%2Fc") =
  Some HttpsAndHttp ∧
  sas_fields "sv=2021-08-06&spr=https&st=5&se=6&sip=a-b&sr=c&sp=r&sig=forged" = None.
Proof. by vm_compute. Qed.

(** With an SDK that writes its times to the second, as the service
    does, the sample token is valid from 1700000000 s to 1700000086 s:
    for 86 seconds. *)
Example provision_sample_seconds :
  result_of (getReadOnlySasQueryParameter (sdk:=secondsSdk) "acct" "maps") sampleWorld =
  Ok ("sv=2021-08-06&spr=https&st=1700000000&se=1700000086" +:+
      "&sip=0.0.0.0-255.255.255.255&sr=c&sp=r&sig=signed-%2Fblob%2Facct%2Fmaps") ∧
  signedFields (sas_resolution (sdk:=secondsSdk)) "acct" "maps" sampleWorld =
  mkSasFields "acct" "maps" ContainerSASPermissions.readOnly (mkDate (Int 1700000000000))
    (mkDate (Int 1700000086000)) "0.0.0.0-255.255.255.255" Https.
Proof. by vm_compute. Qed.

End SasExamples.
