(* ===== verification/Storage.v ===== *)
(** * Storage: what the token grants to its bearer

    The program never checks a token: the storage service does, on every
    request the proxy forwards.  The specification states what the
    service must conclude from the token of lines 35-46 (section 4.1,
    output guarantee: a read of any blob of the container until expiry,
    no write, list or delete).  This file holds that decision:
    [grants] on the fields a token carries, [authorizes] on the values
    that were signed, at the resolution their times are written to, and
    [accepts] on the token string, read back as the SDK's laws say.

    The decision is modelled from the specification and from the meaning
    of the fields of [BlobSASSignatureValues]; the values it is applied
    to are the program's ([Sas.sasValues], [Sas.signedFields]).  The
    address a request comes from is compared with the range of the
    token ([Ip.inIpRange]); the range of line 41 holds every address.
    Forgery is not part of the decision: [accepts] says what a genuine
    token allows. *)

From Stdlib Require Import ZArith Lia.
From Stdlib Require Import Strings.Byte.
From stdpp Require Import base tactics option list strings gmap.
From S2P Require Import Prelude.
From S2P Require Import Ip.
From S2P Require Import Js.
From S2P Require Import Azure.
From S2P Require Import Token.
From S2P Require Import World.
From S2P Require Import Config.
From S2P Require Import Sas.

#[local] Open Scope Z_scope.

(** ** The accesses a container knows *)

(** One operation per permission of [ContainerSASPermissions]. *)
Inductive Operation : Type :=
| OpRead
| OpAdd
| OpCreate
| OpWrite
| OpDelete
| OpDeleteVersion
| OpList
| OpTag
| OpMove
| OpExecute
| OpSetImmutabilityPolicy
| OpPermanentDelete
| OpFilterByTags.

#[global] Instance Operation_eq_dec : EqDecision Operation.
Proof. solve_decision. Defined.

(** An access as the service sees it: what is asked, of which container
    of which account, from which address, over which transport, and the
    service's clock when it arrives. *)
Record Access : Type := mkAccess {
  acc_operation : Operation;
  acc_account : string;
  acc_container : string;
  acc_address : Ipv4;
  acc_secure : bool;
  acc_time : Z;
}.

(** ** The decision *)

(** The permission that an operation needs. *)
Definition permits (p : ContainerSASPermissions.t) (op : Operation) : bool :=
  let '(ContainerSASPermissions.mk r a c w d x l t m e i y f) := p in
  match op with
  | OpRead => r
  | OpAdd => a
  | OpCreate => c
  | OpWrite => w
  | OpDelete => d
  | OpDeleteVersion => x
  | OpList => l
  | OpTag => t
  | OpMove => m
  | OpExecute => e
  | OpSetImmutabilityPolicy => i
  | OpPermanentDelete => y
  | OpFilterByTags => f
  end.

(** The transport restriction: [Https] admits secure requests only. *)
Definition admits (p : SASProtocol) (secure : bool) : bool :=
  match p with
  | Https => secure
  | HttpsAndHttp => true
  end.

(** The validity window, ends included; an invalid date admits nothing. *)
Definition inWindow (startsOn expiresOn : Date) (now : Z) : bool :=
  match timeValue startsOn, timeValue expiresOn with
  | Int s, Int e => bool_decide (s ≤ now ≤ e)
  | _, _ => false
  end.

(** What the fields of a token allow: the access is to the account and
    the container the token was signed for, the operation is permitted,
    the address in the range, the transport admitted, and the time
    inside the window. *)
Definition grants (f : SasFields) (a : Access) : bool :=
  bool_decide (sf_account f = acc_account a) &&
  bool_decide (sf_container f = acc_container a) &&
  permits (sf_permissions f) (acc_operation a) &&
  inIpRange (sf_ipRange f) (acc_address a) &&
  admits (sf_protocol f) (acc_secure a) &&
  inWindow (sf_startsOn f) (sf_expiresOn f) (acc_time a).

(** What the service concludes from a token minted for the given values
    and account, with times at the given resolution. *)
Definition authorizes (resolution : Z) (values : BlobSASSignatureValues) (account : string)
    (a : Access) : bool :=
  grants (fieldsOf resolution values account) a.

(** What the service concludes from the token it is shown: the fields
    it reads in it allow the access.  A string that does not read as a
    token allows nothing. *)
Definition accepts {sdk : BlobSdk} {laws : BlobSdkLaws sdk} (token : string) (a : Access) : bool :=
  match sas_fields token with
  | Some f => grants f a
  | None => false
  end.

(** The request the proxy makes of the service for a client's GET, from
    the address the service sees the proxy at. *)
Definition fetch (account container : string) (from : Ipv4) (now : Z) : Access :=
  mkAccess OpRead account container from true now.

(** ** Lemmas on the parts of the decision *)

Section Decision.
Implicit Types (p : ContainerSASPermissions.t) (op : Operation) (a : Access)
  (res : Z) (w : World) (account container : string) (from : Ipv4).

Lemma permits_readOnly op :
  permits ContainerSASPermissions.readOnly op = true ↔ op = OpRead.
Proof. by destruct op. Qed.

(** A set that grants nothing besides reading permits reading at most. *)
Lemma permits_only_read p op :
  ContainerSASPermissions.grantsMoreThanRead p = false →
  permits p op = true → op = OpRead.
Proof.
  destruct p; unfold ContainerSASPermissions.grantsMoreThanRead; simpl.
  intros H. repeat (apply orb_false_elim in H as [H ?]).
  destruct op; simpl; congruence.
Qed.

Lemma admits_Https secure : admits Https secure = true ↔ secure = true.
Proof. done. Qed.

Lemma inWindow_Int s e now :
  inWindow (mkDate (Int s)) (mkDate (Int e)) now = true ↔ s ≤ now ≤ e.
Proof. unfold inWindow; simpl. by rewrite bool_decide_eq_true. Qed.

Lemma inWindow_invalid_end startsOn now :
  inWindow startsOn (mkDate NaN) now = false.
Proof. unfold inWindow. simpl. by case_match. Qed.

Lemma grants_iff f a :
  grants f a = true ↔
  sf_account f = acc_account a ∧ sf_container f = acc_container a ∧
  permits (sf_permissions f) (acc_operation a) = true ∧
  inIpRange (sf_ipRange f) (acc_address a) = true ∧
  admits (sf_protocol f) (acc_secure a) = true ∧
  inWindow (sf_startsOn f) (sf_expiresOn f) (acc_time a) = true.
Proof. unfold grants. rewrite !andb_true_iff, !bool_decide_eq_true. tauto. Qed.

(** The fields of the program's token allow a secure read of its
    container inside the window, from any address, and nothing else. *)
Lemma grants_signedFields res account container w a :
  grants (signedFields res account container w) a = true ↔
  acc_operation a = OpRead ∧ acc_account a = account ∧ acc_container a = container ∧
  acc_secure a = true ∧
  res * (reading w 2 / res) ≤ acc_time a ≤ res * ((reading w 3 + sasLifetime) / res).
Proof.
  rewrite grants_iff. unfold signedFields.
  cbn [sf_account sf_container sf_permissions sf_ipRange sf_protocol sf_startsOn
       sf_expiresOn].
  rewrite permits_readOnly, inIpRange_all, admits_Https, inWindow_Int. naive_solver.
Qed.

(** Past the signed expiry nothing is allowed, whatever the resolution. *)
Lemma grants_signedFields_expired res account container w a :
  0 < res → reading w 3 + sasLifetime < acc_time a →
  grants (signedFields res account container w) a = false.
Proof.
  intros Hres Hlate. apply not_true_is_false. rewrite grants_signedFields.
  pose proof (truncate_bounds res (reading w 3 + sasLifetime) Hres). lia.
Qed.

Lemma authorizes_sasValues res account container w a :
  clockInRange w → reading w 3 + sasLifetime ≤ maxTime →
  authorizes res (sasValues container w) account a = true ↔
  acc_operation a = OpRead ∧ acc_account a = account ∧ acc_container a = container ∧
  acc_secure a = true ∧
  res * (reading w 2 / res) ≤ acc_time a ≤ res * ((reading w 3 + sasLifetime) / res).
Proof.
  intros Hr Hle. unfold authorizes. rewrite fieldsOf_sasValues by done.
  apply grants_signedFields.
Qed.

End Decision.

(** The same on the string: what the service accepts of the bearer of
    the token the provisioner returned, for every SDK whose tokens can
    be read back. *)
Section Accepts.
Context {sdk : BlobSdk} {laws : BlobSdkLaws sdk}.

Lemma accepts_provisioned account container w token a :
  clockInRange w → reading w 3 + sasLifetime ≤ maxTime →
  provisioned account container w = Ok token →
  accepts token a = true ↔
  acc_operation a = OpRead ∧ acc_account a = account ∧ acc_container a = container ∧
  acc_secure a = true ∧
  sas_resolution * (reading w 2 / sas_resolution) ≤ acc_time a
    ≤ sas_resolution * ((reading w 3 + sasLifetime) / sas_resolution).
Proof.
  intros Hr Hle Hp. unfold accepts.
  rewrite (provisioned_token_fields _ _ _ _ Hr Hle Hp). apply grants_signedFields.
Qed.

Lemma accepts_expired account container w token a :
  clockInRange w → reading w 3 + sasLifetime ≤ maxTime →
  provisioned account container w = Ok token →
  reading w 3 + sasLifetime < acc_time a → accepts token a = false.
Proof.
  intros Hr Hle Hp Hlate. unfold accepts.
  rewrite (provisioned_token_fields _ _ _ _ Hr Hle Hp).
  apply grants_signedFields_expired; [apply sas_resolution_pos | done].
Qed.

End Accepts.

(** ** What the program's token grants *)

(** A token minted for the values the program signs authorises
    exactly this: reading, in the configured container of the configured
    account, over a secure transport, from the third reading of the
    clock until 86400 ms after the fourth, both rounded down to the
    resolution of the token, from whatever address.  No other operation
    is granted at any time, and nothing is granted once the window has
    passed. *)
Theorem capability_iff res account container w a :
  clockInRange w → reading w 3 + sasLifetime ≤ maxTime →
  authorizes res (sasValues container w) account a = true ↔
  acc_operation a = OpRead ∧ acc_account a = account ∧ acc_container a = container ∧
  acc_secure a = true ∧
  res * (reading w 2 / res) ≤ acc_time a ≤ res * ((reading w 3 + sasLifetime) / res).
Proof. apply authorizes_sasValues. Qed.

(** The proxy's own request is granted inside the window and refused
    after it: the program holds one token for its whole life, so every
    request it forwards later than this is refused by the service. *)
Lemma fetch_granted res account container from w now :
  clockInRange w → reading w 3 + sasLifetime ≤ maxTime →
  res * (reading w 2 / res) ≤ now ≤ res * ((reading w 3 + sasLifetime) / res) →
  authorizes res (sasValues container w) account (fetch account container from now) = true.
Proof. intros Hr Hle Hnow. by apply authorizes_sasValues. Qed.

Lemma fetch_expired res account container from w now :
  0 < res → clockInRange w → reading w 3 + sasLifetime ≤ maxTime →
  reading w 3 + sasLifetime < now →
  authorizes res (sasValues container w) account (fetch account container from now) = false.
Proof.
  intros Hres Hr Hle Hnow. unfold authorizes. rewrite fieldsOf_sasValues by done.
  by apply grants_signedFields_expired.
Qed.

(** When the fourth reading is so late that the sum leaves the range of
    a [Date], the expiry is an invalid date and nothing is granted. *)
Lemma capability_overflow res account container w a :
  clockInRange w → maxTime < reading w 3 + sasLifetime →
  authorizes res (sasValues container w) account a = false.
Proof.
  intros Hr Hlt. unfold authorizes, grants, fieldsOf.
  cbn [sf_startsOn sf_expiresOn expiresOn sasValues].
  rewrite sasExpiresOn_eq by done. rewrite (bool_decide_false (_ ≤ _)) by lia.
  change (truncateDate res (mkDate NaN)) with (mkDate NaN).
  by rewrite inWindow_invalid_end, !andb_false_r.
Qed.

(** ** Examples *)

Section StorageExamples.

(** The address the sample proxy reaches the service from: 10.0.0.7. *)
Definition proxyAddress : Ipv4 := (x0a, x00, x00, x07).

Lemma capability_iff_witness :
  clockInRange sampleWorld ∧ reading sampleWorld 3 + sasLifetime ≤ maxTime ∧
  (authorizes 1000 (sasValues "maps" sampleWorld) "acct"
     (fetch "acct" "maps" proxyAddress 1700000000500) = true ↔
   acc_operation (fetch "acct" "maps" proxyAddress 1700000000500) = OpRead ∧
   acc_account (fetch "acct" "maps" proxyAddress 1700000000500) = "acct" ∧
   acc_container (fetch "acct" "maps" proxyAddress 1700000000500) = "maps" ∧
   acc_secure (fetch "acct" "maps" proxyAddress 1700000000500) = true ∧
   1000 * (reading sampleWorld 2 / 1000) ≤ acc_time (fetch "acct" "maps" proxyAddress 1700000000500)
     ≤ 1000 * ((reading sampleWorld 3 + sasLifetime) / 1000)).
Proof.
  split; [apply sampleWorld_clockInRange | split; [apply sample_readings_in_range |]].
  apply (capability_iff 1000 "acct" "maps" sampleWorld _ sampleWorld_clockInRange).
  apply sample_readings_in_range.
Defined.

(** Half a second after start-up the token opens the container to a
    read and to nothing else; two minutes after it, to nothing.  At the
    resolution of a second the last 415 ms of the signed window are
    lost. *)
Example sample_read_granted :
  authorizes 1000 (sasValues "maps" sampleWorld) "acct"
    (fetch "acct" "maps" proxyAddress 1700000000500) = true.
Proof. by vm_compute. Qed.

Example sample_write_refused :
  authorizes 1000 (sasValues "maps" sampleWorld) "acct"
    (mkAccess OpWrite "acct" "maps" proxyAddress true 1700000000500) = false.
Proof. by vm_compute. Qed.

Example sample_other_container_refused :
  authorizes 1000 (sasValues "maps" sampleWorld) "acct"
    (fetch "acct" "logs" proxyAddress 1700000000500) = false.
Proof. by vm_compute. Qed.

Example sample_read_refused_after_expiry :
  authorizes 1000 (sasValues "maps" sampleWorld) "acct"
    (fetch "acct" "maps" proxyAddress 1700000120000) = false.
Proof. by vm_compute. Qed.

Example sample_last_milliseconds :
  authorizes 1 (sasValues "maps" sampleWorld) "acct" (fetch "acct" "maps" proxyAddress 1700000086400) = true ∧
  authorizes 1000 (sasValues "maps" sampleWorld) "acct"
    (fetch "acct" "maps" proxyAddress 1700000086400) = false.
Proof. by vm_compute. Qed.

End StorageExamples.
