(* ===== verification/Proxy.v ===== *)
(** * Proxy: the express application and its rewriting middleware
    (lines 53-65)

    [pathRewrite] is the arrow function of lines 60-63; [proxyOptions] is
    the options object of lines 57-64; [mountPath] is the first argument
    of [app.use] (line 56) and [createApp] the application after line 65.

    What express and http-proxy-middleware do with these values is not in
    the repository.  It is written here from the specification: a request
    is handed to the middleware when its path begins with the mount path
    ([mounted]); the middleware rewrites the path of the original request
    with [pathRewrite], sends it to [target], and with [changeOrigin] sets
    the [Host] header to the target's host ([proxyMiddleware]); any other
    request gets the server's default answer ([handle]). *)

From Stdlib Require Import ZArith Lia Ascii.
From stdpp Require Import base tactics option list strings gmap.
From S2P Require Import Prelude.
From S2P Require Import Js.
From S2P Require Import Azure.
From S2P Require Import World.
From S2P Require Import Config.

(** The options of [createProxyMiddleware] the program sets. *)
Record ProxyOptions : Type := mkProxyOptions {
  target : string;
  changeOrigin : bool;
  pathRewrite_of : string → M string;
}.

(** The application: one middleware mounted on one path. *)
Record App : Type := mkApp {
  app_mount : string;
  app_proxy : ProxyOptions;
}.

(** What a client gets: its request forwarded upstream, or the default
    answer of the server for a path nothing handles. *)
Inductive Outcome : Type :=
| Forwarded (up : UpstreamRequest)
| NotFound.

#[global] Instance Outcome_eq_dec : EqDecision Outcome.
Proof. solve_decision. Defined.

(** Lines 60-63. *)
Definition pathRewrite (sasQueryParams : string) (path : string) : M string :=
  console_log ("rewriting to " +:+ ((path +:+ "?") +:+ sasQueryParams));;
  mret ((path +:+ "?") +:+ sasQueryParams).

(** The template literal of line 58. *)
Definition targetOf (StorageAccount : string) : string :=
  "https://" +:+ StorageAccount +:+ ".blob.core.windows.net".

(** Lines 57-64. *)
Definition proxyOptions (StorageAccount sasQueryParams : string) : ProxyOptions :=
  {| target := "https://" +:+ StorageAccount +:+ ".blob.core.windows.net";
     changeOrigin := true;
     pathRewrite_of := pathRewrite sasQueryParams |}.

(** Line 56. *)
Definition mountPath (StorageContainer : string) : string :=
  "/" +:+ StorageContainer.

(** Lines 53-65. *)
Definition createApp (cfg : Config) (sasQueryParams : string) : App :=
  {| app_mount := "/" +:+ StorageContainer cfg;
     app_proxy := proxyOptions (StorageAccount cfg) sasQueryParams |}.

(** ** The libraries, from the specification *)

(** A request reaches the middleware when its path begins with the mount
    path. *)
Definition mounted (mount url : string) : bool := Str.starts_with mount url.

(** The host of an origin: the origin without its scheme. *)
Definition hostOf (origin : string) : string :=
  if Str.starts_with "https://" origin then Str.drop 8 origin
  else if Str.starts_with "http://" origin then Str.drop 7 origin
  else origin.

(** The middleware: rewrite the path, pick the [Host] header, forward. *)
Definition proxyMiddleware (opts : ProxyOptions) (req : Request) : M UpstreamRequest :=
  path ← pathRewrite_of opts (req_url req);
  let up :=
    {| up_origin := target opts;
       up_host := if changeOrigin opts then hostOf (target opts) else req_host req;
       up_path := path |} in
  modify (emit (EvForward up));;
  mret up.

(** One request through the application. *)
Definition handle (app : App) (req : Request) : M Outcome :=
  if mounted (app_mount app) (req_url req)
  then up ← proxyMiddleware (app_proxy app) req; mret (Forwarded up)
  else mret NotFound.

(** The request [handle] sends upstream for a request under the mount. *)
Definition upstreamOf (cfg : Config) (sasQueryParams : string) (req : Request) : UpstreamRequest :=
  {| up_origin := targetOf (StorageAccount cfg);
     up_host := StorageAccount cfg +:+ ".blob.core.windows.net";
     up_path := req_url req +:+ "?" +:+ sasQueryParams |}.

(** The console line of line 61. *)
Definition rewriteLog (sasQueryParams path : string) : string :=
  "rewriting to " +:+ path +:+ "?" +:+ sasQueryParams.

(** Splitting a request target at its first [?], as a URL parser does. *)
Definition splitQuery (url : string) : string * option string :=
  Str.break "?"%char url.

(** Two requests for the same path, whatever their [Host] headers. *)
Definition samePath (req1 req2 : Request) : Prop := req_url req1 = req_url req2.

(** * Lemmas *)

Section ProxyLemmas.
Implicit Types (w : World) (cfg : Config) (req : Request) (path token url : string).

Lemma run_pathRewrite token path w :
  run (pathRewrite token path) w =
  (Ok (path +:+ "?" +:+ token), emit (EvLog (rewriteLog token path)) w).
Proof.
  unfold pathRewrite, rewriteLog. eff_run. by rewrite <-!str_app_assoc.
Qed.

Lemma hostOf_https s : hostOf ("https://" +:+ s) = s.
Proof.
  unfold hostOf. rewrite starts_with_app. apply (drop_app "https://").
Qed.

Lemma hostOf_targetOf account : hostOf (targetOf account) = account +:+ ".blob.core.windows.net".
Proof. apply hostOf_https. Qed.

Lemma run_proxyMiddleware cfg token req w :
  run (proxyMiddleware (proxyOptions (StorageAccount cfg) token) req) w =
  (Ok (upstreamOf cfg token req),
   emit (EvForward (upstreamOf cfg token req))
     (emit (EvLog (rewriteLog token (req_url req))) w)).
Proof.
  unfold proxyMiddleware. cbn [pathRewrite_of proxyOptions target changeOrigin].
  rewrite run_bind, run_pathRewrite. cbv beta iota zeta. eff_run.
  fold (targetOf (StorageAccount cfg)). by rewrite hostOf_targetOf.
Qed.

Lemma run_handle cfg token req w :
  run (handle (createApp cfg token) req) w =
  if mounted (mountPath (StorageContainer cfg)) (req_url req)
  then (Ok (Forwarded (upstreamOf cfg token req)),
        emit (EvForward (upstreamOf cfg token req))
          (emit (EvLog (rewriteLog token (req_url req))) w))
  else (Ok NotFound, w).
Proof.
  unfold handle, createApp. cbn [app_mount app_proxy]. fold (mountPath (StorageContainer cfg)).
  destruct (mounted _ _); [|done].
  by rewrite run_bind, run_proxyMiddleware.
Qed.

Lemma stable_handle cfg token req : stable extends (handle (createApp cfg token) req).
Proof.
  intros w. unfold world_of. rewrite run_handle.
  destruct (mounted _ _); simpl; [|done].
  etrans; apply extends_emit.
Qed.

(** What the application sends upstream goes to an [https] origin under
    the name of that origin. *)
Lemma preserves_pathRewrite token path : preserves World_wf (pathRewrite token path).
Proof.
  unfold pathRewrite.
  apply preserves_bind; [apply preserves_console_log | intros; apply preserves_ret].
Qed.

Lemma preserves_proxyMiddleware account token req :
  preserves World_wf (proxyMiddleware (proxyOptions account token) req).
Proof.
  unfold proxyMiddleware. cbn [pathRewrite_of target changeOrigin proxyOptions].
  apply preserves_bind; [apply preserves_pathRewrite|]. intros path. cbv zeta.
  apply preserves_bind; [|intros; apply preserves_ret].
  apply preserves_modify. intros w Hw. apply World_wf_emit; [|done].
  simpl. by rewrite hostOf_https.
Qed.

Lemma preserves_handle cfg token req :
  preserves World_wf (handle (createApp cfg token) req).
Proof.
  unfold handle, createApp. cbn [app_mount app_proxy].
  destruct (mounted _ _); [|apply preserves_ret].
  apply preserves_bind; [apply preserves_proxyMiddleware | intros; apply preserves_ret].
Qed.

Lemma splitQuery_app_fresh path token :
  Str.count "?"%char path = 0%nat →
  splitQuery (path +:+ "?" +:+ token) = (path, Some token).
Proof. apply break_app_fresh. Qed.

(** Requests for the same path are the same request to the proxy:
    [samePath] is an equivalence that [upstreamOf] respects. *)
#[global] Instance samePath_equivalence : Equivalence samePath.
Proof. unfold samePath. split; [by intros ? | by intros ? ? | by intros ? ? ? ->]. Qed.

#[global] Instance upstreamOf_proper cfg token :
  Proper (samePath ==> eq) (upstreamOf cfg token).
Proof. intros req1 req2 H. unfold upstreamOf. by rewrite H. Qed.

(** The answer does not depend on the world the request arrives in. *)
Lemma result_handle_world cfg token req w1 w2 :
  result_of (handle (createApp cfg token) req) w1 =
  result_of (handle (createApp cfg token) req) w2.
Proof. unfold result_of. rewrite !run_handle. by destruct (mounted _ _). Qed.

End ProxyLemmas.

(** A request of the examples, and the token of the sample world. *)
Definition sampleRequest : Request :=
  mkRequest "local.teams.office.com" "/maps/app/main.js.map".

Definition sampleToken : string := "sp=r&sig=abc".

(** * Theorems *)

Section ProxyTheorems.
Implicit Types (w : World) (cfg : Config) (req : Request) (path token url : string).

(** C1: a request whose path begins with [/<container>] is forwarded to
    [https://<account>.blob.core.windows.net] with the [Host] header of
    that origin and with the path of the request followed by [?] and the
    token, byte for byte. *)
Theorem handle_forwards cfg token req w :
  mounted ("/" +:+ StorageContainer cfg) (req_url req) = true →
  result_of (handle (createApp cfg token) req) w =
  Ok (Forwarded
    {| up_origin := "https://" +:+ StorageAccount cfg +:+ ".blob.core.windows.net";
       up_host := StorageAccount cfg +:+ ".blob.core.windows.net";
       up_path := req_url req +:+ "?" +:+ token |}).
Proof.
  intros Hm. unfold result_of. rewrite run_handle. unfold mountPath. by rewrite Hm.
Qed.

Lemma handle_forwards_witness :
  mounted ("/" +:+ StorageContainer sampleConfig) (req_url sampleRequest) = true ∧
  result_of (handle (createApp sampleConfig sampleToken) sampleRequest) sampleWorld =
  Ok (Forwarded
    {| up_origin := "https://acct.blob.core.windows.net";
       up_host := "acct.blob.core.windows.net";
       up_path := "/maps/app/main.js.map?sp=r&sig=abc" |}).
Proof.
  split; [reflexivity |].
  apply (handle_forwards sampleConfig sampleToken sampleRequest sampleWorld). reflexivity.
Defined.

(** C6: a request whose path does not begin with [/<container>] is not
    forwarded: it gets the default answer, nothing is logged and nothing
    is sent upstream. *)
Theorem handle_not_mounted cfg token req w :
  mounted ("/" +:+ StorageContainer cfg) (req_url req) = false →
  run (handle (createApp cfg token) req) w = (Ok NotFound, w).
Proof. intros Hm. rewrite run_handle. unfold mountPath. by rewrite Hm. Qed.

Lemma handle_not_mounted_witness :
  mounted ("/" +:+ StorageContainer sampleConfig) "/other/file.map" = false ∧
  run (handle (createApp sampleConfig sampleToken)
         (mkRequest "local.teams.office.com" "/other/file.map")) sampleWorld =
  (Ok NotFound, sampleWorld).
Proof.
  split; [reflexivity |].
  apply (handle_not_mounted sampleConfig sampleToken
           (mkRequest "local.teams.office.com" "/other/file.map") sampleWorld).
  reflexivity.
Defined.

(** The answer to a request depends on its path only: two requests
    for the same path get the same upstream request, whatever their
    [Host] headers, whenever they arrive and whatever happened before. *)
Theorem handle_same_path cfg token req1 req2 w1 w2 :
  req_url req1 = req_url req2 →
  result_of (handle (createApp cfg token) req1) w1 =
  result_of (handle (createApp cfg token) req2) w2.
Proof.
  intros Hurl. rewrite (result_handle_world _ _ _ w1 w2).
  unfold result_of. rewrite !run_handle, (upstreamOf_proper cfg token _ _ Hurl), Hurl.
  by destruct (mounted _ _).
Qed.

Lemma handle_same_path_witness :
  req_url sampleRequest = req_url (mkRequest "example.org" "/maps/app/main.js.map") ∧
  result_of (handle (createApp sampleConfig sampleToken) sampleRequest) sampleWorld =
  result_of (handle (createApp sampleConfig sampleToken)
               (mkRequest "example.org" "/maps/app/main.js.map"))
    (emit (EvLog "later") sampleWorld).
Proof.
  split; [reflexivity |].
  apply (handle_same_path sampleConfig sampleToken sampleRequest
           (mkRequest "example.org" "/maps/app/main.js.map")). reflexivity.
Defined.

(** Rewriting is injective in the path: two inbound paths that are
    rewritten to the same upstream path are the same path. *)
Theorem pathRewrite_inj token path1 path2 w1 w2 :
  result_of (pathRewrite token path1) w1 = result_of (pathRewrite token path2) w2 →
  path1 = path2.
Proof.
  unfold result_of. rewrite !run_pathRewrite. simpl. intros [= H].
  by apply (str_app_inj_r _ _ ("?" +:+ token)).
Qed.

Lemma pathRewrite_inj_witness :
  result_of (pathRewrite sampleToken "/maps/a.map") sampleWorld =
  result_of (pathRewrite sampleToken "/maps/a.map") (emit (EvLog "x") sampleWorld) ∧
  "/maps/a.map" = "/maps/a.map".
Proof.
  split; [reflexivity |].
  apply (pathRewrite_inj sampleToken "/maps/a.map" "/maps/a.map"
           sampleWorld (emit (EvLog "x") sampleWorld)). reflexivity.
Defined.

(** C8: when the inbound path carries no query string, the upstream path
    splits at its first [?] into exactly the inbound path and the token. *)
Theorem upstream_split cfg token req w up :
  result_of (handle (createApp cfg token) req) w = Ok (Forwarded up) →
  Str.count "?"%char (req_url req) = 0%nat →
  splitQuery (up_path up) = (req_url req, Some token).
Proof.
  unfold result_of. rewrite run_handle. destruct (mounted _ _); simpl; [|done].
  intros [= <-] Hc. by apply splitQuery_app_fresh.
Qed.

Lemma upstream_split_witness :
  result_of (handle (createApp sampleConfig sampleToken) sampleRequest) sampleWorld =
    Ok (Forwarded (upstreamOf sampleConfig sampleToken sampleRequest)) ∧
  Str.count "?"%char (req_url sampleRequest) = 0%nat ∧
  splitQuery (up_path (upstreamOf sampleConfig sampleToken sampleRequest)) =
  (req_url sampleRequest, Some sampleToken).
Proof.
  split; [reflexivity | split; [reflexivity |]].
  apply (upstream_split sampleConfig sampleToken sampleRequest sampleWorld); reflexivity.
Defined.

(** C22: when the inbound path already has a query string, it is neither
    dropped nor merged: the upstream path splits at its first [?] into the
    inbound path and the client's query followed by [?] and the token, so
    the upstream path has one more [?] than the query and the token
    together. *)
Theorem upstream_query_collision cfg token req w up path query :
  result_of (handle (createApp cfg token) req) w = Ok (Forwarded up) →
  req_url req = path +:+ "?" +:+ query → Str.count "?"%char path = 0%nat →
  splitQuery (up_path up) = (path, Some (query +:+ "?" +:+ token)) ∧
  Str.count "?"%char (up_path up) =
  (2 + Str.count "?"%char query + Str.count "?"%char token)%nat.
Proof.
  unfold result_of. rewrite run_handle. destruct (mounted _ _); simpl; [|done].
  intros [= <-] Hurl Hc. cbn [up_path upstreamOf]. rewrite Hurl. split.
  - rewrite <-!str_app_assoc. by apply splitQuery_app_fresh.
  - rewrite !count_app, Hc. simpl. lia.
Qed.

Lemma upstream_query_collision_witness :
  let req := mkRequest "local.teams.office.com" "/maps/a.map?v=1" in
  (result_of (handle (createApp sampleConfig sampleToken) req) sampleWorld =
     Ok (Forwarded (upstreamOf sampleConfig sampleToken req))) ∧
  (req_url req = "/maps/a.map" +:+ "?" +:+ "v=1") ∧
  (Str.count "?"%char "/maps/a.map" = 0%nat) ∧
  (splitQuery (up_path (upstreamOf sampleConfig sampleToken req)) =
     ("/maps/a.map", Some ("v=1" +:+ "?" +:+ sampleToken)) ∧
   Str.count "?"%char (up_path (upstreamOf sampleConfig sampleToken req)) =
   (2 + Str.count "?"%char "v=1" + Str.count "?"%char sampleToken)%nat).
Proof.
  intros req. split; [reflexivity | split; [reflexivity | split; [reflexivity |]]].
  apply (upstream_query_collision sampleConfig sampleToken req sampleWorld
           _ "/maps/a.map" "v=1"); reflexivity.
Defined.

(** Handling a request never throws, writes one console line
    ([rewriting to] and the upstream path) when the request is forwarded
    and none otherwise, and records exactly the forwarded request. *)
Theorem handle_effects cfg token req w :
  isOk (result_of (handle (createApp cfg token) req) w) = true ∧
  trace (world_of (handle (createApp cfg token) req) w) =
  trace w ++
  (if mounted ("/" +:+ StorageContainer cfg) (req_url req)
   then [EvLog ("rewriting to " +:+ req_url req +:+ "?" +:+ token);
         EvForward (upstreamOf cfg token req)]
   else []).
Proof.
  unfold result_of, world_of. rewrite run_handle. unfold mountPath.
  destruct (mounted _ _); simpl; [|by rewrite app_nil_r].
  by rewrite <-app_assoc.
Qed.

(** The upstream path of a forwarded request still begins with
    [/<container>]: the proxy never reaches outside the container the
    token is scoped to. *)
Theorem upstream_under_mount cfg token req w up :
  result_of (handle (createApp cfg token) req) w = Ok (Forwarded up) →
  mounted ("/" +:+ StorageContainer cfg) (up_path up) = true ∧
  up_origin up +:+ up_path up =
  "https://" +:+ StorageAccount cfg +:+ ".blob.core.windows.net" +:+ req_url req +:+ "?" +:+ token.
Proof.
  unfold result_of. rewrite run_handle. unfold mountPath.
  destruct (mounted _ _) eqn:Hm; simpl; [|done]. intros [= <-]. simpl. split.
  - apply (starts_with_trans _ (req_url req)); [done | apply starts_with_app].
  - unfold targetOf. by rewrite <-!str_app_assoc.
Qed.

Lemma upstream_under_mount_witness :
  result_of (handle (createApp sampleConfig sampleToken) sampleRequest) sampleWorld =
    Ok (Forwarded (upstreamOf sampleConfig sampleToken sampleRequest)) ∧
  (mounted ("/" +:+ StorageContainer sampleConfig)
     (up_path (upstreamOf sampleConfig sampleToken sampleRequest)) = true ∧
   up_origin (upstreamOf sampleConfig sampleToken sampleRequest) +:+
     up_path (upstreamOf sampleConfig sampleToken sampleRequest) =
   "https://" +:+ StorageAccount sampleConfig +:+ ".blob.core.windows.net" +:+
     req_url sampleRequest +:+ "?" +:+ sampleToken).
Proof.
  split; [reflexivity |].
  apply (upstream_under_mount sampleConfig sampleToken sampleRequest sampleWorld).
  reflexivity.
Defined.

End ProxyTheorems.
