(* ===== verification/Server.v ===== *)
(** * Server: start-up (lines 51-84) and the whole program (lines 18-84)

    [main] is the body of the async function of lines 51-84: await the
    token, build the application, read the two TLS files, create the
    server and listen.  [program] is the module from line 18 on: the
    configuration guard of lines 18-27, then [main].

    [https.createServer] is given the contents of the key and certificate
    files and the passphrase; what TLS does with them is not modelled, so
    [createServer] only records them.  A rejected promise of the async
    function and an unhandled [error] event of the server both end the
    process: they are the [Throw] results of [program].

    [startup] is the outcome of [main] in closed form; [run_main] proves
    that [main] computes it. *)

From Stdlib Require Import ZArith Lia.
From stdpp Require Import base tactics option list strings gmap.
From S2P Require Import Prelude.
From S2P Require Import Js.
From S2P Require Import Azure.
From S2P Require Import Token.
From S2P Require Import World.
From S2P Require Import Config.
From S2P Require Import Sas.
From S2P Require Import Proxy.

(** The options object of lines 68-72. *)
Record ServerOptions : Type := mkServerOptions {
  key : string;
  cert : string;
  passphrase : string;
}.

#[global] Instance ServerOptions_eq_dec : EqDecision ServerOptions.
Proof. solve_decision. Defined.

(** An [https.Server]: its TLS options and its request listener. *)
Record Server : Type := mkServer {
  srv_options : ServerOptions;
  srv_app : App;
}.

(** [https.createServer(options, app)], lines 67-74. *)
Definition createServer (options : ServerOptions) (app : App) : Server :=
  mkServer options app.

(** The address of lines 77-78 and the line of line 81. *)
Definition listenHost : string := "local.teams.office.com".
Definition listenPort : Z := 443.
Definition liveLine : string := "source-maps proxy service live".

Section Server.
Context {sdk : BlobSdk}.

(** Lines 51-84. *)
Definition main (cfg : Config) : M Server :=
  sasQueryParams ← getReadOnlySasQueryParameter (StorageAccount cfg) (StorageContainer cfg);
  let app := createApp cfg sasQueryParams in
  keyFile ← readFileSync (SslKey cfg);
  certFile ← readFileSync (SslCert cfg);
  let httpsServer :=
    createServer
      {| key := keyFile; cert := certFile; passphrase := SslPassphrase cfg |} app in
  listen "local.teams.office.com" 443
    (console_log "source-maps proxy service live");;
  mret httpsServer.

(** Lines 18-84: the guard, then [main].  (Line 16, [dotenv.config()], has
    filled the environment before.) *)
Definition program : M Server :=
  cfg ← loadConfig;
  main cfg.

(** The server [main] returns when every step succeeds. *)
Definition serverOf (cfg : Config) (token keyFile certFile : string) : Server :=
  mkServer (mkServerOptions keyFile certFile (SslPassphrase cfg)) (createApp cfg token).

(** The outcome of [main] after the token arrived, in the world [w1] the
    provisioner left. *)
Definition bringUp (cfg : Config) (token : string) (w1 : World) : Result Exn Server * World :=
  let w2 := emit (EvReadFile (SslKey cfg)) w1 in
  match files w1 !! SslKey cfg with
  | None => (Throw (SystemError "ENOENT" "open" (SslKey cfg)), w2)
  | Some keyFile =>
      let w3 := emit (EvReadFile (SslCert cfg)) w2 in
      match files w1 !! SslCert cfg with
      | None => (Throw (SystemError "ENOENT" "open" (SslCert cfg)), w3)
      | Some certFile =>
          let w4 := emit (EvListen listenHost listenPort) w3 in
          if bindable w1 listenHost listenPort
          then (Ok (serverOf cfg token keyFile certFile), emit (EvLog liveLine) w4)
          else (Throw (SystemError "EADDRINUSE" "listen" listenHost), w4)
      end
  end.

(** The outcome of [main]. *)
Definition startup (cfg : Config) (w : World) : Result Exn Server * World :=
  let w1 := provisionedWorld (StorageAccount cfg) (StorageContainer cfg) w in
  match provisioned (StorageAccount cfg) (StorageContainer cfg) w with
  | Throw e => (Throw e, w1)
  | Ok token => bringUp cfg token w1
  end.

(** * Lemmas *)

Implicit Types (w : World) (cfg : Config) (token : string) (e : Exn) (srv : Server).

Lemma run_main cfg w : run (main cfg) w = startup cfg w.
Proof.
  unfold main, startup. rewrite run_bind, run_getReadOnlySasQueryParameter.
  destruct (provisioned _ _ _) as [token|e]; [|done].
  unfold bringUp. eff_run. cbn [files emit].
  destruct (files _ !! SslKey cfg) as [keyFile|]; [|done]. eff_run. cbn [files emit].
  destruct (files _ !! SslCert cfg) as [certFile|]; [|done]. eff_run. cbn [bindable emit].
  fold listenHost listenPort liveLine.
  destruct (bindable _ _ _); [|reflexivity]. by eff_run.
Qed.

Lemma run_program w :
  run program w =
  if configured w then startup (configOf w) w else (Throw envError, w).
Proof.
  unfold program. rewrite run_bind, run_loadConfig_configured.
  destruct (configured w); [apply run_main | done].
Qed.

Lemma extends_bringUp cfg token w1 : extends w1 (bringUp cfg token w1).2.
Proof.
  unfold bringUp. repeat case_match; simpl;
    repeat (etrans; [|apply extends_emit]); reflexivity.
Qed.

Lemma extends_startup cfg w : extends w (startup cfg w).2.
Proof.
  unfold startup. destruct (provisioned _ _ _); simpl.
  - etrans; [apply extends_provisionedWorld | apply extends_bringUp].
  - apply extends_provisionedWorld.
Qed.

Lemma stable_main cfg : stable extends (main cfg).
Proof. intros w. unfold world_of. rewrite run_main. apply extends_startup. Qed.

Lemma stable_program : stable extends program.
Proof.
  apply stable_bind; [apply _ | | apply stable_main].
  intros w. unfold world_of. by rewrite run_loadConfig.
Qed.

(** Bringing the server up succeeds exactly when both files exist and the
    address can be bound. *)
Lemma bringUp_Ok cfg token w1 srv w2 :
  bringUp cfg token w1 = (Ok srv, w2) ↔
  ∃ keyFile certFile,
    files w1 !! SslKey cfg = Some keyFile ∧ files w1 !! SslCert cfg = Some certFile ∧
    bindable w1 listenHost listenPort = true ∧
    srv = serverOf cfg token keyFile certFile ∧
    w2 = emit (EvLog liveLine) (emit (EvListen listenHost listenPort)
           (emit (EvReadFile (SslCert cfg)) (emit (EvReadFile (SslKey cfg)) w1))).
Proof.
  unfold bringUp. destruct (files w1 !! SslKey cfg) as [k|]; [|naive_solver].
  destruct (files w1 !! SslCert cfg) as [c|]; [|naive_solver].
  destruct (bindable w1 _ _); naive_solver.
Qed.

(** The trace [bringUp] adds: the file reads in order, then the listen
    call, then the line of the callback. *)
Lemma trace_bringUp cfg token w1 :
  trace (bringUp cfg token w1).2 =
  trace w1 ++ EvReadFile (SslKey cfg) ::
    match files w1 !! SslKey cfg with
    | None => []
    | Some _ => EvReadFile (SslCert cfg) ::
        match files w1 !! SslCert cfg with
        | None => []
        | Some _ => EvListen listenHost listenPort ::
            if bindable w1 listenHost listenPort then [EvLog liveLine] else []
        end
    end.
Proof.
  unfold bringUp. repeat case_match; simpl; by rewrite <-?app_assoc.
Qed.

(** The provisioner changes neither the files nor what can be bound. *)
Lemma files_provisionedWorld account container w :
  files (provisionedWorld account container w) = files w.
Proof. by destruct (extends_provisionedWorld account container w) as (_&->&_). Qed.

Lemma bindable_provisionedWorld account container w :
  bindable (provisionedWorld account container w) = bindable w.
Proof. by destruct (extends_provisionedWorld account container w) as (_&_&_&->&_). Qed.

(** Start-up succeeds exactly when the token arrives, both files exist and
    the address can be bound. *)
Lemma startup_Ok cfg w srv w' :
  startup cfg w = (Ok srv, w') ↔
  ∃ token keyFile certFile,
    provisioned (StorageAccount cfg) (StorageContainer cfg) w = Ok token ∧
    files w !! SslKey cfg = Some keyFile ∧ files w !! SslCert cfg = Some certFile ∧
    bindable w listenHost listenPort = true ∧
    srv = serverOf cfg token keyFile certFile ∧
    w' = (bringUp cfg token (provisionedWorld (StorageAccount cfg) (StorageContainer cfg) w)).2.
Proof.
  unfold startup. destruct (provisioned _ _ _) as [token|e]; [|naive_solver].
  split.
  - intros H. pose proof H as (k & c & Hk & Hc & Hb & -> & _)%bringUp_Ok.
    rewrite files_provisionedWorld in Hk, Hc. rewrite bindable_provisionedWorld in Hb.
    exists token, k, c. by rewrite H.
  - intros (? & k & c & [= <-] & Hk & Hc & Hb & -> & ->).
    rewrite <-(files_provisionedWorld (StorageAccount cfg) (StorageContainer cfg)) in Hk, Hc.
    rewrite <-(bindable_provisionedWorld (StorageAccount cfg) (StorageContainer cfg)) in Hb.
    unfold bringUp. by rewrite Hk, Hc, Hb.
Qed.

(** Start-up keeps the trace well formed: the port it binds is a TCP
    port, and the provisioner's dates are dates. *)
Lemma preserves_main cfg : preserves World_wf (main cfg).
Proof.
  unfold main.
  apply preserves_bind; [apply preserves_getReadOnlySasQueryParameter|].
  intros token. cbv zeta.
  apply preserves_bind; [apply preserves_readFileSync|]. intros keyFile.
  apply preserves_bind; [apply preserves_readFileSync|]. intros certFile.
  apply preserves_bind; [|intros; apply preserves_ret].
  apply preserves_listen; [lia | apply preserves_console_log].
Qed.

Lemma preserves_program : preserves World_wf program.
Proof.
  unfold program. apply preserves_bind; [apply preserves_loadConfig | apply preserves_main].
Qed.

(** The program returns a server exactly when the configuration is
    complete, the token arrives, both files exist and the address can be
    bound. *)
Lemma result_program_Ok w srv :
  result_of program w = Ok srv ↔
  configured w = true ∧
  ∃ token keyFile certFile,
    provisioned (StorageAccount (configOf w)) (StorageContainer (configOf w)) w = Ok token ∧
    files w !! SslKey (configOf w) = Some keyFile ∧
    files w !! SslCert (configOf w) = Some certFile ∧
    bindable w listenHost listenPort = true ∧
    srv = serverOf (configOf w) token keyFile certFile.
Proof.
  unfold result_of. rewrite run_program. destruct (configured w); [|naive_solver].
  destruct (startup _ w) as [r w'] eqn:Hs; simpl. split.
  - intros ->. apply startup_Ok in Hs as (t & k & c & ?&?&?&?&?&?). naive_solver.
  - intros (_ & t & k & c & Hp & Hk & Hc & Hb & ->).
    assert (startup (configOf w) w = (Ok (serverOf (configOf w) t k c),
      (bringUp (configOf w) t (provisionedWorld (StorageAccount (configOf w))
        (StorageContainer (configOf w)) w)).2)) as Hs'
      by (apply startup_Ok; naive_solver).
    rewrite Hs in Hs'. by injection Hs' as -> _.
Qed.

(** What is known when the program returned a server. *)
Lemma run_program_Ok w srv w' :
  run program w = (Ok srv, w') →
  configured w = true ∧
  ∃ token keyFile certFile,
    provisioned (StorageAccount (configOf w)) (StorageContainer (configOf w)) w = Ok token ∧
    files w !! SslKey (configOf w) = Some keyFile ∧
    files w !! SslCert (configOf w) = Some certFile ∧
    bindable w listenHost listenPort = true ∧
    srv = serverOf (configOf w) token keyFile certFile.
Proof.
  rewrite run_program. destruct (configured w); [|done].
  intros (t & k & c & ?&?&?&?&?&_)%startup_Ok. split; [done|]. by exists t, k, c.
Qed.

(** The events of a successful start-up after the token arrived. *)
Definition bringUpEvents (cfg : Config) : list Event :=
  [EvReadFile (SslKey cfg); EvReadFile (SslCert cfg);
   EvListen listenHost listenPort; EvLog liveLine].

Lemma trace_startup_Ok cfg w srv w' :
  startup cfg w = (Ok srv, w') →
  trace w' = trace w ++ keyEvents (StorageAccount cfg) w ++
    sasEvents (StorageAccount cfg) (StorageContainer cfg) w ++ bringUpEvents cfg.
Proof.
  intros (token & k & c & Hp & Hk & Hc & Hb & _ & ->)%startup_Ok.
  rewrite trace_bringUp, files_provisionedWorld, bindable_provisionedWorld, Hk, Hc, Hb.
  rewrite trace_provisionedWorld.
  apply provisioned_Ok in Hp as (key & q & -> & _). simpl. by rewrite <-!app_assoc.
Qed.

(** The address is never bound before the token arrived and both files
    were read. *)
Lemma listen_in_startup cfg w h p :
  EvListen h p ∈ trace (startup cfg w).2 → EvListen h p ∉ trace w →
  h = listenHost ∧ p = listenPort ∧
  (∃ token, provisioned (StorageAccount cfg) (StorageContainer cfg) w = Ok token) ∧
  is_Some (files w !! SslKey cfg) ∧ is_Some (files w !! SslCert cfg).
Proof.
  unfold startup. destruct (provisioned _ _ _) as [token|e]; simpl.
  - rewrite trace_bringUp, files_provisionedWorld, trace_provisionedWorld.
    unfold keyEvents, sasEvents.
    destruct (isOk _), (files w !! SslKey cfg), (files w !! SslCert cfg);
      try destruct (bindable _ _ _); set_solver.
  - rewrite trace_provisionedWorld. unfold keyEvents, sasEvents.
    destruct (isOk _); set_solver.
Qed.

End Server.

(** * Theorems *)

Section ServerTheorems.
Context {sdk : BlobSdk}.
Implicit Types (w : World) (cfg : Config) (token : string) (e : Exn) (srv : Server).

(** C3: the program binds its address only after the configuration was
    accepted, the token was provisioned and both TLS files were read; and
    the address it binds is [local.teams.office.com:443]. *)
Theorem listen_only_when_ready w h p :
  EvListen h p ∈ trace (world_of program w) → EvListen h p ∉ trace w →
  configured w = true ∧
  (∃ token, provisioned (StorageAccount (configOf w)) (StorageContainer (configOf w)) w = Ok token) ∧
  is_Some (files w !! SslKey (configOf w)) ∧ is_Some (files w !! SslCert (configOf w)) ∧
  h = "local.teams.office.com" ∧ p = 443%Z.
Proof.
  unfold world_of. rewrite run_program. destruct (configured w); [|done].
  intros Hin Hnew. by destruct (listen_in_startup _ _ _ _ Hin Hnew) as (->&->&?&?&?).
Qed.

(** C4: the program ends up serving exactly when every required variable
    is set, the token is provisioned, both TLS files exist and the address
    can be bound; the server it returns carries the contents of the two
    files, the passphrase, and the application built from the container,
    the account and the token. *)
Theorem program_Ok_iff w srv :
  result_of program w = Ok srv ↔
  configured w = true ∧
  ∃ token keyFile certFile,
    provisioned (StorageAccount (configOf w)) (StorageContainer (configOf w)) w = Ok token ∧
    files w !! SslKey (configOf w) = Some keyFile ∧
    files w !! SslCert (configOf w) = Some certFile ∧
    bindable w "local.teams.office.com" 443%Z = true ∧
    srv = mkServer (mkServerOptions keyFile certFile (SslPassphrase (configOf w)))
            (createApp (configOf w) token).
Proof. apply result_program_Ok. Qed.

(** C34: when a required variable is missing the program throws before
    doing anything: no clock reading, no SDK call, no file read, no
    listen; the world is untouched. *)
Theorem program_fails_fast w :
  configured w = false → run program w = (Throw envError, w).
Proof. intros H. rewrite run_program. by rewrite H. Qed.

(** C35: when provisioning throws, the program throws the same value and
    stops there: the TLS files are not read and the address is not bound. *)
Theorem program_stops_on_provisioning_error w e :
  configured w = true →
  provisioned (StorageAccount (configOf w)) (StorageContainer (configOf w)) w = Throw e →
  result_of program w = Throw e ∧
  world_of program w =
  provisionedWorld (StorageAccount (configOf w)) (StorageContainer (configOf w)) w.
Proof.
  intros Hc Hp. unfold result_of, world_of. rewrite run_program, Hc.
  unfold startup. by rewrite Hp.
Qed.

(** C32: a successful start-up does, in this order and nothing else: two
    clock readings, the key request, two clock readings, the signing
    call, the read of the key file, the read of the certificate file, the
    listen call, and the console line of line 81. *)
Theorem program_trace_on_success w srv :
  result_of program w = Ok srv →
  trace (world_of program w) =
  trace w ++
  keyEvents (StorageAccount (configOf w)) w ++
  sasEvents (StorageAccount (configOf w)) (StorageContainer (configOf w)) w ++
  [EvReadFile (SslKey (configOf w)); EvReadFile (SslCert (configOf w));
   EvListen "local.teams.office.com" 443%Z;
   EvLog "source-maps proxy service live"].
Proof.
  unfold result_of, world_of. rewrite run_program. destruct (configured w); [|done].
  destruct (startup _ w) as [r w'] eqn:Hs; simpl. intros ->.
  by apply trace_startup_Ok in Hs.
Qed.

(** C37: the value of [SSL_HOST] is required but not used: start-up with
    any other host name does exactly the same and returns the same
    server. *)
Theorem sslHost_unused cfg host w :
  run (main (mkConfig (StorageAccount cfg) (StorageContainer cfg) (SslKey cfg)
               (SslCert cfg) (SslPassphrase cfg) host)) w =
  run (main cfg) w.
Proof. by rewrite !run_main. Qed.

(** The program leaves the environment, the files and the clock as
    they were and only appends to the trace. *)
Theorem program_extends w : extends w (world_of program w).
Proof. apply stable_program. Qed.

End ServerTheorems.

(** ** The theorems on the sample world *)

Section ServerExamples.
#[local] Existing Instance sampleSdk.

Definition sampleServer : Server :=
  mkServer (mkServerOptions "KEY" "CERT" "secret")
    (createApp sampleConfig
       ("sv=2021-08-06&spr=https&st=1700000000010&se=1700000086415" +:+
        "&sip=0.0.0.0-255.255.255.255&sr=c&sp=r&sig=signed-%2Fblob%2Facct%2Fmaps")).

Example program_sample : result_of program sampleWorld = Ok sampleServer.
Proof. by vm_compute. Qed.

Example program_sample_console :
  console (world_of program sampleWorld) = ["source-maps proxy service live"].
Proof. by vm_compute. Qed.

Example program_sample_no_key_file :
  result_of program
    (mkWorld (env sampleWorld) ∅ (clock sampleWorld) 0 (bindable sampleWorld) []) =
  Throw (SystemError "ENOENT" "open" "/etc/tls/key.pem").
Proof. by vm_compute. Qed.

Example program_sample_port_taken :
  result_of program
    (mkWorld (env sampleWorld) (files sampleWorld) (clock sampleWorld) 0 (λ _ _, false) []) =
  Throw (SystemError "EADDRINUSE" "listen" "local.teams.office.com").
Proof. by vm_compute. Qed.

Lemma listen_only_when_ready_witness :
  (EvListen "local.teams.office.com" 443 ∈ trace (world_of program sampleWorld)) ∧
  (EvListen "local.teams.office.com" 443 ∉ trace sampleWorld) ∧
  (configured sampleWorld = true ∧
   (∃ token, provisioned (StorageAccount (configOf sampleWorld))
               (StorageContainer (configOf sampleWorld)) sampleWorld = Ok token) ∧
   is_Some (files sampleWorld !! SslKey (configOf sampleWorld)) ∧
   is_Some (files sampleWorld !! SslCert (configOf sampleWorld)) ∧
   "local.teams.office.com" = "local.teams.office.com" ∧ 443%Z = 443%Z).
Proof.
  assert (EvListen "local.teams.office.com" 443 ∈ trace (world_of program sampleWorld))
    as H1 by by_compute.
  assert (EvListen "local.teams.office.com" 443 ∉ trace sampleWorld) as H2 by by_compute.
  split; [exact H1 | split; [exact H2 |]].
  exact (listen_only_when_ready sampleWorld _ _ H1 H2).
Defined.

Lemma program_fails_fast_witness :
  configured (withEnv ∅ sampleWorld) = false ∧
  run program (withEnv ∅ sampleWorld) = (Throw envError, withEnv ∅ sampleWorld).
Proof.
  split; [reflexivity |].
  apply (program_fails_fast (withEnv ∅ sampleWorld)). reflexivity.
Defined.

Lemma program_stops_on_provisioning_error_witness :
  configured sampleWorld = true ∧
  provisioned (sdk:=offlineSdk) (StorageAccount (configOf sampleWorld))
    (StorageContainer (configOf sampleWorld)) sampleWorld =
    Throw (RestError "AuthorizationFailure") ∧
  (result_of (program (sdk:=offlineSdk)) sampleWorld = Throw (RestError "AuthorizationFailure") ∧
   world_of (program (sdk:=offlineSdk)) sampleWorld =
   provisionedWorld (sdk:=offlineSdk) (StorageAccount (configOf sampleWorld))
     (StorageContainer (configOf sampleWorld)) sampleWorld).
Proof.
  split; [by vm_compute | split; [by vm_compute |]].
  apply (program_stops_on_provisioning_error (sdk:=offlineSdk) sampleWorld);
    by vm_compute.
Defined.

Lemma program_trace_on_success_witness :
  result_of program sampleWorld = Ok sampleServer ∧
  trace (world_of program sampleWorld) =
  trace sampleWorld ++
  keyEvents (StorageAccount (configOf sampleWorld)) sampleWorld ++
  sasEvents (StorageAccount (configOf sampleWorld))
    (StorageContainer (configOf sampleWorld)) sampleWorld ++
  [EvReadFile (SslKey (configOf sampleWorld)); EvReadFile (SslCert (configOf sampleWorld));
   EvListen "local.teams.office.com" 443%Z;
   EvLog "source-maps proxy service live"].
Proof.
  split; [exact program_sample |].
  exact (program_trace_on_success sampleWorld sampleServer program_sample).
Defined.

End ServerExamples.
