(* ===== verification/Index.v ===== *)
(** * Index: the module from its first statement (lines 16-84)

    [index] is [index.ts] run from its first statement to its last:
    [dotenv.config()] on line 16, then the guard and the start-up
    ([program], lines 18-84).  The import declarations above it are in
    [Imports], with the module as a whole.
    Line 16 changes what the guard sees, so the conditions under which
    the module serves are stated on [setting]: the value of a variable
    in the environment when it has one, else the one [.env] gives it.

    The theorems: when the module ends up serving and with what; that a
    variable set to the empty string in the environment stops start-up
    whatever [.env] holds; that a missing [.env] is not an error; and
    that start-up ends after a bounded number of actions. *)

From Stdlib Require Import ZArith Lia.
From stdpp Require Import base tactics option list strings gmap.
From S2P Require Import Prelude.
From S2P Require Import Js.
From S2P Require Import Azure.
From S2P Require Import Token.
From S2P Require Import World.
From S2P Require Import Config.
From S2P Require Import Dotenv.
From S2P Require Import Sas.
From S2P Require Import Proxy.
From S2P Require Import Server.

Section Index.
Context {sdk : BlobSdk} {parser : DotenvParser}.

(** Lines 16-84. *)
Definition index : M Server :=
  dotenv_config;;
  program.

(** The events of a start-up, at most: the read of [.env], the three of
    the key request, the three of the signing call, the two file reads,
    the listen call and the console line. *)
Definition startupBound : nat := 11.

(** * Lemmas *)

Implicit Types (w : World) (srv : Server) (k : string) (e : Exn).

Lemma run_index w : run index w = run program (loaded w).
Proof. unfold index. by rewrite run_bind, run_dotenv_config. Qed.

Lemma run_index_startup w :
  run index w =
  if configured (loaded w) then startup (settings w) (loaded w)
  else (Throw envError, loaded w).
Proof. by rewrite run_index, run_program, configOf_loaded. Qed.

Lemma provisioned_loaded account container w :
  provisioned account container (loaded w) = provisioned account container w.
Proof. by apply provisioned_clock. Qed.

(** The module returns a server exactly when the settings are complete,
    the token arrives, both files exist and the address can be bound. *)
Lemma result_index_Ok w srv :
  result_of index w = Ok srv ↔
  configured (loaded w) = true ∧
  ∃ token keyFile certFile,
    provisioned (StorageAccount (settings w)) (StorageContainer (settings w)) w = Ok token ∧
    files w !! SslKey (settings w) = Some keyFile ∧
    files w !! SslCert (settings w) = Some certFile ∧
    bindable w listenHost listenPort = true ∧
    srv = serverOf (settings w) token keyFile certFile.
Proof.
  unfold result_of. rewrite run_index. fold (result_of program (loaded w)).
  by rewrite result_program_Ok, configOf_loaded, provisioned_loaded.
Qed.

Lemma run_index_Ok w srv w' :
  run index w = (Ok srv, w') →
  ∃ token,
    provisioned (StorageAccount (settings w)) (StorageContainer (settings w)) w = Ok token ∧
    srv_app srv = createApp (settings w) token.
Proof.
  intros Hrun. assert (result_of index w = Ok srv) as Hres
    by (unfold result_of; by rewrite Hrun).
  apply result_index_Ok in Hres as (_ & token & k & c & Hp & _ & _ & _ & ->).
  by exists token.
Qed.

(** The settings a server runs with passed the guard. *)
Lemma run_index_Ok_wf w srv w' : run index w = (Ok srv, w') → Config_wf (settings w).
Proof.
  intros Hrun. assert (result_of index w = Ok srv) as Hres
    by (unfold result_of; by rewrite Hrun).
  apply result_index_Ok in Hres as (Hc & _).
  rewrite <-configOf_loaded. by apply configOf_wf.
Qed.

Lemma stable_index : stable grows index.
Proof.
  intros w. unfold world_of. rewrite run_index. etrans; [apply grows_loaded|].
  apply extends_grows, stable_program.
Qed.

Lemma preserves_index : preserves World_wf index.
Proof.
  unfold index.
  apply preserves_bind; [apply preserves_dotenv_config | intros; apply preserves_program].
Qed.

(** What a start-up adds to the trace, at most. *)
Lemma trace_startup_bound cfg w :
  ∃ es, trace (startup cfg w).2 = trace w ++ es ∧ length es ≤ 10.
Proof.
  unfold startup. destruct (provisioned _ _ w) as [token|e]; simpl.
  - rewrite trace_bringUp, trace_provisionedWorld. eexists. rewrite <-!app_assoc.
    split; [done|]. rewrite !length_app. unfold keyEvents, sasEvents.
    repeat case_match; simpl; lia.
  - rewrite trace_provisionedWorld. eexists. split; [done|].
    rewrite !length_app. unfold keyEvents, sasEvents. case_match; simpl; lia.
Qed.

Lemma trace_index_bound w :
  ∃ es, trace (world_of index w) = trace w ++ es ∧ length es ≤ startupBound.
Proof.
  unfold world_of. rewrite run_index_startup. destruct (configured _).
  - destruct (trace_startup_bound (settings w) (loaded w)) as (es & -> & Hes).
    rewrite (trace_loaded w), <-app_assoc. eexists. split; [done|].
    unfold startupBound. simpl. lia.
  - exists [EvReadFile dotenvPath]. unfold startupBound. simpl. split; [done | lia].
Qed.

End Index.

(** * Theorems *)

Section IndexTheorems.
Context {sdk : BlobSdk} {parser : DotenvParser}.
Implicit Types (w : World) (srv : Server) (k : string).

(** C17: the module ends up serving exactly when each of the six settings
    has a non-empty value (the environment's when the variable is set,
    else the one of [.env]), the token is provisioned for the account and
    container so obtained, both TLS files exist and the address can be
    bound; the server it returns is built from these settings. *)
Theorem index_Ok_iff w srv :
  result_of index w = Ok srv ↔
  (∀ k, k ∈ requiredKeys → ∃ s, setting w k = Some s ∧ s ≠ "") ∧
  ∃ token keyFile certFile,
    provisioned (StorageAccount (settings w)) (StorageContainer (settings w)) w = Ok token ∧
    files w !! SslKey (settings w) = Some keyFile ∧
    files w !! SslCert (settings w) = Some certFile ∧
    bindable w "local.teams.office.com" 443%Z = true ∧
    srv = mkServer (mkServerOptions keyFile certFile (SslPassphrase (settings w)))
            (createApp (settings w) token).
Proof. rewrite result_index_Ok. by rewrite configured_loaded. Qed.

(** C26: a required variable that is set to the empty string in the
    environment stops start-up with the error of line 26, whatever [.env]
    says about it: the file never replaces a variable that is set, and
    the guard takes the empty string for a missing value.  Nothing but
    the read of [.env] has happened by then. *)
Theorem index_empty_variable_blocks w k :
  k ∈ requiredKeys → env w !! k = Some "" →
  run index w = (Throw envError, loaded w).
Proof.
  intros Hk Hv. rewrite run_index_startup.
  rewrite (proj2 (not_configured_iff _)); [done|].
  exists k. split; [done|]. right. rewrite env_loaded. by apply setting_env.
Qed.

(** C36: a missing [.env] is not an error: the module behaves as lines
    18-84 do in the environment as it is, after one failed read. *)
Theorem index_no_env_file w :
  files w !! ".env" = None →
  run index w = run program (emit (EvReadFile ".env") w).
Proof. intros Hf. by rewrite run_index, loaded_no_file. Qed.

(** C27: start-up always ends, with a server or an exception, and by then
    it has done at most eleven observable actions and read the clock at
    most four times: no call is retried and nothing waits. *)
Theorem index_terminates w :
  ∃ r w' es,
    run index w = (r, w') ∧ trace w' = trace w ++ es ∧
    length es ≤ 11 ∧ ticks w' ≤ ticks w + 4.
Proof.
  destruct (trace_index_bound w) as (es & Htr & Hes).
  exists (result_of index w), (world_of index w), es.
  split; [by destruct (run index w) eqn:E; unfold result_of, world_of; rewrite E|].
  split; [done | split; [done|]].
  unfold world_of. rewrite run_index_startup. destruct (configured _); [|simpl; lia].
  unfold startup. destruct (provisioned _ _ _) eqn:Hp; simpl.
  - unfold bringUp. repeat case_match; simpl;
      unfold provisionedWorld; case_match; simpl; lia.
  - unfold provisionedWorld; case_match; simpl; lia.
Qed.

End IndexTheorems.

(** ** The theorems on the world with a [.env] file *)

Section IndexExamples.
#[local] Existing Instance sampleSdk.
#[local] Existing Instance lineParser.

(** The settings split between the environment and the file give the
    server of the sample world. *)
Example index_dotenvWorld : result_of index dotenvWorld = Ok sampleServer.
Proof. by vm_compute. Qed.

Example index_dotenvWorld_reads :
  omap (λ e, match e with EvReadFile p => Some p | _ => None end)
    (trace (world_of index dotenvWorld)) =
  [".env"; "/etc/tls/key.pem"; "/etc/tls/cert.pem"].
Proof. by vm_compute. Qed.

Lemma index_empty_variable_blocks_witness :
  let w := withEnv (<["SSL_KEY" := ""]> (env dotenvWorld)) dotenvWorld in
  "SSL_KEY" ∈ requiredKeys ∧ env w !! "SSL_KEY" = Some "" ∧
  setting (parser:=lineParser) dotenvWorld "SSL_KEY" = Some "/etc/tls/key.pem" ∧
  run index w = (Throw envError, loaded w).
Proof.
  intros w. assert ("SSL_KEY" ∈ requiredKeys) as H1 by set_solver.
  assert (env w !! "SSL_KEY" = Some "") as H2 by reflexivity.
  split; [exact H1 | split; [exact H2 | split; [by vm_compute |]]].
  exact (index_empty_variable_blocks w "SSL_KEY" H1 H2).
Defined.

Lemma index_no_env_file_witness :
  files sampleWorld !! ".env" = None ∧
  run index sampleWorld = run program (emit (EvReadFile ".env") sampleWorld).
Proof.
  assert (files sampleWorld !! ".env" = None) as H by reflexivity.
  split; [exact H | exact (index_no_env_file sampleWorld H)].
Defined.

End IndexExamples.
