(* ===== verification/Imports.v ===== *)
(** * Imports: the import declarations (lines 1-14) and the whole module

    [index.ts] opens with seven import declarations.  They are evaluated
    before the first statement of the module: each names a module
    specifier, the loader of the runtime looks the specifier up, and the
    names of the declaration are bound to what the module exports.  A
    specifier that cannot be resolved ends the process with the loader's
    error before line 16 runs, so before [.env] or the environment is
    read.

    [imports] is the table of the seven declarations in the order of the
    file; [bindings] the names they bind.  The loader is a parameter (the
    class [ModuleLoader]): whether a specifier resolves depends on the
    files of the installation and on nothing else of the world.  [load]
    is one declaration, [loadImports] the seven in order, and [entry] the
    module from its first line: the imports, then [Index.index].

    Loading appends nothing to the trace: the events of the world are
    the calls the program makes, and the loader runs before the program.
    That the packages export the names imported from them is assumed.

    [nodeModules] is a loader for the examples: the two core modules
    always resolve, a package when [node_modules] holds its
    [package.json].  No theorem depends on it. *)

From Stdlib Require Import ZArith Lia.
From stdpp Require Import base tactics option list strings gmap.
From S2P Require Import Prelude.
From S2P Require Import Js.
From S2P Require Import Azure.
From S2P Require Import Token.
From S2P Require Import World.
From S2P Require Import Config.
From S2P Require Import Dotenv.
From S2P Require Import Sas.
From S2P Require Import Proxy.
From S2P Require Import Server.
From S2P Require Import Index.

(** ** The declarations *)

(** One import declaration: [import d, { n1, n2 } from "spec"]. *)
Record Import : Type := mkImport {
  imp_default : option string;
  imp_names : list string;
  imp_from : string;
}.

#[global] Instance Import_eq_dec : EqDecision Import.
Proof. solve_decision. Defined.

(** Lines 1-14. *)
Definition imports : list Import := [
  mkImport (Some "https") [] "https";
  mkImport (Some "express") [] "express";
  mkImport None ["createProxyMiddleware"] "http-proxy-middleware";
  mkImport None ["DefaultAzureCredential"] "@azure/identity";
  mkImport None
    ["BlobServiceClient"; "ContainerSASPermissions";
     "generateBlobSASQueryParameters"; "SASProtocol"] "@azure/storage-blob";
  mkImport None ["readFileSync"] "fs";
  mkImport (Some "dotenv") [] "dotenv"
].

(** The names one declaration binds, the default first. *)
Definition bound (i : Import) : list string :=
  option_list (imp_default i) ++ imp_names i.

(** The names in scope from line 16 on. *)
Definition bindings : list string := imports ≫= bound.

(** The specifiers, in the order of the file. *)
Definition specifiers : list string := imp_from <$> imports.

(** ** The loader *)

(** Whether the runtime resolves a specifier, given the files, and the
    error it throws for one it does not resolve. *)
Class ModuleLoader : Type := {
  resolves : gmap string string → string → bool;
  moduleError : string → Exn;
}.

Section Imports.
Context {sdk : BlobSdk} {parser : DotenvParser} {loader : ModuleLoader}.

(** One declaration: the specifier is looked up. *)
Definition load (i : Import) : M unit :=
  fs ← gets files;
  if resolves fs (imp_from i) then mret tt else throw (moduleError (imp_from i)).

(** Declarations in order; the first that fails ends the loading. *)
Definition loadAll (l : list Import) : M unit :=
  foldr (λ i rest, load i;; rest) (mret tt) l.

(** Lines 1-14. *)
Definition loadImports : M unit := loadAll imports.

(** Lines 1-84. *)
Definition entry : M Server :=
  loadImports;;
  index.

(** The first declaration of [l] that does not resolve in [w]. *)
Definition unresolved (w : World) (l : list Import) : option Import :=
  List.find (λ i, negb (resolves (files w) (imp_from i))) l.

(** Every declaration of the module resolves in [w]. *)
Definition resolved (w : World) : Prop :=
  ∀ i, i ∈ imports → resolves (files w) (imp_from i) = true.

(** * Lemmas *)

Implicit Types (w : World) (srv : Server) (i : Import) (l : list Import).

Lemma run_load w i :
  run (load i) w =
  if resolves (files w) (imp_from i) then (Ok tt, w)
  else (Throw (moduleError (imp_from i)), w).
Proof.
  unfold load. rewrite run_bind, run_gets. simpl.
  by destruct (resolves _ _); [rewrite run_ret | rewrite run_throw].
Qed.

(** Loading in closed form: the error of the first declaration that does
    not resolve, in the world as it was. *)
Lemma run_loadAll w l :
  run (loadAll l) w =
  match unresolved w l with
  | Some i => (Throw (moduleError (imp_from i)), w)
  | None => (Ok tt, w)
  end.
Proof.
  induction l as [|i l IH]; simpl; [by rewrite run_ret|].
  rewrite run_bind, run_load. by destruct (resolves _ _); simpl.
Qed.

Lemma unresolved_None w l :
  unresolved w l = None ↔ ∀ i, i ∈ l → resolves (files w) (imp_from i) = true.
Proof.
  unfold unresolved. induction l as [|i l IH]; simpl; [set_solver|].
  destruct (resolves _ (imp_from i)) eqn:Hi; simpl.
  - rewrite IH. set_solver.
  - split; [done|]. intros H. specialize (H i). rewrite Hi in H.
    by discriminate H; [left].
Qed.


Lemma run_entry w :
  run entry w =
  match unresolved w imports with
  | Some i => (Throw (moduleError (imp_from i)), w)
  | None => run index w
  end.
Proof.
  unfold entry, loadImports. rewrite run_bind, run_loadAll.
  by destruct (unresolved _ _).
Qed.

Lemma run_entry_Ok_index w srv w' :
  run entry w = (Ok srv, w') → run index w = (Ok srv, w').
Proof. rewrite run_entry. by destruct (unresolved _ _). Qed.

(** What [Index.run_index_Ok] and [Index.run_index_Ok_wf] say of the
    statements from line 16 on holds of the module. *)
Lemma run_entry_Ok w srv w' :
  run entry w = (Ok srv, w') →
  ∃ token,
    provisioned (StorageAccount (settings w)) (StorageContainer (settings w)) w = Ok token ∧
    srv_app srv = createApp (settings w) token.
Proof. intros H. by eapply run_index_Ok, run_entry_Ok_index. Qed.

Lemma run_entry_Ok_wf w srv w' : run entry w = (Ok srv, w') → Config_wf (settings w).
Proof. intros H. by eapply run_index_Ok_wf, run_entry_Ok_index. Qed.

(** Loading leaves the world as it was. *)
Lemma world_loadImports w : world_of loadImports w = w.
Proof. unfold world_of, loadImports. rewrite run_loadAll. by destruct (unresolved _ _). Qed.

Lemma stable_entry : stable grows entry.
Proof.
  intros w. unfold world_of. rewrite run_entry.
  destruct (unresolved _ _); [done | apply stable_index].
Qed.

Lemma preserves_entry : preserves World_wf entry.
Proof.
  intros w Hw. unfold world_of. rewrite run_entry.
  destruct (unresolved _ _); [done | by apply preserves_index].
Qed.

End Imports.

(** * Theorems *)

Section ImportsTheorems.
Context {sdk : BlobSdk} {parser : DotenvParser} {loader : ModuleLoader}.
Implicit Types (w : World) (srv : Server) (i : Import).



(** When every import resolves the module is its statements from line 16
    on: what is proved of [index] holds of the module. *)
Theorem entry_resolved w : resolved w → run entry w = run index w.
Proof.
  intros H. rewrite run_entry. by rewrite (proj2 (unresolved_None w imports) H).
Qed.

(** The module always ends, and it does at most what [index] does. *)
Theorem entry_terminates w :
  ∃ r w' es,
    run entry w = (r, w') ∧ trace w' = trace w ++ es ∧ length es ≤ startupBound.
Proof.
  rewrite run_entry. destruct (unresolved _ _) as [i|].
  - exists (Throw (moduleError (imp_from i))), w, []. rewrite app_nil_r.
    repeat split. simpl. lia.
  - destruct (trace_index_bound w) as (es & Htr & Hes).
    exists (result_of index w), (world_of index w), es.
    split; [|done]. unfold result_of, world_of. by destruct (run index w).
Qed.

End ImportsTheorems.

(** ** A loader and the theorems on the sample worlds *)

(** The modules built into the runtime. *)
Definition coreModules : list string := ["https"; "fs"].

(** Where an installed package keeps its manifest. *)
Definition packagePath (spec : string) : string :=
  "node_modules/" +:+ spec +:+ "/package.json".

Definition nodeModules : ModuleLoader := {|
  resolves fs spec :=
    bool_decide (spec ∈ coreModules) || bool_decide (is_Some (fs !! packagePath spec));
  moduleError spec := Error ("Cannot find module '" +:+ spec +:+ "'")
|}.

(** [w] on a machine whose files are [fs]. *)
Definition withFiles (fs : gmap string string) (w : World) : World :=
  mkWorld (env w) fs (clock w) (ticks w) (bindable w) (trace w).

Section ImportsExamples.
#[local] Existing Instance sampleSdk.
#[local] Existing Instance lineParser.
#[local] Existing Instance nodeModules.

(** The ten names the rest of the file uses, each bound once. *)
Example bindings_names :
  bindings =
  ["https"; "express"; "createProxyMiddleware"; "DefaultAzureCredential";
   "BlobServiceClient"; "ContainerSASPermissions"; "generateBlobSASQueryParameters";
   "SASProtocol"; "readFileSync"; "dotenv"].
Proof. reflexivity. Qed.

Example bindings_NoDup : NoDup bindings.
Proof. apply (bool_decide_unpack (NoDup bindings)). by vm_compute. Qed.

(** The sample worlds have the five packages. *)
Lemma resolves_all fs l :
  forallb (λ i, resolves fs (imp_from i)) l = true →
  ∀ i, i ∈ l → resolves fs (imp_from i) = true.
Proof. rewrite forallb_forall. intros H i Hi. by apply H, list_elem_of_In. Qed.

Example sampleWorld_resolved : resolved sampleWorld.
Proof. unfold resolved. apply resolves_all. by vm_compute. Qed.

Example dotenvWorld_resolved : resolved dotenvWorld.
Proof. unfold resolved. apply resolves_all. by vm_compute. Qed.

Example entry_dotenvWorld : result_of entry dotenvWorld = Ok sampleServer.
Proof. by vm_compute. Qed.

(** With nothing installed the first package of the file is the one the
    error names, though none of the five resolves. *)
Example entry_nothing_installed :
  result_of entry (withFiles ∅ dotenvWorld) = Throw (Error "Cannot find module 'express'").
Proof. by vm_compute. Qed.


Lemma entry_resolved_witness :
  resolved dotenvWorld ∧ run entry dotenvWorld = run index dotenvWorld.
Proof.
  split; [exact dotenvWorld_resolved | exact (entry_resolved _ dotenvWorld_resolved)].
Defined.

End ImportsExamples.
