(* ===== verification/Lifecycle.v ===== *)
(** * Lifecycle: the process as a state machine

    The process is [Unready] until the module ([Imports.entry]: the
    imports, then the statements from line 16 on) has run; it is then
    [Serving] with the server the module returned, or [Crashed] with what
    it threw, the loader's error included.  While serving, each request runs [handle] on the server's
    application.  [Step] is the transition relation, labelled with what
    happens to the process ([Input]) and what can be observed ([Output]);
    [next] is the same as a function, and [exec] runs a list of inputs.

    [AbsStep] is the machine the specification describes: unready, then
    serving with one account, container and token fixed for good, every
    request under the mount answered by the rewrite rule.  [refinement]
    shows that every run of the process is a run of that machine, and
    [same_path_same_answer] transports a property of the machine to the
    process. *)

From Stdlib Require Import ZArith Lia.
From stdpp Require Import base tactics option list strings gmap.
From S2P Require Import Prelude.
From S2P Require Import Query.
From S2P Require Import Js.
From S2P Require Import Azure.
From S2P Require Import Token.
From S2P Require Import World.
From S2P Require Import Config.
From S2P Require Import Sas.
From S2P Require Import Storage.
From S2P Require Import Proxy.
From S2P Require Import Server.
From S2P Require Import Dotenv.
From S2P Require Import Index.
From S2P Require Import Imports.

(** What happens to the process: it is started, or a request arrives. *)
Inductive Input : Type :=
| Start
| Arrive (req : Request).

(** What can be observed: the server came up, the process died with an
    exception, a request was answered or failed in the handler, or nobody
    was listening. *)
Inductive Output : Type :=
| Up
| Down (e : Exn)
| Answer (out : Outcome)
| ServerError (e : Exn)
| Refused.

(** ** Runs of a labelled transition system

    For any types of states, inputs and outputs: the process below and
    the process with requests in flight ([Flight]) share them. *)

Section Runs.
Context {S A B : Type} (R : S → A → B → S → Prop).

Inductive Run : S → list (A * B) → S → Prop :=
| Run_nil s : Run s [] s
| Run_cons s i o s' l s'' :
    R s i o s' → Run s' l s'' → Run s ((i, o) :: l) s''.

Lemma Run_app s l1 s' l2 s'' : Run s l1 s' → Run s' l2 s'' → Run s (l1 ++ l2) s''.
Proof. induction 1; simpl; [done|]. intros. econstructor; eauto. Qed.

Lemma Run_app_inv s l1 l2 s'' :
  Run s (l1 ++ l2) s'' → ∃ s', Run s l1 s' ∧ Run s' l2 s''.
Proof.
  revert s. induction l1 as [|[i o] l1 IH]; intros s H; simpl in *.
  - exists s. split; [constructor | done].
  - inversion H as [|? ? ? q ? ? Hs Hr]; subst.
    destruct (IH _ Hr) as (s' & H1 & H2). exists s'. split; [|done].
    econstructor; eauto.
Qed.

Lemma Run_snoc s l s' i o s'' : Run s l s' → R s' i o s'' → Run s (l ++ [(i, o)]) s''.
Proof. intros H1 H2. eapply Run_app; [done|]. econstructor; [done | constructor]. Qed.

Lemma Run_snoc_inv s l i o s'' :
  Run s (l ++ [(i, o)]) s'' → ∃ s', Run s l s' ∧ R s' i o s''.
Proof.
  revert s. induction l as [|[i' o'] l IH]; intros s H; simpl in *.
  - inversion H as [|? ? ? ? ? ? Hs Hr]; subst. inversion Hr; subst.
    exists s. split; [constructor | done].
  - inversion H as [|? ? ? q ? ? Hs Hr]; subst.
    destruct (IH _ Hr) as (s' & Hq & Hs'). exists s'. split; [|done].
    econstructor; eauto.
Qed.

(** Induction on runs from the end, for invariants. *)
Lemma Run_ind_r (P : list (A * B) → S → Prop) s :
  P [] s →
  (∀ l s' i o s'', Run s l s' → P l s' → R s' i o s'' → P (l ++ [(i, o)]) s'') →
  ∀ l s', Run s l s' → P l s'.
Proof.
  intros Hnil Hsnoc l. induction l as [|[i o] l IH] using rev_ind; intros s' H.
  - by inversion H; subst.
  - apply Run_snoc_inv in H as (q & Hq & Hs). eauto.
Qed.

End Runs.

(** ** The process *)

Inductive Phase : Type :=
| Unready
| Serving (srv : Server)
| Crashed (e : Exn).

Record Process : Type := mkProcess {
  phase : Phase;
  world : World;
}.

(** A process that has just been launched in the world [w]. *)
Definition launch (w : World) : Process := mkProcess Unready w.

(** A process whose past makes sense: every action it took is well
    formed, and while it serves, its application is the one lines 53-65
    build from a configuration that passed the guard. *)
Definition Process_wf (p : Process) : Prop :=
  World_wf (world p) ∧
  match phase p with
  | Serving srv => ∃ cfg token, Config_wf cfg ∧ srv_app srv = createApp cfg token
  | Unready | Crashed _ => True
  end.

(** The requests of a run that were answered, in order. *)
Definition arrivals (l : list (Input * Output)) : list Request :=
  omap (λ io, match io with (Arrive req, Answer _) => Some req | _ => None end) l.

(** What serving a list of requests adds to the trace. *)
Definition servedEvents (cfg : Config) (token : string) (reqs : list Request) : list Event :=
  reqs ≫= λ req,
    if mounted (mountPath (StorageContainer cfg)) (req_url req)
    then [EvLog (rewriteLog token (req_url req)); EvForward (upstreamOf cfg token req)]
    else [].

(** ** The machine of the specification *)

Inductive AbsState : Type :=
| AUnready
| AServing (account container token : string)
| AStopped.

(** The answer the specification prescribes for a request. *)
Definition absAnswer (account container token : string) (req : Request) : Outcome :=
  if mounted ("/" +:+ container) (req_url req)
  then Forwarded
    {| up_origin := "https://" +:+ account +:+ ".blob.core.windows.net";
       up_host := account +:+ ".blob.core.windows.net";
       up_path := req_url req +:+ "?" +:+ token |}
  else NotFound.

Inductive AbsStep : AbsState → Input → Output → AbsState → Prop :=
| Abs_up a c t : AbsStep AUnready Start Up (AServing a c t)
| Abs_down e : AbsStep AUnready Start (Down e) AStopped
| Abs_answer a c t req :
    AbsStep (AServing a c t) (Arrive req) (Answer (absAnswer a c t req)) (AServing a c t)
| Abs_unready req : AbsStep AUnready (Arrive req) Refused AUnready
| Abs_started a c t : AbsStep (AServing a c t) Start Refused (AServing a c t)
| Abs_stopped i : AbsStep AStopped i Refused AStopped.

(** How a process corresponds to a state of the machine. *)
Definition refines (p : Process) (a : AbsState) : Prop :=
  match phase p, a with
  | Unready, AUnready => True
  | Serving srv, AServing account container token =>
      ∃ cfg, srv_app srv = createApp cfg token ∧
             account = StorageAccount cfg ∧ container = StorageContainer cfg
  | Crashed _, AStopped => True
  | _, _ => False
  end.

Section Lifecycle.
Context {sdk : BlobSdk} {parser : DotenvParser} {loader : ModuleLoader}.

Inductive Step : Process → Input → Output → Process → Prop :=
| Step_up w srv w' :
    run entry w = (Ok srv, w') →
    Step (mkProcess Unready w) Start Up (mkProcess (Serving srv) w')
| Step_down w e w' :
    run entry w = (Throw e, w') →
    Step (mkProcess Unready w) Start (Down e) (mkProcess (Crashed e) w')
| Step_answer srv w req out w' :
    run (handle (srv_app srv) req) w = (Ok out, w') →
    Step (mkProcess (Serving srv) w) (Arrive req) (Answer out) (mkProcess (Serving srv) w')
| Step_error srv w req e w' :
    run (handle (srv_app srv) req) w = (Throw e, w') →
    Step (mkProcess (Serving srv) w) (Arrive req) (ServerError e) (mkProcess (Serving srv) w')
| Step_unready w req :
    Step (mkProcess Unready w) (Arrive req) Refused (mkProcess Unready w)
| Step_started srv w :
    Step (mkProcess (Serving srv) w) Start Refused (mkProcess (Serving srv) w)
| Step_crashed e w i :
    Step (mkProcess (Crashed e) w) i Refused (mkProcess (Crashed e) w).

(** The transition as a function. *)
Definition next (p : Process) (i : Input) : Output * Process :=
  match phase p, i with
  | Unready, Start =>
      match run entry (world p) with
      | (Ok srv, w') => (Up, mkProcess (Serving srv) w')
      | (Throw e, w') => (Down e, mkProcess (Crashed e) w')
      end
  | Serving srv, Arrive req =>
      match run (handle (srv_app srv) req) (world p) with
      | (Ok out, w') => (Answer out, mkProcess (Serving srv) w')
      | (Throw e, w') => (ServerError e, mkProcess (Serving srv) w')
      end
  | _, _ => (Refused, p)
  end.

Fixpoint exec (p : Process) (inputs : list Input) : list Output * Process :=
  match inputs with
  | [] => ([], p)
  | i :: rest =>
      let '(o, p') := next p i in
      let '(os, p'') := exec p' rest in
      (o :: os, p'')
  end.

(** * Lemmas *)

Implicit Types (p : Process) (w : World) (i : Input) (o : Output) (srv : Server).
Implicit Types (l : list (Input * Output)).

Lemma Step_next p i o p' : Step p i o p' ↔ next p i = (o, p').
Proof.
  split.
  - intros H. destruct H; unfold next; simpl; try by rewrite H.
    + done.
    + done.
    + by destruct i.
  - destruct p as [[|srv|e] w], i as [|req]; unfold next; simpl.
    + destruct (run entry w) as [[srv|e] w'] eqn:H; intros [= <- <-];
        by constructor.
    + intros [= <- <-]. constructor.
    + intros [= <- <-]. constructor.
    + destruct (run (handle _ _) w) as [[out|e] w'] eqn:H; intros [= <- <-];
        by constructor.
    + intros [= <- <-]. constructor.
    + intros [= <- <-]. constructor.
Qed.

Lemma Run_exec p inputs :
  Run Step p (zip inputs (exec p inputs).1) (exec p inputs).2.
Proof.
  revert p. induction inputs as [|i rest IH]; intros p; simpl; [constructor|].
  destruct (next p i) as [o p'] eqn:Hn. specialize (IH p').
  destruct (exec p' rest) as [os p'']. simpl in *.
  econstructor; [by apply Step_next | done].
Qed.

(** A serving process stays serving with the same server. *)
Lemma Step_serving p i o p' srv :
  Step p i o p' → phase p = Serving srv → phase p' = Serving srv.
Proof. by destruct 1. Qed.


Lemma arrivals_snoc l i o :
  arrivals (l ++ [(i, o)]) =
  arrivals l ++ match i, o with Arrive req, Answer _ => [req] | _, _ => [] end.
Proof.
  unfold arrivals. rewrite omap_app. f_equal. by destruct i, o.
Qed.

Lemma servedEvents_snoc cfg token reqs req :
  servedEvents cfg token (reqs ++ [req]) =
  servedEvents cfg token reqs ++ servedEvents cfg token [req].
Proof. unfold servedEvents. by rewrite bind_app. Qed.

(** Requests for the same path get the same answer, from the machine of
    the specification and from the application: both respect
    [samePath]. *)
#[global] Instance absAnswer_proper account container token :
  Proper (samePath ==> eq) (absAnswer account container token).
Proof. intros req1 req2 H. unfold samePath in H. unfold absAnswer. by rewrite H. Qed.

#[global] Instance handle_proper cfg token :
  Proper (samePath ==> eff_equiv) (handle (createApp cfg token)).
Proof.
  intros req1 req2 H w. rewrite !run_handle, (upstreamOf_proper cfg token _ _ H).
  unfold samePath in H. by rewrite H.
Qed.

(** One request through a serving process, in closed form. *)
Lemma run_handle_advance cfg token req w :
  run (handle (createApp cfg token) req) w =
  (Ok (absAnswer (StorageAccount cfg) (StorageContainer cfg) token req),
   advance 0 (servedEvents cfg token [req]) w).
Proof.
  rewrite run_handle. unfold absAnswer, servedEvents, mountPath; simpl.
  destruct (mounted _ _); simpl.
  - by rewrite !emit_as_advance, advance_advance.
  - by rewrite advance_0_nil.
Qed.

(** One step of the process is one step of the machine. *)
Lemma Step_simulation p a i o p' :
  refines p a → Step p i o p' → ∃ a', AbsStep a i o a' ∧ refines p' a'.
Proof.
  intros Hr Hs. destruct Hs as [w srv w' Hp|w e w' Hp|srv w req out w' Hh|
    srv w req e w' Hh| |srv w|e w i]; destruct a as [|a c t|];
    unfold refines in Hr; simpl in Hr; try done.
  - apply run_entry_Ok in Hp as (token & _ & Happ).
    exists (AServing (StorageAccount (settings w)) (StorageContainer (settings w)) token).
    split; [constructor|]. by exists (settings w).
  - exists AStopped. split; [constructor | done].
  - destruct Hr as (cfg & Happ & -> & ->). rewrite Happ, run_handle_advance in Hh.
    injection Hh as <- <-. eexists. split; [constructor|]. by exists cfg.
  - destruct Hr as (cfg & Happ & -> & ->). by rewrite Happ, run_handle_advance in Hh.
  - exists AUnready. split; [constructor | done].
  - exists (AServing a c t). split; [constructor | done].
  - exists AStopped. split; [constructor | done].
Qed.

(** The machine answers every request of a run with one and the same
    account, container and token. *)
Lemma abs_answers s l s' :
  Run AbsStep s l s' →
  ∃ a c t,
    (∀ req out, (Arrive req, Answer out) ∈ l → out = absAnswer a c t req) ∧
    (∀ a' c' t', s = AServing a' c' t' → a' = a ∧ c' = c ∧ t' = t).
Proof.
  induction 1 as [s|s i o s1 l s2 Hs _ (a & c & t & Hl & Hs1)].
  - destruct s as [|a c t|]; [exists "", "", "" | exists a, c, t | exists "", "", ""];
      (split; [set_solver | naive_solver]).
  - exists a, c, t. destruct Hs as [a1 c1 t1|e|a1 c1 t1 req| |a1 c1 t1|i];
      try destruct (Hs1 a1 c1 t1 eq_refl) as (-> & -> & ->);
      (split; [|naive_solver]); intros req' out [[=]|Hin]%elem_of_cons;
      subst; eauto.
Qed.

(** Runs of the process are runs of the machine. *)
Lemma Run_simulation p a l p' :
  refines p a → Run Step p l p' → ∃ a', Run AbsStep a l a' ∧ refines p' a'.
Proof.
  intros Hr Hrun. revert a Hr.
  induction Hrun as [p|p i o p1 l p2 Hs _ IH]; intros a Hr.
  - exists a. split; [constructor | done].
  - destruct (Step_simulation _ _ _ _ _ Hr Hs) as (a1 & Ha & Hr1).
    destruct (IH _ Hr1) as (a2 & Hrun2 & Hr2).
    exists a2. split; [econstructor; eauto | done].
Qed.

(** What is known of a process launched in [w0] after the run [l]: before
    the start nothing has changed; after a failed start the world is the
    one [entry] left; while serving, the server is the one [entry]
    returned and the world is the one [entry] left plus the events of
    the requests answered so far. *)
Definition Inv (w0 : World) l p : Prop :=
  match phase p with
  | Unready => world p = w0 ∧ arrivals l = []
  | Crashed e => result_of entry w0 = Throw e ∧ world p = world_of entry w0
  | Serving srv =>
      result_of entry w0 = Ok srv ∧
      ∃ token,
        srv_app srv = createApp (settings w0) token ∧
        provisioned (StorageAccount (settings w0)) (StorageContainer (settings w0)) w0 = Ok token ∧
        world p = advance 0 (servedEvents (settings w0) token (arrivals l)) (world_of entry w0)
  end.

Lemma Inv_step w0 l p i o p' : Inv w0 l p → Step p i o p' → Inv w0 (l ++ [(i, o)]) p'.
Proof.
  intros HI Hs. destruct Hs as [w srv w' Hp|w e w' Hp|srv w req out w' Hh|
    srv w req e w' Hh|w req|srv w|e w i]; unfold Inv in *; simpl in *;
    rewrite ?arrivals_snoc.
  - destruct HI as [-> Ha]. unfold result_of, world_of. rewrite Hp. split; [done|].
    apply run_entry_Ok in Hp as (token & Hprov & Happ).
    exists token. rewrite Ha. simpl. by rewrite advance_0_nil.
  - destruct HI as [-> _]. unfold result_of, world_of. by rewrite Hp.
  - destruct HI as (Hres & token & Happ & Hprov & ->). split; [done|]. exists token.
    rewrite Happ, run_handle_advance in Hh. injection Hh as _ <-.
    by rewrite advance_advance, servedEvents_snoc.
  - destruct HI as (_ & token & Happ & _). by rewrite Happ, run_handle_advance in Hh.
  - by rewrite app_nil_r.
  - by rewrite app_nil_r.
  - by destruct i.
Qed.

Lemma Run_Inv w0 l p : Run Step (launch w0) l p → Inv w0 l p.
Proof.
  apply (Run_ind_r Step (Inv w0)); [done|]. eauto using Inv_step.
Qed.

Lemma forwarded_advance n es w :
  forwarded (advance n es w) = forwarded w ++ omap isForward es.
Proof. unfold forwarded; simpl. by rewrite omap_app. Qed.

Lemma forwarded_servedEvents cfg token reqs :
  omap isForward (servedEvents cfg token reqs) =
  upstreamOf cfg token <$>
    filter (λ req, mounted (mountPath (StorageContainer cfg)) (req_url req) = true) reqs.
Proof.
  induction reqs as [|req reqs IH]; [done|]. unfold servedEvents in *.
  rewrite bind_cons, omap_app, IH, filter_cons.
  destruct (mounted _ _); by case_decide.
Qed.

(** Every step keeps the process well formed. *)
Lemma Step_wf p i o p' : Process_wf p → Step p i o p' → Process_wf p'.
Proof.
  intros [Hw Hph] Hs. destruct Hs as [w srv w' Hp|w e w' Hp|srv w req out w' Hh|
    srv w req e w' Hh|w req|srv w|e w i]; simpl in *; try done.
  - split; [|exists (settings w); destruct (run_entry_Ok _ _ _ Hp) as (t & _ & ?);
             exists t; eauto using run_entry_Ok_wf].
    replace w' with (world_of entry w) by (unfold world_of; by rewrite Hp).
    by apply preserves_entry.
  - split; [|done].
    replace w' with (world_of entry w) by (unfold world_of; by rewrite Hp).
    by apply preserves_entry.
  - split; [|done]. destruct Hph as (cfg & token & _ & Happ). rewrite Happ in Hh.
    replace w' with (world_of (handle (createApp cfg token) req) w)
      by (unfold world_of; by rewrite Hh).
    by apply preserves_handle.
  - destruct Hph as (cfg & token & _ & Happ). by rewrite Happ, run_handle_advance in Hh.
Qed.

Lemma Run_wf p l p' : Process_wf p → Run Step p l p' → Process_wf p'.
Proof. intros Hp Hrun. induction Hrun; eauto using Step_wf. Qed.

(** Once the process has come up it serves. *)
Lemma Run_up_serving w0 l p :
  Run Step (launch w0) l p → (Start, Up) ∈ l → ∃ srv, phase p = Serving srv.
Proof.
  revert l p. apply (Run_ind_r Step (λ l p, (Start, Up) ∈ l → ∃ srv, phase p = Serving srv)).
  { intros Hin. by apply elem_of_nil in Hin. }
  intros l p i o p' _ IH Hs [Hin|Hin%list_elem_of_singleton]%elem_of_app.
  - destruct (IH Hin) as [srv Hsrv]. eauto using Step_serving.
  - simplify_eq. inversion Hs; subst. by eexists.
Qed.

(** What a serving process answers. *)
Lemma Step_serving_answer p srv cfg token req o p' :
  phase p = Serving srv → srv_app srv = createApp cfg token →
  Step p (Arrive req) o p' →
  o = Answer (absAnswer (StorageAccount cfg) (StorageContainer cfg) token req).
Proof.
  intros Hph Happ Hs. inversion Hs; subst; simpl in *; simplify_eq;
    match goal with
    | H : run (handle _ _) _ = _ |- _ =>
        rewrite Happ, run_handle_advance in H; by simplify_eq
    end.
Qed.

(** Only a serving process answers. *)
Lemma Step_answer_serving p req out p' :
  Step p (Arrive req) (Answer out) p' → ∃ srv, phase p = Serving srv.
Proof. inversion 1; subst; by eexists. Qed.

(** Every answer of a run is the one the rewrite rule gives with the
    token that was provisioned at the launch. *)
Lemma Run_answer w0 l p req out :
  Run Step (launch w0) l p → (Arrive req, Answer out) ∈ l →
  ∃ token,
    provisioned (StorageAccount (settings w0)) (StorageContainer (settings w0)) w0 = Ok token ∧
    out = absAnswer (StorageAccount (settings w0)) (StorageContainer (settings w0)) token req.
Proof.
  intros Hrun (l1 & l2 & ->)%list_elem_of_split.
  apply Run_app_inv in Hrun as (p1 & H1 & H2).
  inversion H2 as [|? ? ? p2 ? ? Hs _]; subst.
  destruct (Step_answer_serving _ _ _ _ Hs) as [srv Hsrv].
  pose proof (Run_Inv _ _ _ H1) as HI. unfold Inv in HI. rewrite Hsrv in HI.
  destruct HI as (_ & token & Happ & Hprov & _). exists token. split; [done|].
  pose proof (Step_serving_answer _ _ _ _ _ _ _ Hsrv Happ Hs). by simplify_eq.
Qed.

End Lifecycle.

(** * Theorems *)

Section LifecycleTheorems.
Context {sdk : BlobSdk} {parser : DotenvParser} {loader : ModuleLoader}.
Implicit Types (p : Process) (w : World) (srv : Server) (l : list (Input * Output)).

(** C11: every run of the process, from its launch on, is a run of the
    machine of the specification: it comes up at most once, answers
    nothing before, and answers every request with the rewrite rule and
    the one token it came up with. *)
Theorem refinement w0 l p :
  Run Step (launch w0) l p → ∃ a, Run AbsStep AUnready l a ∧ refines p a.
Proof. by apply Run_simulation. Qed.

(** While the process serves, its server is the one the start-up
    returned, its token is the one provisioned in the world of the launch,
    and its world is the one start-up left plus, for each answered request
    under the mount, one console line and one forwarded request. *)
Theorem serving_state w0 l p srv :
  Run Step (launch w0) l p → phase p = Serving srv →
  result_of entry w0 = Ok srv ∧
  ∃ token,
    srv_app srv = createApp (settings w0) token ∧
    provisioned (StorageAccount (settings w0)) (StorageContainer (settings w0)) w0 = Ok token ∧
    world p = advance 0 (servedEvents (settings w0) token (arrivals l)) (world_of entry w0).
Proof. intros HI%Run_Inv Hph. unfold Inv in HI. by rewrite Hph in HI. Qed.

(** C12: within one run, two answered requests for the same path get the
    same answer, however far apart they arrive: the token is never
    regenerated. *)
Theorem same_path_same_answer w0 l p req1 out1 req2 out2 :
  Run Step (launch w0) l p →
  (Arrive req1, Answer out1) ∈ l → (Arrive req2, Answer out2) ∈ l →
  req_url req1 = req_url req2 → out1 = out2.
Proof.
  intros Hrun H1 H2 Hurl.
  destruct (Run_simulation (launch w0) AUnready l p I Hrun) as (a & Habs & _).
  destruct (abs_answers _ _ _ Habs) as (ac & c & t & Hans & _).
  rewrite (Hans _ _ H1), (Hans _ _ H2). by apply absAnswer_proper.
Qed.

(** C13: the requests a serving process has sent upstream are exactly the
    answered requests whose path begins with the mount path, in the order
    they arrived, each rewritten with the token of the start-up. *)
Theorem forwarded_requests w0 l p srv :
  Run Step (launch w0) l p → phase p = Serving srv →
  ∃ token,
    provisioned (StorageAccount (settings w0)) (StorageContainer (settings w0)) w0 = Ok token ∧
    forwarded (world p) =
    forwarded (world_of entry w0) ++
    (upstreamOf (settings w0) token <$>
       filter (λ req, mounted ("/" +:+ StorageContainer (settings w0)) (req_url req) = true)
         (arrivals l)).
Proof.
  intros HI%Run_Inv Hph. unfold Inv in HI. rewrite Hph in HI.
  destruct HI as (_ & token & _ & Hprov & ->). exists token. split; [done|].
  by rewrite forwarded_advance, forwarded_servedEvents.
Qed.


(** A process on a machine where an import does not resolve goes down
    at its start with the loader's error for the first such import; the
    world is as it was, and by [phases_final] nothing is ever answered. *)
Lemma start_unresolved w i :
  unresolved w imports = Some i →
  Step (launch w) Start (Down (moduleError (imp_from i)))
    (mkProcess (Crashed (moduleError (imp_from i))) w).
Proof. intros H. constructor. rewrite run_entry. by rewrite H. Qed.


(** C21: every state the process reaches from a launch is well formed:
    each date it handed to the SDK is a value a [Date] can hold, the port
    it bound is a TCP port, each request it forwarded went to an [https]
    origin under the name of that origin, and while it serves, its
    application is the one lines 53-65 build from settings none of which
    is empty. *)
Theorem reachable_wf w0 l p :
  World_wf w0 → Run Step (launch w0) l p → Process_wf p.
Proof. intros Hw. by apply Run_wf. Qed.

(** C20: once the process has come up, every request that arrives is
    answered, by the rewrite rule and with the token of the start-up: it
    is never refused and the handler never fails. *)
Theorem once_up_always_answers w0 l1 req o l2 p :
  Run Step (launch w0) (l1 ++ (Arrive req, o) :: l2) p →
  (Start, Up) ∈ l1 →
  ∃ token,
    provisioned (StorageAccount (settings w0)) (StorageContainer (settings w0)) w0 = Ok token ∧
    o = Answer (absAnswer (StorageAccount (settings w0)) (StorageContainer (settings w0))
                  token req).
Proof.
  intros (p1 & H1 & H2)%Run_app_inv Hup.
  inversion H2 as [|? ? ? p2 ? ? Hs _]; subst.
  destruct (Run_up_serving _ _ _ H1 Hup) as [srv Hsrv].
  pose proof (Run_Inv _ _ _ H1) as HI. unfold Inv in HI. rewrite Hsrv in HI.
  destruct HI as (_ & token & Happ & Hprov & _). exists token. split; [done|].
  by eapply Step_serving_answer.
Qed.

End LifecycleTheorems.

(** ** The process and the storage service

    For every SDK whose tokens can be read back ([BlobSdkLaws]). *)

Section LifecycleToken.
Context {sdk : BlobSdk} {laws : BlobSdkLaws sdk} {parser : DotenvParser} {loader : ModuleLoader}.
Implicit Types (p : Process) (l : list (Input * Output)).

(** C14: every request a run forwards, however late, carries after its
    [?] the token of the start-up, and what the storage service accepts
    of its bearer was fixed then: a read of the configured container of
    the configured account over a secure transport, from the third
    clock reading of the start-up until 86400 ms after the fourth, both
    at the resolution of the token.  A request forwarded after that is
    refused by the service: the process never renews its token. *)
Theorem forwarded_token_capability w0 l p req up :
  Run Step (launch w0) l p →
  clockInRange w0 → (reading w0 3 + sasLifetime ≤ maxTime)%Z →
  (Arrive req, Answer (Forwarded up)) ∈ l →
  ∃ token,
    up_path up = req_url req +:+ "?" +:+ token ∧
    (∀ a, accepts token a = true ↔
          acc_operation a = OpRead ∧
          acc_account a = StorageAccount (settings w0) ∧
          acc_container a = StorageContainer (settings w0) ∧
          acc_secure a = true ∧
          (sas_resolution * (reading w0 2 / sas_resolution) ≤ acc_time a
             ≤ sas_resolution * ((reading w0 3 + sasLifetime) / sas_resolution))%Z) ∧
    (∀ a, (reading w0 3 + sasLifetime < acc_time a)%Z → accepts token a = false).
Proof.
  intros Hrun Hr Hle Hin. destruct (Run_answer _ _ _ _ _ Hrun Hin) as (token & Hp & Hout).
  exists token. unfold absAnswer in Hout. case_match; [|done]. simplify_eq.
  split; [done|]. split; intros a; [by eapply accepts_provisioned | by eapply accepts_expired].
Qed.

End LifecycleToken.

(** ** A run of the sample world *)

Section LifecycleExamples.
#[local] Existing Instance sampleSdk.
#[local] Existing Instance lineParser.
#[local] Existing Instance nodeModules.

Definition sampleInputs : list Input :=
  [Arrive sampleRequest; Start; Arrive sampleRequest;
   Arrive (mkRequest "local.teams.office.com" "/other/file.map");
   Arrive (mkRequest "example.org" "/maps/app/main.js.map"); Start].

Definition sampleRun : list (Input * Output) :=
  zip sampleInputs (exec (launch sampleWorld) sampleInputs).1.

Definition sampleEnd : Process := (exec (launch sampleWorld) sampleInputs).2.

Definition sampleAnswer : Outcome :=
  Forwarded
    {| up_origin := "https://acct.blob.core.windows.net";
       up_host := "acct.blob.core.windows.net";
       up_path := "/maps/app/main.js.map?" +:+
         "sv=2021-08-06&spr=https&st=1700000000010&se=1700000086415" +:+
         "&sip=0.0.0.0-255.255.255.255&sr=c&sp=r&sig=signed-%2Fblob%2Facct%2Fmaps" |}.

Lemma sampleRun_Run : Run Step (launch sampleWorld) sampleRun sampleEnd.
Proof. apply Run_exec. Qed.

Example sampleRun_outputs :
  sampleRun.*2 =
  [Refused; Up; Answer sampleAnswer; Answer NotFound; Answer sampleAnswer; Refused].
Proof. by vm_compute. Qed.

Lemma sampleEnd_phase : phase sampleEnd = Serving sampleServer.
Proof. by vm_compute. Qed.

(** On a machine without the packages the process is down at once, with
    the loader's error, and refuses what arrives. *)
Example uninstalled_outputs :
  (exec (launch (withFiles ∅ sampleWorld)) [Start; Arrive sampleRequest]).1 =
  [Down (Error "Cannot find module 'express'"); Refused].
Proof. by vm_compute. Qed.

Lemma refinement_witness :
  Run Step (launch sampleWorld) sampleRun sampleEnd ∧
  ∃ a, Run AbsStep AUnready sampleRun a ∧ refines sampleEnd a.
Proof.
  split; [exact sampleRun_Run |].
  exact (refinement sampleWorld sampleRun sampleEnd sampleRun_Run).
Defined.

Lemma serving_state_witness :
  Run Step (launch sampleWorld) sampleRun sampleEnd ∧
  phase sampleEnd = Serving sampleServer ∧
  (result_of entry sampleWorld = Ok sampleServer ∧
   ∃ token,
     srv_app sampleServer = createApp (settings sampleWorld) token ∧
     provisioned (StorageAccount (settings sampleWorld))
       (StorageContainer (settings sampleWorld)) sampleWorld = Ok token ∧
     world sampleEnd =
     advance 0 (servedEvents (settings sampleWorld) token (arrivals sampleRun))
       (world_of entry sampleWorld)).
Proof.
  split; [exact sampleRun_Run | split; [exact sampleEnd_phase |]].
  exact (serving_state sampleWorld sampleRun sampleEnd sampleServer
           sampleRun_Run sampleEnd_phase).
Defined.

Lemma sampleRun_answers :
  (Arrive sampleRequest, Answer sampleAnswer) ∈ sampleRun ∧
  (Arrive (mkRequest "example.org" "/maps/app/main.js.map"), Answer sampleAnswer) ∈ sampleRun.
Proof.
  split; apply list_elem_of_In; vm_compute; tauto.
Qed.

Lemma same_path_same_answer_witness :
  Run Step (launch sampleWorld) sampleRun sampleEnd ∧
  (Arrive sampleRequest, Answer sampleAnswer) ∈ sampleRun ∧
  (Arrive (mkRequest "example.org" "/maps/app/main.js.map"), Answer sampleAnswer) ∈ sampleRun ∧
  req_url sampleRequest = req_url (mkRequest "example.org" "/maps/app/main.js.map") ∧
  sampleAnswer = sampleAnswer.
Proof.
  split; [exact sampleRun_Run |].
  split; [apply sampleRun_answers | split; [apply sampleRun_answers |]].
  split; [reflexivity |].
  exact (same_path_same_answer sampleWorld sampleRun sampleEnd _ _ _ _ sampleRun_Run
           (proj1 sampleRun_answers) (proj2 sampleRun_answers) eq_refl).
Defined.

Lemma forwarded_requests_witness :
  Run Step (launch sampleWorld) sampleRun sampleEnd ∧
  phase sampleEnd = Serving sampleServer ∧
  ∃ token,
    provisioned (StorageAccount (settings sampleWorld))
      (StorageContainer (settings sampleWorld)) sampleWorld = Ok token ∧
    forwarded (world sampleEnd) =
    forwarded (world_of entry sampleWorld) ++
    (upstreamOf (settings sampleWorld) token <$>
       filter (λ req, mounted ("/" +:+ StorageContainer (settings sampleWorld))
                        (req_url req) = true)
         (arrivals sampleRun)).
Proof.
  split; [exact sampleRun_Run | split; [exact sampleEnd_phase |]].
  exact (forwarded_requests sampleWorld sampleRun sampleEnd sampleServer
           sampleRun_Run sampleEnd_phase).
Defined.



Lemma reachable_wf_witness :
  World_wf sampleWorld ∧ Run Step (launch sampleWorld) sampleRun sampleEnd ∧
  Process_wf sampleEnd.
Proof.
  assert (World_wf sampleWorld) as H by constructor.
  split; [exact H | split; [exact sampleRun_Run |]].
  exact (reachable_wf sampleWorld sampleRun sampleEnd H sampleRun_Run).
Defined.

Lemma once_up_always_answers_witness :
  let l1 := [(Arrive sampleRequest, Refused); (Start, Up)] in
  let l2 := drop 3 sampleRun in
  Run Step (launch sampleWorld)
    (l1 ++ (Arrive sampleRequest, Answer sampleAnswer) :: l2) sampleEnd ∧
  (Start, Up) ∈ l1 ∧
  ∃ token,
    provisioned (StorageAccount (settings sampleWorld))
      (StorageContainer (settings sampleWorld)) sampleWorld = Ok token ∧
    Answer sampleAnswer =
    Answer (absAnswer (StorageAccount (settings sampleWorld))
              (StorageContainer (settings sampleWorld)) token sampleRequest).
Proof.
  intros l1 l2.
  assert (Run Step (launch sampleWorld)
            (l1 ++ (Arrive sampleRequest, Answer sampleAnswer) :: l2) sampleEnd) as H1.
  { assert (l1 ++ (Arrive sampleRequest, Answer sampleAnswer) :: l2 = sampleRun) as ->
      by (by vm_compute).
    exact sampleRun_Run. }
  assert ((Start, Up) ∈ l1) as H2 by set_solver.
  split; [exact H1 | split; [exact H2 |]].
  exact (once_up_always_answers sampleWorld l1 sampleRequest _ l2 sampleEnd H1 H2).
Defined.

Lemma forwarded_token_capability_witness :
  Run Step (launch sampleWorld) sampleRun sampleEnd ∧
  clockInRange sampleWorld ∧ (reading sampleWorld 3 + sasLifetime ≤ maxTime)%Z ∧
  (Arrive sampleRequest, Answer sampleAnswer) ∈ sampleRun ∧
  ∃ token,
    "/maps/app/main.js.map?" +:+
      "sv=2021-08-06&spr=https&st=1700000000010&se=1700000086415" +:+
      "&sip=0.0.0.0-255.255.255.255&sr=c&sp=r&sig=signed-%2Fblob%2Facct%2Fmaps" =
    req_url sampleRequest +:+ "?" +:+ token ∧
    (∀ a, accepts token a = true ↔
          acc_operation a = OpRead ∧
          acc_account a = StorageAccount (settings sampleWorld) ∧
          acc_container a = StorageContainer (settings sampleWorld) ∧
          acc_secure a = true ∧
          (sas_resolution * (reading sampleWorld 2 / sas_resolution) ≤ acc_time a
             ≤ sas_resolution * ((reading sampleWorld 3 + sasLifetime) / sas_resolution))%Z) ∧
    (∀ a, (reading sampleWorld 3 + sasLifetime < acc_time a)%Z → accepts token a = false).
Proof.
  split; [exact sampleRun_Run | split; [exact sampleWorld_clockInRange |]].
  split; [apply sample_readings_in_range | split; [apply sampleRun_answers |]].
  exact (forwarded_token_capability sampleWorld sampleRun sampleEnd sampleRequest _
           sampleRun_Run sampleWorld_clockInRange (proj2 sample_readings_in_range)
           (proj1 sampleRun_answers)).
Defined.

(** The sample token at the service: a read is accepted half a second
    after the start-up, no write is, and two minutes later nothing. *)
Example sample_token_accepted :
  let token := "sv=2021-08-06&spr=https&st=1700000000010&se=1700000086415" +:+
               "&sip=0.0.0.0-255.255.255.255&sr=c&sp=r&sig=signed-%2Fblob%2Facct%2Fmaps" in
  accepts token (fetch "acct" "maps" proxyAddress 1700000000500) = true ∧
  accepts token (mkAccess OpWrite "acct" "maps" proxyAddress true 1700000000500) = false ∧
  accepts token (fetch "acct" "logs" proxyAddress 1700000000500) = false ∧
  accepts token (fetch "acct" "maps" proxyAddress 1700000120000) = false.
Proof. by vm_compute. Qed.

(** A client that sends a query of its own: the service finds, after the
    first [?] of the upstream path, the client's query with the token's
    first pair merged into its last value.  The reference SDK no longer
    reads a token in it. *)
Example sample_collision_refused :
  let token := "sv=2021-08-06&spr=https&st=1700000000010&se=1700000086415" +:+
               "&sip=0.0.0.0-255.255.255.255&sr=c&sp=r&sig=signed-%2Fblob%2Facct%2Fmaps" in
  splitQuery ("/maps/a.map?v=1" +:+ "?" +:+ token) = ("/maps/a.map", Some ("v=1?" +:+ token)) ∧
  Query.get "v" <$> Query.parse ("v=1?" +:+ token) = Some (Some "1?sv=2021-08-06") ∧
  accepts ("v=1?" +:+ token) (fetch "acct" "maps" proxyAddress 1700000000500) = false.
Proof. by vm_compute. Qed.

End LifecycleExamples.
