(* ===== verification/Service.v ===== *)
(** * Service: the storage service behind the proxy, and what a client
    of the proxy gets from it

    The proxy forwards; the blob comes from the storage service
    (specification, section 4.2: the upstream origin serves the blob
    content, and its errors reach the client as they are).  [serve] is
    the service's answer to one forwarded request: the request must name
    the account in its [Host] header, carry a token, and name a blob
    [/<container>/<blob>] of a container the token opens at that moment
    to the address the request comes from ([Storage.accepts]); then the
    blob is looked up.  It is written from the specification, not from
    code of the repository.

    [reply] composes it with the answer of the running process
    ([Lifecycle.Step]), and [client_reads_blob] is the development's
    end-to-end statement: a client that asks the proxy for a blob of the
    configured container gets the service's copy of it while the token of
    the start-up is valid, and a refusal at any other time. *)

From Stdlib Require Import ZArith Lia Ascii.
From stdpp Require Import base tactics option list strings gmap.
From S2P Require Import Prelude.
From S2P Require Import Ip.
From S2P Require Import Js.
From S2P Require Import Azure.
From S2P Require Import Token.
From S2P Require Import World.
From S2P Require Import Config.
From S2P Require Import Dotenv.
From S2P Require Import Sas.
From S2P Require Import Storage.
From S2P Require Import Proxy.
From S2P Require Import Index.
From S2P Require Import Imports.
From S2P Require Import Lifecycle.

#[local] Open Scope Z_scope.

(** ** The service *)

(** An account and its blobs, by container and name. *)
Record Service : Type := mkService {
  svc_account : string;
  svc_blobs : gmap (string * string) string;
}.

Inductive Response : Type :=
| Served (body : string)
| WrongHost
| Forbidden
| NoSuchBlob.

#[global] Instance Response_eq_dec : EqDecision Response.
Proof. solve_decision. Defined.

(** The container and the blob a path names: [/<container>/<blob>],
    the blob's name running to the end of the path. *)
Definition resource (path : string) : option (string * string) :=
  rest ← Str.strip "/" path;
  match Str.break "/" rest with
  | (container, Some blob) => Some (container, blob)
  | (_, None) => None
  end.

(** One forwarded request at the service, arriving from the address
    [from] at the service's time [now]. *)
Definition serve {sdk : BlobSdk} {laws : BlobSdkLaws sdk}
    (svc : Service) (from : Ipv4) (now : Z) (up : UpstreamRequest) : Response :=
  if negb (bool_decide (up_host up = svc_account svc +:+ ".blob.core.windows.net")) then WrongHost
  else
    match splitQuery (up_path up) with
    | (path, Some token) =>
        match resource path with
        | Some (container, blob) =>
            if accepts token
                 (mkAccess OpRead (svc_account svc) container from
                    (Str.starts_with "https://" (up_origin up)) now)
            then match svc_blobs svc !! (container, blob) with
                 | Some body => Served body
                 | None => NoSuchBlob
                 end
            else Forbidden
        | None => Forbidden
        end
    | (_, None) => Forbidden
    end.

(** What the client gets for an answer of the process: the service's
    response to the forwarded request, or nothing from the service when
    the request was not forwarded. *)
Definition reply {sdk : BlobSdk} {laws : BlobSdkLaws sdk}
    (svc : Service) (from : Ipv4) (now : Z) (out : Outcome) : option Response :=
  match out with
  | Forwarded up => Some (serve svc from now up)
  | NotFound => None
  end.

(** * Lemmas *)

Section ServiceLemmas.
Context {sdk : BlobSdk} {laws : BlobSdkLaws sdk}.
Implicit Types (svc : Service) (up : UpstreamRequest) (now : Z) (from : Ipv4)
  (account container blob token path : string).

Lemma resource_blob container blob :
  Str.count "/" container = 0%nat →
  resource ("/" +:+ container +:+ "/" +:+ blob) = Some (container, blob).
Proof.
  intros Hc. unfold resource. rewrite strip_app. cbn [mbind option_bind].
  change ("/" +:+ blob) with (String "/" blob). by rewrite break_app_fresh.
Qed.

Lemma mounted_blob container blob :
  mounted ("/" +:+ container) ("/" +:+ container +:+ "/" +:+ blob) = true.
Proof. unfold mounted. rewrite str_app_assoc. apply starts_with_app. Qed.

(** The request the proxy makes for a blob of a container, at the
    service of that account: served when the token opens the container
    to a secure read at that moment, refused otherwise. *)
Lemma serve_upstream svc from now container blob token :
  Str.count "/" container = 0%nat →
  Str.count "?" ("/" +:+ container +:+ "/" +:+ blob) = 0%nat →
  serve svc from now
    {| up_origin := "https://" +:+ svc_account svc +:+ ".blob.core.windows.net";
       up_host := svc_account svc +:+ ".blob.core.windows.net";
       up_path := ("/" +:+ container +:+ "/" +:+ blob) +:+ "?" +:+ token |} =
  if accepts token (fetch (svc_account svc) container from now)
  then match svc_blobs svc !! (container, blob) with
       | Some body => Served body
       | None => NoSuchBlob
       end
  else Forbidden.
Proof.
  intros Hc Hq. unfold serve. cbn [up_host up_path up_origin].
  rewrite bool_decide_true by done. cbn [negb].
  rewrite splitQuery_app_fresh by done. rewrite resource_blob by done.
  by rewrite starts_with_app.
Qed.

(** A request whose [Host] is not the account's endpoint is not
    served, whatever it carries. *)
Lemma serve_wrong_host svc from now up :
  up_host up ≠ svc_account svc +:+ ".blob.core.windows.net" →
  serve svc from now up = WrongHost.
Proof. intros H. unfold serve. by rewrite bool_decide_false. Qed.

(** Without a token nothing is served. *)
Lemma serve_no_token svc from now up :
  Str.count "?" (up_path up) = 0%nat →
  serve svc from now up = WrongHost ∨ serve svc from now up = Forbidden.
Proof.
  intros H. unfold serve. case_match; [by left | right].
  unfold splitQuery. by rewrite break_fresh.
Qed.

(** The proxy's own read is accepted exactly inside the window of the
    token's fields, whatever address it comes from. *)
Lemma accepts_fetch_provisioned account container from w0 token now :
  clockInRange w0 → reading w0 3 + sasLifetime ≤ maxTime →
  provisioned account container w0 = Ok token →
  accepts token (fetch account container from now) =
  inWindow (sf_startsOn (signedFields sas_resolution account container w0))
    (sf_expiresOn (signedFields sas_resolution account container w0)) now.
Proof.
  intros Hr Hle Hp. unfold accepts.
  rewrite (provisioned_token_fields _ _ _ _ Hr Hle Hp).
  unfold grants, signedFields, fetch.
  cbn [sf_account sf_container sf_permissions sf_ipRange sf_protocol sf_startsOn
       sf_expiresOn acc_account acc_container acc_operation acc_address acc_secure acc_time].
  by rewrite inIpRange_all, !bool_decide_true.
Qed.

End ServiceLemmas.

(** * End to end *)

Section EndToEnd.
Context {sdk : BlobSdk} {laws : BlobSdkLaws sdk} {parser : DotenvParser} {loader : ModuleLoader}.
Implicit Types (p : Process) (l : list (Input * Output)) (svc : Service) (from : Ipv4).

(** What the client gets for the answer the rewrite rule gives to a
    request for a blob, with a token of the provisioner. *)
Lemma reply_absAnswer account container w0 token svc from req blob now :
  clockInRange w0 → reading w0 3 + sasLifetime ≤ maxTime →
  provisioned account container w0 = Ok token →
  svc_account svc = account →
  Str.count "/" container = 0%nat →
  req_url req = "/" +:+ container +:+ "/" +:+ blob →
  Str.count "?" (req_url req) = 0%nat →
  reply svc from now (absAnswer account container token req) =
  Some (if inWindow (sf_startsOn (signedFields sas_resolution account container w0))
             (sf_expiresOn (signedFields sas_resolution account container w0)) now
        then match svc_blobs svc !! (container, blob) with
             | Some body => Served body
             | None => NoSuchBlob
             end
        else Forbidden).
Proof.
  intros Hr Hle Hp <- Hc Hurl Hq.
  unfold absAnswer. rewrite Hurl in Hq |- *. rewrite mounted_blob. cbn [reply]. f_equal.
  rewrite serve_upstream by done.
  by rewrite (accepts_fetch_provisioned _ _ from w0 token now Hr Hle Hp).
Qed.

(** C15: end to end.  In every run of the process, a client that asks
    for [/<container>/<blob>] of the configured container, with no
    query of its own, and is answered, receives what the storage service
    of the configured account holds under that name (or its "no such
    blob") when the service's clock is inside the window of the fields
    of the token of the start-up, and the service's refusal at every
    other time, whatever address the proxy reaches the service from. *)
Theorem client_reads_blob w0 l p svc from req out blob now :
  Run Step (launch w0) l p →
  clockInRange w0 → reading w0 3 + sasLifetime ≤ maxTime →
  svc_account svc = StorageAccount (settings w0) →
  Str.count "/" (StorageContainer (settings w0)) = 0%nat →
  req_url req = "/" +:+ StorageContainer (settings w0) +:+ "/" +:+ blob →
  Str.count "?" (req_url req) = 0%nat →
  (Arrive req, Answer out) ∈ l →
  let f := signedFields sas_resolution (StorageAccount (settings w0))
             (StorageContainer (settings w0)) w0 in
  reply svc from now out =
  Some (if inWindow (sf_startsOn f) (sf_expiresOn f) now
        then match svc_blobs svc !! (StorageContainer (settings w0), blob) with
             | Some body => Served body
             | None => NoSuchBlob
             end
        else Forbidden).
Proof.
  intros Hrun Hr Hle Hacc Hc Hurl Hq Hin f. subst f.
  destruct (Run_answer _ _ _ _ _ Hrun Hin) as (token & Hp & ->).
  by eapply reply_absAnswer.
Qed.

(** A request outside the mount gets nothing from the service. *)
Lemma client_not_mounted w0 l p svc from req out now :
  Run Step (launch w0) l p →
  mounted ("/" +:+ StorageContainer (settings w0)) (req_url req) = false →
  (Arrive req, Answer out) ∈ l →
  reply svc from now out = None.
Proof.
  intros Hrun Hm Hin. destruct (Run_answer _ _ _ _ _ Hrun Hin) as (token & _ & ->).
  unfold absAnswer. by rewrite Hm.
Qed.

End EndToEnd.

(** ** Examples *)

Section ServiceExamples.
#[local] Existing Instance sampleSdk.
#[local] Existing Instance lineParser.
#[local] Existing Instance nodeModules.

Definition sampleService : Service :=
  mkService "acct" {[ ("maps", "app/main.js.map") := "{ version: 3 }" ]}.

Lemma client_reads_blob_witness :
  Run Step (launch sampleWorld) sampleRun sampleEnd ∧
  clockInRange sampleWorld ∧ reading sampleWorld 3 + sasLifetime ≤ maxTime ∧
  svc_account sampleService = StorageAccount (settings sampleWorld) ∧
  Str.count "/" (StorageContainer (settings sampleWorld)) = 0%nat ∧
  req_url sampleRequest = "/" +:+ StorageContainer (settings sampleWorld) +:+ "/" +:+ "app/main.js.map" ∧
  Str.count "?" (req_url sampleRequest) = 0%nat ∧
  (Arrive sampleRequest, Answer sampleAnswer) ∈ sampleRun ∧
  let f := signedFields sas_resolution (StorageAccount (settings sampleWorld))
             (StorageContainer (settings sampleWorld)) sampleWorld in
  reply sampleService proxyAddress 1700000000500 sampleAnswer =
  Some (if inWindow (sf_startsOn f) (sf_expiresOn f) 1700000000500
        then match svc_blobs sampleService !!
                     (StorageContainer (settings sampleWorld), "app/main.js.map") with
             | Some body => Served body
             | None => NoSuchBlob
             end
        else Forbidden).
Proof.
  split; [exact sampleRun_Run | split; [exact sampleWorld_clockInRange |]].
  split; [apply sample_readings_in_range |].
  split; [reflexivity | split; [reflexivity | split; [reflexivity | split; [reflexivity |]]]].
  split; [apply sampleRun_answers |].
  exact (client_reads_blob sampleWorld sampleRun sampleEnd sampleService proxyAddress
           sampleRequest _ "app/main.js.map" 1700000000500 sampleRun_Run
           sampleWorld_clockInRange (proj2 sample_readings_in_range) eq_refl eq_refl eq_refl
           eq_refl (proj1 sampleRun_answers)).
Defined.

(** The sample client: the source map half a second after the start-up,
    a refusal two minutes after it; a blob the container does not hold;
    the same request at the service of another account. *)
Example sample_client_served :
  reply sampleService proxyAddress 1700000000500 sampleAnswer =
    Some (Served "{ version: 3 }") ∧
  reply sampleService proxyAddress 1700000120000 sampleAnswer = Some Forbidden.
Proof. by vm_compute. Qed.

Example sample_client_no_such_blob :
  serve sampleService proxyAddress 1700000000500
    (upstreamOf sampleConfig
       ("sv=2021-08-06&spr=https&st=1700000000010&se=1700000086415" +:+
        "&sip=0.0.0.0-255.255.255.255&sr=c&sp=r&sig=signed-%2Fblob%2Facct%2Fmaps")
       (mkRequest "localhost" "/maps/app/other.js.map")) = NoSuchBlob.
Proof. by vm_compute. Qed.

Example sample_other_account :
  ∀ up, sampleAnswer = Forwarded up →
    serve (mkService "other" ∅) proxyAddress 1700000000500 up = WrongHost.
Proof. by intros up [= <-]. Qed.

(** A token for a narrower range: the same request is refused when it
    comes from outside of it. *)
Example sample_narrow_range :
  let token := "sv=2021-08-06&spr=https&st=1700000000010&se=1700000086415" +:+
               "&sip=192.168.0.0-192.168.255.255&sr=c&sp=r" +:+
               "&sig=signed-%2Fblob%2Facct%2Fmaps" in
  serve sampleService proxyAddress 1700000000500
    (upstreamOf sampleConfig token sampleRequest) = Forbidden.
Proof. by vm_compute. Qed.

End ServiceExamples.
