(* ===== verification/Flight.v ===== *)
(** * Flight: the process with requests in flight

    [Lifecycle] answers a request in one transition.  The server of
    lines 67-83 does not: it forwards a request and goes on accepting
    others while the origin works on it, and relays the origin's answer
    when it comes (specification, section 5: requests are handled
    independently and concurrently, and share nothing but the token;
    section 7: an upstream failure is surfaced to the one client as an
    error and affects no other request).  This file holds that machine.

    A [Flight] is a process and the requests that wait for the origin,
    by connection ([pending]).  [Accept] runs the application on a
    request as [Lifecycle.Step] does and makes the connection wait when
    the request was forwarded; [Complete] gives the waiting connection
    the origin's answer, or the proxy's error response when the origin
    could not be reached.  A connection carries one request at a time:
    there is no transition for a request on a waiting connection nor
    for an answer nobody waits for.  The machine is written from the
    specification; what it runs on each request is the application of
    the program.

    [flight_simulation] erases the completions of a run and finds a run
    of [Lifecycle.Step]; [agree] is the equivalence of states that one
    connection can tell apart, and [flight_independent] shows that the
    events of a connection form a run of their own: no connection sees
    what happens on another. *)

From Stdlib Require Import ZArith Lia Ascii.
From stdpp Require Import base tactics option list strings gmap.
From S2P Require Import Prelude.
From S2P Require Import Ip.
From S2P Require Import Js.
From S2P Require Import Azure.
From S2P Require Import Token.
From S2P Require Import World.
From S2P Require Import Config.
From S2P Require Import Dotenv.
From S2P Require Import Sas.
From S2P Require Import Storage.
From S2P Require Import Proxy.
From S2P Require Import Server.
From S2P Require Import Index.
From S2P Require Import Imports.
From S2P Require Import Lifecycle.
From S2P Require Import Service.

(** ** Connections and what travels on them *)

Definition Conn : Type := nat.

(** What comes back from the origin: its response, or nothing. *)
Inductive UpstreamResult : Type :=
| Answered (r : Response)
| Unreachable.

(** What the proxy sends to a client that waited: the origin's response
    as it is, or its own error response. *)
Inductive ClientReply : Type :=
| Relayed (r : Response)
| ProxyError.

#[global] Instance ClientReply_eq_dec : EqDecision ClientReply.
Proof. solve_decision. Defined.

Definition relay (res : UpstreamResult) : ClientReply :=
  match res with
  | Answered r => Relayed r
  | Unreachable => ProxyError
  end.

Inductive FInput : Type :=
| FStart
| Accept (c : Conn) (req : Request)
| Complete (c : Conn) (res : UpstreamResult).

Inductive FOutput : Type :=
| Proc (o : Output)
| Reply (r : ClientReply).

(** The process and the upstream requests its connections wait for. *)
Record Flight : Type := mkFlight {
  proc : Process;
  pending : gmap Conn UpstreamRequest;
}.

(** A process that has just been launched: nothing is in flight. *)
Definition takeoff (w : World) : Flight := mkFlight (launch w) ∅.

(** A connection waits when its request was forwarded. *)
Definition register (c : Conn) (o : Output) (m : gmap Conn UpstreamRequest) :
    gmap Conn UpstreamRequest :=
  match o with
  | Answer (Forwarded up) => <[c := up]> m
  | _ => m
  end.

(** The events of a connection, and the events a connection can see:
    its own and the start of the process. *)
Definition onConn (c : Conn) (i : FInput) : bool :=
  match i with
  | FStart => false
  | Accept c' _ | Complete c' _ => bool_decide (c' = c)
  end.

Definition touches (c : Conn) (i : FInput) : bool :=
  match i with
  | FStart => true
  | Accept c' _ | Complete c' _ => bool_decide (c' = c)
  end.

(** What an event of a flight is to the process of [Lifecycle]. *)
Definition erase (io : FInput * FOutput) : list (Input * Output) :=
  match io with
  | (FStart, Proc o) => [(Start, o)]
  | (Accept _ req, Proc o) => [(Arrive req, o)]
  | _ => []
  end.

(** What one connection can tell of a state: the phase of the process,
    whether it waits and for what, and, before the start, the world the
    start will run in. *)
Definition agree (c : Conn) (s1 s2 : Flight) : Prop :=
  phase (proc s1) = phase (proc s2) ∧
  pending s1 !! c = pending s2 !! c ∧
  (phase (proc s1) = Unready → world (proc s1) = world (proc s2)).

(** A serving process runs an application that [createApp] built. *)
Definition built (p : Process) : Prop :=
  ∀ srv, phase p = Serving srv → ∃ cfg token, srv_app srv = createApp cfg token.

Section Flight.
Context {sdk : BlobSdk} {parser : DotenvParser} {loader : ModuleLoader}.

Inductive FStep : Flight → FInput → FOutput → Flight → Prop :=
| FStep_start p m o p' :
    Step p Start o p' →
    FStep (mkFlight p m) FStart (Proc o) (mkFlight p' m)
| FStep_accept p m c req o p' :
    m !! c = None → Step p (Arrive req) o p' →
    FStep (mkFlight p m) (Accept c req) (Proc o) (mkFlight p' (register c o m))
| FStep_complete p m c res up :
    m !! c = Some up →
    FStep (mkFlight p m) (Complete c res) (Reply (relay res)) (mkFlight p (delete c m)).

(** The transition as a function; [None] for an event that cannot
    happen. *)
Definition fnext (s : Flight) (i : FInput) : option (FOutput * Flight) :=
  match i with
  | FStart =>
      let '(o, p') := next (proc s) Start in Some (Proc o, mkFlight p' (pending s))
  | Accept c req =>
      match pending s !! c with
      | Some _ => None
      | None =>
          let '(o, p') := next (proc s) (Arrive req) in
          Some (Proc o, mkFlight p' (register c o (pending s)))
      end
  | Complete c res =>
      match pending s !! c with
      | Some _ => Some (Reply (relay res), mkFlight (proc s) (delete c (pending s)))
      | None => None
      end
  end.

Fixpoint fexec (s : Flight) (inputs : list FInput) : option (list FOutput * Flight) :=
  match inputs with
  | [] => Some ([], s)
  | i :: rest =>
      match fnext s i with
      | Some (o, s') =>
          match fexec s' rest with
          | Some (os, s'') => Some (o :: os, s'')
          | None => None
          end
      | None => None
      end
  end.

(** The run and the final state of a list of inputs. *)
Definition flightOf (s : Flight) (inputs : list FInput) : list (FInput * FOutput) :=
  zip inputs (default [] (fst <$> fexec s inputs)).

Definition landing (s : Flight) (inputs : list FInput) : Flight :=
  default s (snd <$> fexec s inputs).

(** * Lemmas *)

Implicit Types (s : Flight) (p : Process) (m : gmap Conn UpstreamRequest) (c : Conn)
  (i : FInput) (l : list (FInput * FOutput)) (w : World).

Lemma FStep_fnext s i o s' : FStep s i o s' ↔ fnext s i = Some (o, s').
Proof.
  split.
  - destruct 1 as [p m o p' Hs|p m c req o p' Hc Hs|p m c res up Hc]; unfold fnext; simpl.
    + apply Step_next in Hs. by rewrite Hs.
    + apply Step_next in Hs. by rewrite Hc, Hs.
    + by rewrite Hc.
  - destruct s as [p m], i as [|c req|c res]; unfold fnext; simpl.
    + destruct (next p Start) as [o' p'] eqn:Hn. intros [= <- <-].
      constructor. by apply Step_next.
    + destruct (m !! c) eqn:Hc; [done|].
      destruct (next p (Arrive req)) as [o' p'] eqn:Hn. intros [= <- <-].
      constructor; [done | by apply Step_next].
    + destruct (m !! c) eqn:Hc; [|done]. intros [= <- <-]. by econstructor.
Qed.

Lemma Run_fexec s inputs os s' :
  fexec s inputs = Some (os, s') → Run FStep s (zip inputs os) s'.
Proof.
  revert s os. induction inputs as [|i rest IH]; intros s os; simpl.
  { intros [= <- <-]. constructor. }
  destruct (fnext s i) as [[o s1]|] eqn:Hn; [|done].
  destruct (fexec s1 rest) as [[os' s2]|] eqn:He; [|done]. intros [= <- <-].
  econstructor; [by apply FStep_fnext | by apply IH].
Qed.

Lemma fexec_Run s l s' : Run FStep s l s' → fexec s (l.*1) = Some (l.*2, s').
Proof.
  induction 1 as [s|s i o s1 l s2 Hs _ IH]; [done|].
  apply FStep_fnext in Hs. rewrite !fmap_cons. cbn [fexec fst snd].
  by rewrite Hs, IH.
Qed.

Lemma Run_flightOf s inputs :
  is_Some (fexec s inputs) → Run FStep s (flightOf s inputs) (landing s inputs).
Proof.
  intros [[os s'] H]. unfold flightOf, landing. rewrite H. by apply Run_fexec.
Qed.

Lemma lookup_register c c' o m :
  register c' o m !! c =
  if decide (c' = c) then
    match o with Answer (Forwarded up) => Some up | _ => m !! c end
  else m !! c.
Proof.
  unfold register. case_decide as Hc; [subst|].
  - destruct o as [| |[up|]| |]; by rewrite ?lookup_insert_eq.
  - destruct o as [| |[up|]| |]; by rewrite ?lookup_insert_ne.
Qed.

(** ** The process of a flight *)

(** An event of a flight is at most one transition of the process. *)
Lemma FStep_erase s i o s' : FStep s i o s' → Run Step (proc s) (erase (i, o)) (proc s').
Proof.
  destruct 1; simpl; [ | |constructor]; (econstructor; [done | constructor]).
Qed.

Lemma Run_erase s l s' : Run FStep s l s' → Run Step (proc s) (l ≫= erase) (proc s').
Proof.
  induction 1 as [s|s i o s1 l s2 Hs _ IH]; [constructor|].
  rewrite bind_cons. eapply Run_app; [by apply FStep_erase | done].
Qed.

Lemma elem_of_erase_accept c req out l :
  (Accept c req, Proc (Answer out)) ∈ l → (Arrive req, Answer out) ∈ l ≫= erase.
Proof. intros H. apply list_elem_of_bind. eexists. split; [|exact H]. set_solver. Qed.

(** ** What a connection waits for *)

(** A connection waits exactly for the request it sent last, when that
    request was forwarded and has not been answered. *)
Lemma pending_last s0 l s c up :
  pending s0 = ∅ → Run FStep s0 l s → pending s !! c = Some up →
  ∃ l1 req l2,
    l = l1 ++ (Accept c req, Proc (Answer (Forwarded up))) :: l2 ∧
    Forall (λ io, onConn c io.1 = false) l2.
Proof.
  intros H0 Hrun. revert c up. revert l s Hrun.
  apply (Run_ind_r FStep (λ l s, ∀ c up, pending s !! c = Some up →
    ∃ l1 req l2, l = l1 ++ (Accept c req, Proc (Answer (Forwarded up))) :: l2 ∧
                 Forall (λ io, onConn c io.1 = false) l2)).
  { intros c up. by rewrite H0, lookup_empty. }
  intros l s' i o s'' _ IH Hs c up.
  destruct Hs as [p m o p' Hs|p m c' req o p' Hc Hs|p m c' res up' Hc]; simpl in *.
  - intros (l1 & req & l2 & -> & Hl2)%IH. exists l1, req, (l2 ++ [(FStart, Proc o)]).
    split; [by rewrite <-app_assoc | by apply Forall_app; split; [|repeat constructor]].
  - rewrite lookup_register. case_decide as Hcc; [subst c'|].
    + destruct o as [| |[up'|]| |]; rewrite ?Hc; try done. intros [= ->].
      exists l, req, []. by split.
    + intros (l1 & req' & l2 & -> & Hl2)%IH.
      exists l1, req', (l2 ++ [(Accept c' req, Proc o)]).
      split; [by rewrite <-app_assoc |]. apply Forall_app; split; [done|].
      repeat constructor. simpl. by rewrite bool_decide_false.
  - destruct (decide (c' = c)) as [->|Hcc]; [by rewrite lookup_delete_eq|].
    rewrite lookup_delete_ne by done. intros (l1 & req' & l2 & -> & Hl2)%IH.
    exists l1, req', (l2 ++ [(Complete c' res, Reply (relay res))]).
    split; [by rewrite <-app_assoc |]. apply Forall_app; split; [done|].
    repeat constructor. simpl. by rewrite bool_decide_false.
Qed.

(** ** What a connection can tell apart *)

#[global] Instance agree_equivalence c : Equivalence (agree c).
Proof.
  unfold agree. split.
  - by intros s.
  - intros s1 s2 (H1 & H2 & H3). repeat split; [done..|]. intros H. symmetry. apply H3. congruence.
  - intros s1 s2 s3 (H1 & H2 & H3) (H1' & H2' & H3'). repeat split; [congruence..|].
    intros H. rewrite H3 by done. apply H3'. congruence.
Qed.

Lemma built_launch w : built (launch w).
Proof. by intros srv. Qed.

Lemma Step_built p (i : Input) o p' : built p → Step p i o p' → built p'.
Proof.
  intros Hb Hs srv'. destruct Hs as [w srv w' Hp| | | | | |]; simpl; try apply Hb; try done.
  intros [= <-]. apply run_entry_Ok in Hp as (token & _ & Happ). eauto.
Qed.

Lemma FStep_built s i o s' : built (proc s) → FStep s i o s' → built (proc s').
Proof. intros Hb. destruct 1; simpl in *; eauto using Step_built. Qed.

(** A request leaves the phase as it is, and an unready process
    altogether. *)
Lemma Step_arrive_phase p req o p' :
  Step p (Arrive req) o p' → phase p' = phase p ∧ (phase p = Unready → p' = p).
Proof. by inversion 1. Qed.

(** The process does to one state what it does to another with the same
    phase: the answer to a request does not depend on the world, and an
    unready process is started in the same world. *)
Lemma Step_agree p1 p2 (i : Input) o p1' :
  built p1 → phase p1 = phase p2 → (phase p1 = Unready → world p1 = world p2) →
  Step p1 i o p1' →
  ∃ p2', Step p2 i o p2' ∧ phase p1' = phase p2' ∧
         (phase p1' = Unready → world p1' = world p2').
Proof.
  intros Hb Hph Hw Hs. destruct p2 as [ph2 w2]. simpl in *.
  destruct Hs as [w srv w' Hp|w e w' Hp|srv w req out w' Hh|srv w req e w' Hh|w req|srv w|e w i];
    simpl in *; subst ph2; try rewrite <-(Hw eq_refl).
  - eexists. split; [by constructor | done].
  - eexists. split; [by constructor | done].
  - destruct (Hb srv eq_refl) as (cfg & token & Happ). rewrite Happ in Hh.
    rewrite run_handle_advance in Hh. injection Hh as <- <-.
    eexists. split; [constructor; rewrite Happ; apply run_handle_advance | done].
  - destruct (Hb srv eq_refl) as (cfg & token & Happ). rewrite Happ in Hh.
    by rewrite run_handle_advance in Hh.
  - eexists. split; [constructor | done].
  - eexists. split; [constructor | done].
  - eexists. split; [constructor | done].
Qed.

(** An event the connection sees happens in every state it cannot tell
    from this one, with the same output. *)
Lemma FStep_agree_on c s1 s2 i o s1' :
  built (proc s1) → agree c s1 s2 → touches c i = true → FStep s1 i o s1' →
  ∃ s2', FStep s2 i o s2' ∧ agree c s1' s2'.
Proof.
  intros Hb (Hph & Hpe & Hw) Ht Hs. destruct s2 as [p2 m2].
  destruct Hs as [p m o p' Hs|p m c' req o p' Hc Hs|p m c' res up Hc]; simpl in *.
  - destruct (Step_agree _ p2 _ _ _ Hb Hph Hw Hs) as (p2' & Hs2 & Hph' & Hw').
    exists (mkFlight p2' m2). split; [by constructor | done].
  - apply bool_decide_eq_true in Ht as ->.
    destruct (Step_agree _ p2 _ _ _ Hb Hph Hw Hs) as (p2' & Hs2 & Hph' & Hw').
    exists (mkFlight p2' (register c o m2)). split; [constructor; [congruence | done]|].
    repeat split; [done| |done]. simpl. rewrite !lookup_register. by rewrite Hpe.
  - apply bool_decide_eq_true in Ht as ->.
    exists (mkFlight p2 (delete c m2)). split; [econstructor; by rewrite <-Hpe|].
    repeat split; [done| |done]. simpl. by rewrite !lookup_delete_eq.
Qed.

(** An event on another connection changes nothing the connection can
    tell. *)
Lemma FStep_agree_off c s i o s' :
  touches c i = false → FStep s i o s' → agree c s' s.
Proof.
  intros Ht Hs.
  destruct Hs as [p m o p' Hs|p m c' req o p' Hc Hs|p m c' res up Hc]; simpl in *; [done|..].
  - apply bool_decide_eq_false in Ht. apply Step_arrive_phase in Hs as [Hph Hun].
    repeat split; simpl; [done| |].
    + by rewrite lookup_register, decide_False.
    + intros H. rewrite Hun; [done | congruence].
  - apply bool_decide_eq_false in Ht.
    repeat split; simpl. by rewrite lookup_delete_ne.
Qed.

(** The events a connection sees, taken out of a run, are a run from any
    state the connection cannot tell from the first. *)
Lemma Run_agree c s1 s2 l s1' :
  built (proc s1) → agree c s1 s2 → Run FStep s1 l s1' →
  ∃ s2', Run FStep s2 (filter (λ io, touches c io.1 = true) l) s2' ∧ agree c s1' s2'.
Proof.
  intros Hb Ha Hrun. revert s2 Hb Ha.
  induction Hrun as [s|s i o s1 l s1' Hs _ IH]; intros s2 Hb Ha.
  { exists s2. split; [constructor | done]. }
  pose proof (FStep_built _ _ _ _ Hb Hs) as Hb1.
  destruct (touches c i) eqn:Ht.
  - rewrite filter_cons_True by done.
    destruct (FStep_agree_on _ _ _ _ _ _ Hb Ha Ht Hs) as (s2' & Hs2 & Ha').
    destruct (IH s2' Hb1 Ha') as (s2'' & Hrun2 & Ha'').
    exists s2''. split; [by econstructor | done].
  - rewrite filter_cons_False by (simpl; congruence).
    apply IH; [done|]. etrans; [|exact Ha]. by eapply FStep_agree_off.
Qed.

(** ** From a launch *)

(** Every answer of a flight from a launch is the one the rewrite rule
    gives with the token of the start-up. *)
Lemma flight_answer w0 l s c req out :
  Run FStep (takeoff w0) l s → (Accept c req, Proc (Answer out)) ∈ l →
  ∃ token,
    provisioned (StorageAccount (settings w0)) (StorageContainer (settings w0)) w0 = Ok token ∧
    out = absAnswer (StorageAccount (settings w0)) (StorageContainer (settings w0)) token req.
Proof.
  intros Hrun Hin%elem_of_erase_accept. apply Run_erase in Hrun.
  by eapply Run_answer.
Qed.

(** Before a reply, the connection's last event is the request that
    was forwarded for it. *)
Lemma reply_after_accept w0 l1 c res r l2 s :
  Run FStep (takeoff w0) (l1 ++ (Complete c res, Reply r) :: l2) s →
  r = relay res ∧
  ∃ l0 req up l0' s1,
    l1 = l0 ++ (Accept c req, Proc (Answer (Forwarded up))) :: l0' ∧
    Forall (λ io, onConn c io.1 = false) l0' ∧
    Run FStep (takeoff w0) l1 s1.
Proof.
  intros (s1 & H1 & H2)%Run_app_inv.
  inversion H2 as [|? ? ? s1' ? ? Hs _]; subst.
  inversion Hs as [| |p m ? ? up Hc]; subst.
  split; [done|].
  destruct (pending_last (takeoff w0) _ _ c up eq_refl H1 Hc) as (l0 & req & l0' & -> & Hoff).
  by exists l0, req, up, l0', (mkFlight p m).
Qed.

(** An upstream failure is the business of one connection: its client
    gets the proxy's error response, the process stays as it is and
    every other connection waits as before. *)
Lemma failure_isolated s c o s' :
  FStep s (Complete c Unreachable) o s' →
  o = Reply ProxyError ∧ proc s' = proc s ∧
  ∀ c', c' ≠ c → pending s' !! c' = pending s !! c'.
Proof.
  inversion 1; subst. repeat split. intros c' Hc. simpl. by rewrite lookup_delete_ne.
Qed.

End Flight.

(** * Theorems *)

Section FlightTheorems.
Context {sdk : BlobSdk} {parser : DotenvParser} {loader : ModuleLoader}.
Implicit Types (s : Flight) (c : Conn) (l : list (FInput * FOutput)).

(** The process of a flight is the process of [Lifecycle]: a run
    with requests in flight, its completions erased, is a run of the
    process that answers each request in one transition, with the same
    answers in the same order and the same world at the end. *)
Theorem flight_simulation s0 l s :
  Run FStep s0 l s → Run Step (proc s0) (l ≫= erase) (proc s).
Proof. apply Run_erase. Qed.

(** C18: no connection sees what happens on another.  The events of
    one connection and the start of the process, taken out of a run
    from a launch, are a run from the same launch, with the same
    answers and replies, and end in a state the connection cannot tell
    from the end of the whole run. *)
Theorem flight_independent w0 c l s :
  Run FStep (takeoff w0) l s →
  ∃ s', Run FStep (takeoff w0) (filter (λ io, touches c io.1 = true) l) s' ∧ agree c s s'.
Proof.
  intros Hrun. by apply (Run_agree c (takeoff w0) (takeoff w0) l s (built_launch w0)).
Qed.

(** C19: every reply answers one forwarded request of its own
    connection.  In a run from a launch, a reply on a connection is the
    origin's result relayed (or the proxy's error when there was none);
    the last event of that connection before it is a request that was
    forwarded, and what was forwarded is that request rewritten with the
    token of the start-up. *)
Theorem flight_reply_matches w0 l1 c res r l2 s :
  Run FStep (takeoff w0) (l1 ++ (Complete c res, Reply r) :: l2) s →
  r = relay res ∧
  ∃ l0 req l0' token,
    l1 = l0 ++ (Accept c req, Proc (Answer (Forwarded (upstreamOf (settings w0) token req)))) :: l0' ∧
    Forall (λ io, onConn c io.1 = false) l0' ∧
    provisioned (StorageAccount (settings w0)) (StorageContainer (settings w0)) w0 = Ok token.
Proof.
  intros (-> & l0 & req & up & l0' & s1 & -> & Hoff & H1)%reply_after_accept.
  split; [done|]. destruct (flight_answer w0 _ s1 c req (Forwarded up) H1) as (token & Hp & Hup).
  { set_solver. }
  exists l0, req, l0', token. repeat split; [|done..].
  unfold absAnswer in Hup. case_match; [|done]. by simplify_eq.
Qed.

End FlightTheorems.

(** With a service behind the proxy. *)
Section FlightService.
Context {sdk : BlobSdk} {laws : BlobSdkLaws sdk} {parser : DotenvParser} {loader : ModuleLoader}.
#[local] Open Scope Z_scope.

(** C16: end to end, with requests in flight.  In a run from a launch,
    when the origin is the storage service of the configured account and
    answers a connection at its time [now], the client of that
    connection, which asked for [/<container>/<blob>] with no query of
    its own, is sent what the service holds under that name if [now] is
    inside the window of the token of the start-up, and the service's
    refusal otherwise, whatever happened on other connections in
    between. *)
Theorem flight_client_reads_blob w0 l1 c res r l2 s svc from now :
  Run FStep (takeoff w0) (l1 ++ (Complete c res, Reply r) :: l2) s →
  clockInRange w0 → reading w0 3 + sasLifetime ≤ maxTime →
  svc_account svc = StorageAccount (settings w0) →
  Str.count "/" (StorageContainer (settings w0)) = 0%nat →
  ∃ l0 req up l0',
    l1 = l0 ++ (Accept c req, Proc (Answer (Forwarded up))) :: l0' ∧
    Forall (λ io, onConn c io.1 = false) l0' ∧
    ∀ blob,
      req_url req = "/" +:+ StorageContainer (settings w0) +:+ "/" +:+ blob →
      Str.count "?" (req_url req) = 0%nat →
      res = Answered (serve svc from now up) →
      let f := signedFields sas_resolution (StorageAccount (settings w0))
                 (StorageContainer (settings w0)) w0 in
      r = Relayed (if inWindow (sf_startsOn f) (sf_expiresOn f) now
                   then match svc_blobs svc !! (StorageContainer (settings w0), blob) with
                        | Some body => Served body
                        | None => NoSuchBlob
                        end
                   else Forbidden).
Proof.
  intros (-> & l0 & req & up & l0' & s1 & -> & Hoff & H1)%reply_after_accept Hr Hle Hacc Hc.
  exists l0, req, up, l0'. repeat split; [done|]. intros blob Hurl Hq -> f. subst f.
  destruct (flight_answer w0 _ s1 c req (Forwarded up) H1) as (token & Hp & Hup).
  { set_solver. }
  pose proof (reply_absAnswer _ _ w0 token svc from req blob now Hr Hle Hp Hacc Hc Hurl Hq) as H.
  rewrite <-Hup in H. cbn [reply] in H. injection H as H. cbn [relay]. by rewrite H.
Qed.

End FlightService.

(** ** A flight of the sample world *)

Section FlightExamples.
#[local] Existing Instance sampleSdk.
#[local] Existing Instance lineParser.
#[local] Existing Instance nodeModules.

Definition otherRequest : Request := mkRequest "example.org" "/maps/app/other.js.map".

(** A request before the start; the start; three requests on three
    connections, the third outside the mount; the origin answers the
    second, cannot be reached for the first; the first connection asks
    again and is answered. *)
Definition sampleFlightInputs : list FInput :=
  [Accept 1 sampleRequest; FStart;
   Accept 1 sampleRequest; Accept 2 otherRequest;
   Accept 3 (mkRequest "local.teams.office.com" "/other/file.map");
   Complete 2 (Answered NoSuchBlob); Complete 1 Unreachable;
   Accept 1 sampleRequest; Complete 1 (Answered (Served "{ version: 3 }"))].

Definition sampleFlight : list (FInput * FOutput) :=
  flightOf (takeoff sampleWorld) sampleFlightInputs.

Definition sampleLanding : Flight := landing (takeoff sampleWorld) sampleFlightInputs.

Lemma sampleFlight_Run : Run FStep (takeoff sampleWorld) sampleFlight sampleLanding.
Proof. apply Run_flightOf, is_Some_alt. by vm_compute. Qed.

Example sampleFlight_outputs :
  ∃ up,
    sampleFlight.*2 =
    [Proc Refused; Proc Up; Proc (Answer sampleAnswer); Proc (Answer (Forwarded up));
     Proc (Answer NotFound); Reply (Relayed NoSuchBlob); Reply ProxyError;
     Proc (Answer sampleAnswer); Reply (Relayed (Served "{ version: 3 }"))] ∧
    pending sampleLanding = ∅.
Proof. eexists. by vm_compute. Qed.

(** What cannot happen: a second request on a waiting connection, an
    answer nobody waits for. *)
Example sample_impossible :
  fexec (takeoff sampleWorld) [FStart; Accept 1 sampleRequest; Accept 1 otherRequest] = None ∧
  fexec (takeoff sampleWorld) [FStart; Complete 1 Unreachable] = None.
Proof. by vm_compute. Qed.

(** Connection 1 alone: the same answers and replies as in the flight. *)
Example sampleFlight_alone :
  filter (λ io, touches 1 io.1 = true) sampleFlight =
  flightOf (takeoff sampleWorld)
    [Accept 1 sampleRequest; FStart; Accept 1 sampleRequest; Complete 1 Unreachable;
     Accept 1 sampleRequest; Complete 1 (Answered (Served "{ version: 3 }"))].
Proof. by vm_compute. Qed.

Lemma flight_simulation_witness :
  Run FStep (takeoff sampleWorld) sampleFlight sampleLanding ∧
  Run Step (proc (takeoff sampleWorld)) (sampleFlight ≫= erase) (proc sampleLanding).
Proof.
  split; [exact sampleFlight_Run |].
  exact (flight_simulation (takeoff sampleWorld) sampleFlight sampleLanding sampleFlight_Run).
Defined.

Lemma flight_independent_witness :
  Run FStep (takeoff sampleWorld) sampleFlight sampleLanding ∧
  ∃ s', Run FStep (takeoff sampleWorld) (filter (λ io, touches 1 io.1 = true) sampleFlight) s' ∧
        agree 1 sampleLanding s'.
Proof.
  split; [exact sampleFlight_Run |].
  exact (flight_independent sampleWorld 1 sampleFlight sampleLanding sampleFlight_Run).
Defined.

Lemma sampleFlight_split n io :
  sampleFlight !! n = Some io →
  Run FStep (takeoff sampleWorld) (take n sampleFlight ++ io :: drop (S n) sampleFlight)
    sampleLanding.
Proof. intros H. rewrite (take_drop_middle _ _ _ H). exact sampleFlight_Run. Qed.

Lemma flight_reply_matches_witness :
  let l1 := take 6 sampleFlight in
  let l2 := drop 7 sampleFlight in
  Run FStep (takeoff sampleWorld) (l1 ++ (Complete 1 Unreachable, Reply ProxyError) :: l2)
    sampleLanding ∧
  (ProxyError = relay Unreachable ∧
   ∃ l0 req l0' token,
     l1 = l0 ++ (Accept 1 req,
                 Proc (Answer (Forwarded (upstreamOf (settings sampleWorld) token req)))) :: l0' ∧
     Forall (λ io, onConn 1 io.1 = false) l0' ∧
     provisioned (StorageAccount (settings sampleWorld))
       (StorageContainer (settings sampleWorld)) sampleWorld = Ok token).
Proof.
  intros l1 l2.
  assert (Run FStep (takeoff sampleWorld)
            (l1 ++ (Complete 1 Unreachable, Reply ProxyError) :: l2) sampleLanding) as H
    by (apply (sampleFlight_split 6); by vm_compute).
  split; [exact H |].
  exact (flight_reply_matches sampleWorld l1 1 Unreachable ProxyError l2 sampleLanding H).
Defined.

Lemma flight_client_reads_blob_witness :
  let l1 := take 8 sampleFlight in
  let res := Answered (Served "{ version: 3 }") in
  Run FStep (takeoff sampleWorld) (l1 ++ (Complete 1 res, Reply (relay res)) :: []) sampleLanding ∧
  clockInRange sampleWorld ∧ (reading sampleWorld 3 + sasLifetime ≤ maxTime)%Z ∧
  svc_account sampleService = StorageAccount (settings sampleWorld) ∧
  Str.count "/" (StorageContainer (settings sampleWorld)) = 0%nat ∧
  ∃ l0 req up l0',
    l1 = l0 ++ (Accept 1 req, Proc (Answer (Forwarded up))) :: l0' ∧
    Forall (λ io, onConn 1 io.1 = false) l0' ∧
    ∀ blob,
      req_url req = "/" +:+ StorageContainer (settings sampleWorld) +:+ "/" +:+ blob →
      Str.count "?" (req_url req) = 0%nat →
      res = Answered (serve sampleService proxyAddress 1700000000500%Z up) →
      let f := signedFields sas_resolution (StorageAccount (settings sampleWorld))
                 (StorageContainer (settings sampleWorld)) sampleWorld in
      relay res =
      Relayed (if inWindow (sf_startsOn f) (sf_expiresOn f) 1700000000500%Z
               then match svc_blobs sampleService !!
                            (StorageContainer (settings sampleWorld), blob) with
                    | Some body => Served body
                    | None => NoSuchBlob
                    end
               else Forbidden).
Proof.
  intros l1 res.
  assert (Run FStep (takeoff sampleWorld) (l1 ++ (Complete 1 res, Reply (relay res)) :: [])
            sampleLanding) as H by (apply (sampleFlight_split 8); by vm_compute).
  split; [exact H | split; [exact sampleWorld_clockInRange |]].
  split; [apply sample_readings_in_range | split; [reflexivity | split; [reflexivity |]]].
  exact (flight_client_reads_blob sampleWorld l1 1 res (relay res) [] sampleLanding
           sampleService proxyAddress 1700000000500%Z H sampleWorld_clockInRange
           (proj2 sample_readings_in_range) eq_refl eq_refl).
Defined.

End FlightExamples.
